(** * Enterprise Legal Operations Intelligence: a shallow embedding

    The development follows the three artefacts of the repository:

    - [Technical/Source_Code/legal_operations_main.py]: the class
      [LegalOperationsPlatform] (synthetic data, feature engineering, model
      training, automation ROI) and the script [main];
    - [Legal_Operations_Interactive_Analysis.py]: the Streamlit class
      [LegalOperationsApp]: its data generators, the session state, loading
      and training, the sidebar and the outcome prediction;
    - the Flask application [main.app], of which the repository only holds
      the tests.

    Python floats are idealised as exact rationals extended with the two
    infinities and NaN ([float]): no rounding and no overflow.  Exceptions
    are values of [exn]; a Python function is a computation in the monad
    [Py S], which threads the mutable state [S] the function can reach and
    either returns or raises.  The libraries (numpy.random, scikit-learn)
    are interfaces the development is parametrised over. *)

From Stdlib Require Import ZArith QArith Qabs Qround List String Lia Lqa.
From stdpp Require Import gmap strings list.

Local Open Scope string_scope.
Local Open Scope Z_scope.

(** ** A small Python runtime *)

Inductive exn : Type :=
| KeyError (key : string)
| ValueError (msg : string)
| TypeError (msg : string)
| NameError (name : string)
| IndexError (msg : string)
| ZeroDivisionError (msg : string)
| LibraryError (origin : string) (msg : string).

Inductive result (A : Type) : Type :=
| Return (a : A)
| Raise (e : exn).
Arguments Return {A} a.
Arguments Raise {A} e.

Definition Py (S A : Type) : Type := S -> result A * S.

Definition ret {S A} (a : A) : Py S A := fun s => (Return a, s).
Definition raise {S A} (e : exn) : Py S A := fun s => (Raise e, s).
Definition bind {S A B} (c : Py S A) (k : A -> Py S B) : Py S B :=
  fun s => match c s with
           | (Return a, s') => k a s'
           | (Raise e, s') => (Raise e, s')
           end.
Definition get {S} : Py S S := fun s => (Return s, s).
Definition put {S} (s : S) : Py S unit := fun _ => (Return tt, s).
Definition modify {S} (f : S -> S) : Py S unit := fun s => (Return tt, f s).
Definition lift {S A} (r : result A) : Py S A := fun s => (r, s).

Declare Scope py_scope.
Delimit Scope py_scope with py.
Notation "x <- c ;; k" := (bind c (fun x => k))
  (at level 100, c at next level, right associativity) : py_scope.
Notation "c ;;; k" := (bind c (fun _ => k))
  (at level 100, right associativity) : py_scope.
Local Open Scope py_scope.

(** [for x in xs: body x], collecting the values ([append] in the loop or a
    list comprehension). *)
Fixpoint for_each {S A B} (xs : list A) (body : A -> Py S B) : Py S (list B) :=
  match xs with
  | [] => ret []
  | x :: xs' => y <- body x ;; ys <- for_each xs' body ;; ret (y :: ys)
  end.

(** [range(lo, hi)] *)
Definition range (lo hi : Z) : list Z :=
  map (fun i => lo + Z.of_nat i) (seq 0 (Z.to_nat (hi - lo))).

(** [zoom] runs a computation on a component of the state. *)
Definition zoom {S T A} (proj : S -> T) (upd : T -> S -> S) (c : Py T A)
  : Py S A :=
  fun s => let (r, t) := c (proj s) in (r, upd t s).

(** ** Floats *)

Inductive float : Type :=
| Fin (q : Q)
| PInf
| NInf
| NaN.

Definition fneg (a : float) : float :=
  match a with
  | Fin q => Fin (- q)%Q
  | PInf => NInf
  | NInf => PInf
  | NaN => NaN
  end.

Definition fadd (a b : float) : float :=
  match a, b with
  | NaN, _ | _, NaN => NaN
  | Fin x, Fin y => Fin (x + y)%Q
  | PInf, NInf | NInf, PInf => NaN
  | PInf, _ | _, PInf => PInf
  | NInf, _ | _, NInf => NInf
  end.

Definition fsub (a b : float) : float := fadd a (fneg b).

(** The infinity with the sign of [q], NaN for zero. *)
Definition signed_inf (q : Q) : float :=
  match (q ?= 0)%Q with
  | Gt => PInf
  | Lt => NInf
  | Eq => NaN
  end.

Definition fmul (a b : float) : float :=
  match a, b with
  | NaN, _ | _, NaN => NaN
  | Fin x, Fin y => Fin (x * y)%Q
  | Fin x, PInf | PInf, Fin x => signed_inf x
  | Fin x, NInf | NInf, Fin x => signed_inf (- x)%Q
  | PInf, PInf | NInf, NInf => PInf
  | PInf, NInf | NInf, PInf => NInf
  end.

Definition fdiv (a b : float) : float :=
  match a, b with
  | NaN, _ | _, NaN => NaN
  | Fin x, Fin y => if Qeq_bool y 0 then signed_inf x else Fin (x / y)%Q
  | Fin _, (PInf | NInf) => Fin 0
  | PInf, Fin y => if Qle_bool 0 y then PInf else NInf
  | NInf, Fin y => if Qle_bool 0 y then NInf else PInf
  | (PInf | NInf), (PInf | NInf) => NaN
  end.

(** [a < b]; false as soon as one side is NaN. *)
Definition flt (a b : float) : bool :=
  match a, b with
  | NaN, _ | _, NaN => false
  | Fin x, Fin y => negb (Qle_bool y x)
  | NInf, (Fin _ | PInf) => true
  | Fin _, PInf => true
  | _, _ => false
  end.

Definition fabs (a : float) : float :=
  match a with
  | Fin q => Fin (Qabs q)
  | PInf | NInf => PInf
  | NaN => NaN
  end.

(** Python's builtin [min(a, b)]: [b] when [b < a], else [a]. *)
Definition py_min (a b : float) : float := if flt b a then b else a.

(** [x.clip(lo, hi)] on one element; NaN stays NaN. *)
Definition clip (lo hi : Q) (x : float) : float :=
  match x with
  | NaN => NaN
  | _ => let y := if flt x (Fin lo) then Fin lo else x in
         if flt (Fin hi) y then Fin hi else y
  end.

Definition isnan (a : float) : bool :=
  match a with
  | NaN => true
  | _ => false
  end.

(** [ndarray.sum()]: NaN propagates. *)
Definition np_sum (l : list float) : float := fold_right fadd (Fin 0) l.

(** [Series.sum()]: NaN entries are skipped first. *)
Definition Series_sum (l : list float) : float :=
  np_sum (List.filter (fun x => negb (isnan x)) l).

(** ** pandas: typed columns and frames *)

(** An element of an object column. *)
Inductive pyobj : Type :=
| PStr (s : string)
| PBool (b : bool)
| PNaN.

Inductive column : Type :=
| Int64 (l : list Z)
| Float64 (l : list float)
| Object (l : list pyobj)
| Bool (l : list bool)
| Datetime64 (l : list Z).

Definition col_len (c : column) : nat :=
  match c with
  | Int64 l => length l
  | Float64 l => length l
  | Object l => length l
  | Bool l => length l
  | Datetime64 l => length l
  end.

(** A frame with a [RangeIndex] of [nrows] labels and its columns in
    insertion order. *)
Record DataFrame : Type := mkDataFrame {
  nrows : nat;
  columns : list (string * column)
}.

Fixpoint assoc {A} (k : string) (l : list (string * A)) : option A :=
  match l with
  | [] => None
  | (k', v) :: l' => if String.eqb k k' then Some v else assoc k l'
  end.

Fixpoint assoc_set {A} (k : string) (v : A) (l : list (string * A))
  : list (string * A) :=
  match l with
  | [] => [(k, v)]
  | (k', v') :: l' =>
      if String.eqb k k' then (k, v) :: l' else (k', v') :: assoc_set k v l'
  end.

(** [df[col]] *)
Definition getitem (df : DataFrame) (col : string) : result column :=
  match assoc col (columns df) with
  | Some c => Return c
  | None => Raise (KeyError col)
  end.

(** [df[col] = values]: in place; the values must fit the index. *)
Definition setitem (col : string) (c : column) (df : DataFrame)
  : result DataFrame :=
  if Nat.eqb (col_len c) (nrows df)
  then Return (mkDataFrame (nrows df) (assoc_set col c (columns df)))
  else Raise (ValueError "Length of values does not match length of index").

(** [pd.DataFrame({...})] from a dict of equally long arrays. *)
Definition DataFrame_of_dict (d : list (string * column)) : result DataFrame :=
  match d with
  | [] => Return (mkDataFrame 0 [])
  | (_, c) :: _ =>
      if forallb (fun kc => Nat.eqb (col_len (snd kc)) (col_len c)) d
      then Return (mkDataFrame (col_len c)
                     (fold_left (fun acc kc => assoc_set (fst kc) (snd kc) acc) d []))
      else Raise (ValueError "All arrays must be of the same length")
  end.

(** Reading a column as numbers.  For a float64 column this is the array
    pandas computes with.  An integer or boolean column is read as its
    values, without bounds: that is what [Series.sum] totals, not what
    pandas' arithmetic computes by dtype (integers stay integers and wrap,
    booleans combine logically); an object column is not read at all.  The
    statements about arithmetic on columns therefore take float64 columns
    ([float_columns]), the columns [generate_legal_data] creates. *)
Definition as_float64 (c : column) : result (list float) :=
  match c with
  | Float64 l => Return l
  | Int64 l => Return (map (fun z => Fin (inject_Z z)) l)
  | Bool l => Return (map (fun b : bool => Fin (if b then 1 else 0)%Q) l)
  | _ => Raise (TypeError "unsupported operand type(s)")
  end.

(** [df[col]] where the code goes on with arithmetic. *)
Definition getnum (df : DataFrame) (col : string) : result (list float) :=
  match getitem df col with
  | Return c => as_float64 c
  | Raise e => Raise e
  end.

(** Elementwise operation on two arrays of one length. *)
Definition elementwise {B} (op : float -> float -> B) (a b : list float)
  : result (list B) :=
  if Nat.eqb (length a) (length b)
  then Return (zip_with op a b)
  else Raise (ValueError "operands could not be broadcast together").

(** A row as [iterrows] yields it: the values under the column labels. *)
Inductive cell : Type :=
| CInt (z : Z)
| CFloat (x : float)
| CObj (o : pyobj)
| CBool (b : bool)
| CDate (t : Z).

Definition col_at (c : column) (i : nat) : option cell :=
  match c with
  | Int64 l => CInt <$> l !! i
  | Float64 l => CFloat <$> l !! i
  | Object l => CObj <$> l !! i
  | Bool l => CBool <$> l !! i
  | Datetime64 l => CDate <$> l !! i
  end.

Definition row_of (df : DataFrame) (i : nat) : list (string * cell) :=
  omap (fun kc => match col_at (snd kc) i with
                  | Some v => Some (fst kc, v)
                  | None => None
                  end) (columns df).

Definition iterrows (df : DataFrame) : list (Z * list (string * cell)) :=
  map (fun i => (Z.of_nat i, row_of df i)) (seq 0 (nrows df)).

(** [row[col]] *)
Definition row_get (row : list (string * cell)) (col : string) : result cell :=
  match assoc col row with
  | Some v => Return v
  | None => Raise (KeyError col)
  end.

(** A row value used as a number. *)
Definition cell_float (v : cell) : result float :=
  match v with
  | CFloat x => Return x
  | CInt z => Return (Fin (inject_Z z))
  | CBool b => Return (Fin (if b then 1 else 0)%Q)
  | _ => Raise (TypeError "unsupported operand type(s)")
  end.

(** [d[key]] for a dict literal with string keys. *)
Definition dict_get {A} (d : list (string * A)) (key : cell) : result A :=
  match key with
  | CObj (PStr k) =>
      match assoc k d with
      | Some v => Return v
      | None => Raise (KeyError k)
      end
  | _ => Raise (KeyError "<not a key of the dict>")
  end.

(** [df[cols]] for a list of labels *)
Fixpoint select (df : DataFrame) (cols : list string)
  : result (list (string * column)) :=
  match cols with
  | [] => Return []
  | c :: cols' =>
      match getitem df c with
      | Raise e => Raise e
      | Return v =>
          match select df cols' with
          | Raise e => Raise e
          | Return vs => Return ((c, v) :: vs)
          end
      end
  end.

Fixpoint insert_sorted (x : float) (l : list float) : list float :=
  match l with
  | [] => [x]
  | y :: l' => if flt y x then y :: insert_sorted x l' else x :: l
  end.

(** [Series.quantile(q)]: linear interpolation between the two closest
    ranks of the values that are not NaN. *)
Definition quantile (q : Q) (l : list float) : float :=
  let vals := fold_right insert_sorted [] (List.filter (fun x => negb (isnan x)) l) in
  match vals with
  | [] => NaN
  | _ =>
      let pos := (q * inject_Z (Z.of_nat (length vals) - 1))%Q in
      let lo := Qfloor pos in
      let a := nth (Z.to_nat lo) vals NaN in
      let b := nth (Z.to_nat (lo + 1)) vals a in
      fadd a (fmul (fsub b a) (Fin (pos - inject_Z lo)))
  end.

(** [Series.mean()]: over the values that are not NaN. *)
Definition Series_mean (l : list float) : float :=
  let vals := List.filter (fun x => negb (isnan x)) l in
  fdiv (np_sum vals) (Fin (inject_Z (Z.of_nat (length vals)))).

(** [(a > b).astype(int)] *)
Definition gt_int (a b : float) : Z := if flt b a then 1 else 0.

(** ** Strings and dates *)

Fixpoint digits (fuel : nat) (n : Z) (acc : string) : string :=
  match fuel with
  | O => acc
  | S fuel' =>
      let acc' := String (Ascii.ascii_of_nat (48 + Z.to_nat (n mod 10))) acc in
      if n <? 10 then acc' else digits fuel' (n / 10) acc'
  end.

(** [str(n)] *)
Definition str (n : Z) : string :=
  if n <? 0 then String.append "-" (digits (S (Z.to_nat (Z.log2 (- n)))) (- n) "")
  else digits (S (Z.to_nat (Z.log2 n))) n "".

Fixpoint zeros (k : nat) : string :=
  match k with
  | O => ""
  | S k' => String.append "0" (zeros k')
  end.

(** The format [{n:0wd}] for [n >= 0]. *)
Definition zfill (w : nat) (n : Z) : string :=
  let d := str n in String.append (zeros (w - String.length d)) d.

(** Days from 1970-01-01 to the given civil date. *)
Definition days_from_civil (y m d : Z) : Z :=
  let y' := if m <=? 2 then y - 1 else y in
  let era := y' / 400 in
  let yoe := y' - era * 400 in
  let doy := (153 * (if m <=? 2 then m + 9 else m - 3) + 2) / 5 + d - 1 in
  let doe := yoe * 365 + yoe / 4 - yoe / 100 + doy in
  era * 146097 + doe - 719468.

Definition day_ns : Z := 86400 * 1000000000.

(** [pd.Timestamp('y-m-d')] in nanoseconds since the epoch. *)
Definition Timestamp (y m d : Z) : Z := days_from_civil y m d * day_ns.

(** [pd.date_range(start, end, periods=n)]: [n] evenly spaced stamps, the
    spacing computed exactly and cut to the nanosecond. *)
Definition date_range (start stop : Z) (periods : Z) : result (list Z) :=
  if periods <? 0 then Raise (ValueError "Number of samples must be non-negative")
  else Return (map (fun i => if periods =? 1 then start
                             else start + (stop - start) * Z.of_nat i / (periods - 1))
                 (seq 0 (Z.to_nat periods))).

(** [pd.date_range(start, end, freq='M')] for whole years [y0..y1]: the last
    day of every month. *)
Definition month_ends (y0 y1 : Z) : list Z :=
  flat_map (fun y =>
      map (fun m => (if m =? 12 then days_from_civil (y + 1) 1 1
                     else days_from_civil y (m + 1) 1) * day_ns - day_ns)
        (range 1 13))
    (range y0 (y1 + 1)).

(** ** Masked assignment *)

Definition count (mask : list bool) : nat := length (List.filter (fun b => b) mask).

(** The column [df.loc[mask, new] = values] creates: the values in the rows
    of the mask, in order, and [fill] elsewhere. *)
Fixpoint scatter {A} (fill : A) (mask : list bool) (vals : list A) : list A :=
  match mask with
  | [] => []
  | false :: mask' => fill :: scatter fill mask' vals
  | true :: mask' =>
      match vals with
      | v :: vals' => v :: scatter fill mask' vals'
      | [] => fill :: scatter fill mask' []
      end
  end.

Definition loc_new {A} (fill : A) (mask : list bool) (vals : list A)
  : result (list A) :=
  if Nat.eqb (count mask) (length vals) then Return (scatter fill mask vals)
  else Raise (ValueError "cannot set using a list-like indexer of another length").

(** [df.loc[mask, col]]: the rows of the mask. *)
Fixpoint loc_rows {A} (mask : list bool) (l : list A) : list A :=
  match mask, l with
  | true :: mask', x :: l' => x :: loc_rows mask' l'
  | false :: mask', _ :: l' => loc_rows mask' l'
  | _, _ => []
  end.

(** [df[col] == s] on an object column *)
Definition eq_str (s : string) (o : pyobj) : bool :=
  match o with
  | PStr s' => String.eqb s' s
  | _ => false
  end.

Definition as_object (c : column) : result (list pyobj) :=
  match c with
  | Object l => Return l
  | _ => Raise (TypeError "not an object column")
  end.

Definition as_datetime (c : column) : result (list Z) :=
  match c with
  | Datetime64 l => Return l
  | _ => Raise (TypeError "not a datetime column")
  end.

(** ** numpy.random

    The global [RandomState] of [numpy.random] behind an interface: the
    primitive draws are fields, with the range facts numpy documents for
    them.  A sized draw is the single draw repeated along the output. *)

Class NumpyRandom : Type := {
  RandomState : Type;
  (** the state [np.random.seed(k)] installs *)
  seeded : Z -> RandomState;
  (** [random_sample()]: a float in the half-open interval [0, 1) *)
  random_sample : RandomState -> Q * RandomState;
  (** [randint(lo, hi)]: an integer in [lo, hi) *)
  randint : Z -> Z -> RandomState -> Z * RandomState;
  normal : Q -> Q -> RandomState -> Q * RandomState;
  lognormal : Q -> Q -> RandomState -> Q * RandomState;
  exponential : Q -> RandomState -> Q * RandomState;
  beta : Q -> Q -> RandomState -> Q * RandomState;
  poisson : Q -> RandomState -> Z * RandomState;
  random_sample_range : forall s,
    (0 <= fst (random_sample s))%Q /\ (fst (random_sample s) < 1)%Q;
  randint_range : forall lo hi s,
    lo < hi -> lo <= fst (randint lo hi s) < hi;
  lognormal_pos : forall mean sigma s, (0 < fst (lognormal mean sigma s))%Q
}.

(** [a[i]] on a Python list or array *)
Definition list_get {A} (a : list A) (i : Z) : result A :=
  if i <? 0 then Raise (IndexError "index out of range")
  else match a !! Z.to_nat i with
       | Some x => Return x
       | None => Raise (IndexError "index out of range")
       end.

(** [cumsum] *)
Fixpoint cumsum_from (acc : Q) (p : list Q) : list Q :=
  match p with
  | [] => []
  | x :: p' => (acc + x)%Q :: cumsum_from (acc + x)%Q p'
  end.
Definition cumsum (p : list Q) : list Q := cumsum_from 0%Q p.

(** [cdf.searchsorted(u, side='right')] on an ascending array: the position
    of the first entry above [u]. *)
Fixpoint searchsorted_right (cdf : list Q) (u : Q) : nat :=
  match cdf with
  | [] => O
  | c :: cdf' => if Qle_bool c u then S (searchsorted_right cdf' u) else O
  end.

Definition finite (x : float) : option Q :=
  match x with
  | Fin q => Some q
  | _ => None
  end.

(** The checks [choice] makes on [p]: one weight per element, none NaN or
    negative, summing to one. *)
Definition check_p {A} (a : list A) (p : list float) : result (list Q) :=
  match mapM finite p with
  | None => Raise (ValueError "probabilities contain NaN")
  | Some q =>
      if negb (Nat.eqb (length a) (length q))
      then Raise (ValueError "'a' and 'p' must have same size")
      else if negb (forallb (Qle_bool 0) q)
      then Raise (ValueError "probabilities are not non-negative")
      else if negb (Qeq_bool (fold_right Qplus 0%Q q) 1)
      then Raise (ValueError "probabilities do not sum to 1")
      else Return q
  end.

Section Numpy.
Context `{NumpyRandom}.

Definition draw {A} (f : RandomState -> A * RandomState) : Py RandomState A :=
  fun s => let (a, s') := f s in (Return a, s').

(** [np.random.seed(k)] *)
Definition np_random_seed (k : Z) : Py RandomState unit := put (seeded k).

(** A draw with [size=n]. *)
Definition sized {A} (n : Z) (one : Py RandomState A) : Py RandomState (list A) :=
  if n <? 0 then raise (ValueError "negative dimensions are not allowed")
  else for_each (seq 0 (Z.to_nat n)) (fun _ => one).

(** [np.random.choice(a)] *)
Definition choice1 {A} (a : list A) : Py RandomState A :=
  match a with
  | [] => raise (ValueError "'a' cannot be empty unless no samples are taken")
  | _ => i <- draw (randint 0 (Z.of_nat (length a))) ;; lift (list_get a i)
  end.

(** One weighted draw: the inverse of the cumulative weights at a uniform
    sample. *)
Definition pick {A} (a : list A) (q : list Q) : Py RandomState A :=
  let cdf := cumsum q in
  let cdf := map (fun c => (c / List.last cdf 0)%Q) cdf in
  u <- draw random_sample ;;
  lift (list_get a (Z.of_nat (searchsorted_right cdf u))).

(** [np.random.choice(a, p=p)] *)
Definition choice1_p {A} (a : list A) (p : list float) : Py RandomState A :=
  match a with
  | [] => raise (ValueError "'a' cannot be empty unless no samples are taken")
  | _ => q <- lift (check_p a p) ;; pick a q
  end.

(** [np.random.choice(a, n)] and [np.random.choice(a, n, p=p)] *)
Definition choice {A} (a : list A) (n : Z) : Py RandomState (list A) :=
  sized n (choice1 a).
Definition choice_p {A} (a : list A) (n : Z) (p : list float)
  : Py RandomState (list A) :=
  match a with
  | [] => raise (ValueError "'a' cannot be empty unless no samples are taken")
  | _ => q <- lift (check_p a p) ;; sized n (pick a q)
  end.

(** [np.random.uniform(lo, hi)] *)
Definition uniform (lo hi : Q) : Py RandomState Q :=
  u <- draw random_sample ;; ret (lo + (hi - lo) * u)%Q.
End Numpy.

(** ** scikit-learn

    The estimators and helpers [legal_operations_main.py] uses, as an
    interface: each call either raises or hands back its value.  Nothing is
    assumed about what the library computes. *)

Inductive estimator_class : Type :=
| RandomForestClassifier
| GradientBoostingRegressor
| RandomForestRegressor
| StandardScaler
| LabelEncoder.

Definition class_name (c : estimator_class) : string :=
  match c with
  | RandomForestClassifier => "RandomForestClassifier"
  | GradientBoostingRegressor => "GradientBoostingRegressor"
  | RandomForestRegressor => "RandomForestRegressor"
  | StandardScaler => "StandardScaler"
  | LabelEncoder => "LabelEncoder"
  end.

(** The classes of [sklearn.ensemble] predict; the two of
    [sklearn.preprocessing] transform. *)
Definition is_predictor (c : estimator_class) : bool :=
  match c with
  | RandomForestClassifier | GradientBoostingRegressor | RandomForestRegressor => true
  | StandardScaler | LabelEncoder => false
  end.

Class Sklearn : Type := {
  ndarray : Type;
  (** what fitting leaves inside an estimator *)
  fitted : Type;
  train_test_split :
    DataFrame -> column -> column -> column -> column -> Q -> Z ->
    result ((DataFrame * DataFrame) * (column * column) * (column * column)
            * (column * column) * (column * column));
  scaler_fit_transform : DataFrame -> result (fitted * ndarray);
  scaler_transform : fitted -> DataFrame -> result ndarray;
  encoder_fit_transform : column -> result (fitted * column);
  encoder_transform : fitted -> column -> result column;
  fit : estimator_class -> list (string * Q) -> ndarray -> column -> result fitted;
  predict : estimator_class -> fitted -> ndarray -> result column;
  feature_importances_ : fitted -> list float;
  accuracy_score : column -> column -> result float;
  mean_squared_error : column -> column -> result float
}.

Section Engine.
Context `{NumpyRandom} `{Sklearn}.

(** An estimator object: its class, constructor arguments and, once
    fitted, the fitted state. *)
Record estimator : Type := mkEstimator {
  cls : estimator_class;
  params : list (string * Q);
  state : option fitted
}.

(** ** [LegalOperationsPlatform] *)

Record LegalOperationsPlatform : Type := mkPlatform {
  models : gmap string estimator;
  scalers : gmap string estimator;
  encoders : gmap string estimator;
  vectorizers : gmap string estimator;
  is_trained : bool
}.

(** [__init__] *)
Definition init : LegalOperationsPlatform :=
  mkPlatform ∅ ∅ ∅ ∅ false.

(** What a method of the platform can reach besides its arguments: the
    object itself and the global state of [numpy.random]. *)
Record World : Type := mkWorld {
  np_random : RandomState;
  self : LegalOperationsPlatform
}.

Definition rnd {A} (c : Py RandomState A) : Py World A :=
  zoom np_random (fun r w => mkWorld r (self w)) c.

Definition scale (k : Q) (a : list float) : list float :=
  map (fun x => fmul x (Fin k)) a.

(** [x / y] on Python floats *)
Definition py_div (x y : float) : result float :=
  match y with
  | Fin q => if Qeq_bool q 0 then Raise (ZeroDivisionError "float division by zero")
             else Return (fdiv x y)
  | _ => Return (fdiv x y)
  end.

Definition practice_areas : list string :=
  ["Corporate"; "Litigation"; "IP"; "Employment"; "Real Estate"; "Tax"; "Regulatory"].
Definition document_types : list string :=
  ["Contract"; "Brief"; "Motion"; "Discovery"; "Compliance"; "Opinion"; "Agreement"].
Definition case_outcomes : list string :=
  ["Won"; "Lost"; "Settled"; "Dismissed"; "Ongoing"].
Definition complexity_levels : list string :=
  ["Low"; "Medium"; "High"; "Very High"].
Definition client_types : list string :=
  ["Fortune 500"; "Mid-Market"; "Startup"; "Government"; "Individual"].

(** The body of the first loop: the outcome weights of one row. *)
Definition outcome_probs_of_row {S} (row : list (string * cell))
  : Py S (list float) :=
  c <- lift (row_get row "complexity") ;;
  complexity_factor <-
    lift (dict_get [("Low", 8 # 10); ("Medium", 6 # 10); ("High", 4 # 10);
                    ("Very High", 2 # 10)]%Q c) ;;
  he <- lift (row_get row "hours_estimated") ;;
  he <- lift (cell_float he) ;;
  ha <- lift (row_get row "hours_actual") ;;
  ha <- lift (cell_float ha) ;;
  ratio <- lift (py_div he ha) ;;
  let efficiency_factor := py_min (Fin 1) ratio in
  let win_prob := fmul (fmul (Fin complexity_factor) efficiency_factor) (Fin (7 # 10)) in
  let settle_prob := Fin (3 # 10) in
  let loss_prob := fsub (fsub (Fin 1) win_prob) settle_prob in
  (* Won, Lost, Settled, Dismissed, Ongoing *)
  ret [win_prob; loss_prob; settle_prob; Fin (5 # 100); Fin (5 # 100)].

(** The body of the second loop: normalise, then draw. *)
Definition draw_outcome (probs : list float) : Py RandomState string :=
  let total := np_sum probs in
  let probs := map (fun x => fdiv x total) probs in
  choice1_p case_outcomes probs.

(** The seeding and the frame of the sampled columns, with which the
    function starts. *)
Definition case_table (n_cases : Z) : Py World DataFrame :=
  rnd (np_random_seed 42) ;;;
  practice_area <- rnd (choice practice_areas n_cases) ;;
  document_type <- rnd (choice document_types n_cases) ;;
  complexity <- rnd (choice complexity_levels n_cases) ;;
  client_type <- rnd (choice client_types n_cases) ;;
  case_value <- rnd (sized n_cases (draw (lognormal 13 (15 # 10)))) ;;
  hours_estimated <- rnd (sized n_cases (draw (lognormal 5 1))) ;;
  hours_actual <- rnd (sized n_cases (draw (lognormal (52 # 10) (12 # 10)))) ;;
  partner_hours <- rnd (sized n_cases (draw (exponential 20))) ;;
  associate_hours <- rnd (sized n_cases (draw (exponential 40))) ;;
  paralegal_hours <- rnd (sized n_cases (draw (exponential 15))) ;;
  document_pages <- rnd (sized n_cases (draw (lognormal 6 1))) ;;
  review_time_hours <- rnd (sized n_cases (draw (lognormal 3 (8 # 10)))) ;;
  client_satisfaction <- rnd (sized n_cases (draw (normal (75 # 10) (15 # 10)))) ;;
  billing_rate_partner <- rnd (sized n_cases (draw (normal 800 150))) ;;
  billing_rate_associate <- rnd (sized n_cases (draw (normal 400 80))) ;;
  billing_rate_paralegal <- rnd (sized n_cases (draw (normal 150 30))) ;;
  lift (DataFrame_of_dict
    [ ("case_id", Int64 (range 1 (n_cases + 1)));
      ("practice_area", Object (map PStr practice_area));
      ("document_type", Object (map PStr document_type));
      ("complexity", Object (map PStr complexity));
      ("client_type", Object (map PStr client_type));
      ("case_value", Float64 (map Fin case_value));
      ("hours_estimated", Float64 (map Fin hours_estimated));
      ("hours_actual", Float64 (map Fin hours_actual));
      ("partner_hours", Float64 (map Fin partner_hours));
      ("associate_hours", Float64 (map Fin associate_hours));
      ("paralegal_hours", Float64 (map Fin paralegal_hours));
      ("document_pages", Float64 (map Fin document_pages));
      ("review_time_hours", Float64 (map Fin review_time_hours));
      ("client_satisfaction", Float64 (map (clip 1 10) (map Fin client_satisfaction)));
      ("billing_rate_partner", Float64 (map Fin billing_rate_partner));
      ("billing_rate_associate", Float64 (map Fin billing_rate_associate));
      ("billing_rate_paralegal", Float64 (map Fin billing_rate_paralegal)) ]).

Definition generate_legal_data (n_cases : Z) : Py World DataFrame :=
  data <- case_table n_cases ;;
  (* Generate case outcomes based on complexity and hours *)
  outcome_probs <- for_each (iterrows data)
                     (fun ir => outcome_probs_of_row (snd ir)) ;;
  outcomes <- for_each outcome_probs (fun probs => rnd (draw_outcome probs)) ;;
  data <- lift (setitem "case_outcome" (Object (map PStr outcomes)) data) ;;
  (* Calculate financial metrics *)
  ph <- lift (getnum data "partner_hours") ;;
  brp <- lift (getnum data "billing_rate_partner") ;;
  t1 <- lift (elementwise fmul ph brp) ;;
  ah <- lift (getnum data "associate_hours") ;;
  bra <- lift (getnum data "billing_rate_associate") ;;
  t2 <- lift (elementwise fmul ah bra) ;;
  t12 <- lift (elementwise fadd t1 t2) ;;
  lh <- lift (getnum data "paralegal_hours") ;;
  brl <- lift (getnum data "billing_rate_paralegal") ;;
  t3 <- lift (elementwise fmul lh brl) ;;
  total_cost <- lift (elementwise fadd t12 t3) ;;
  data <- lift (setitem "total_cost" (Float64 total_cost) data) ;;
  cv <- lift (getnum data "case_value") ;;
  tc <- lift (getnum data "total_cost") ;;
  margin <- lift (elementwise fsub cv tc) ;;
  cv' <- lift (getnum data "case_value") ;;
  margin <- lift (elementwise fdiv margin cv') ;;
  data <- lift (setitem "profit_margin" (Float64 (scale 100 margin)) data) ;;
  he <- lift (getnum data "hours_estimated") ;;
  ha <- lift (getnum data "hours_actual") ;;
  ratio <- lift (elementwise fdiv he ha) ;;
  data <- lift (setitem "efficiency_ratio" (Float64 ratio) data) ;;
  (* Generate document text features (simplified) *)
  dp <- lift (getnum data "document_pages") ;;
  rt <- lift (getnum data "review_time_hours") ;;
  score <- lift (elementwise fadd (scale (3 # 10) dp) (scale (4 # 10) rt)) ;;
  noise <- rnd (sized n_cases (draw (normal 50 15))) ;;
  score <- lift (elementwise fadd score (map Fin noise)) ;;
  data <- lift (setitem "document_complexity_score"
                  (Float64 (map (clip 0 100) score)) data) ;;
  ret data.

(** ** Feature engineering, on the caller's frame *)

Definition col (c : string) : Py DataFrame (list float) :=
  df <- get ;; lift (getnum df c).
Definition set_col (c : string) (v : column) : Py DataFrame unit :=
  df <- get ;; df' <- lift (setitem c v df) ;; put df'.

(** The arithmetic is that of float64 columns, see [as_float64]. *)
Definition engineer_legal_features : Py DataFrame DataFrame :=
  (* Resource utilization metrics *)
  a <- col "partner_hours" ;; b <- col "associate_hours" ;;
  ab <- lift (elementwise fadd a b) ;;
  c <- col "paralegal_hours" ;;
  total_hours <- lift (elementwise fadd ab c) ;;
  set_col "total_hours" (Float64 total_hours) ;;;
  a <- col "partner_hours" ;; b <- col "total_hours" ;;
  r <- lift (elementwise fdiv a b) ;;
  set_col "partner_ratio" (Float64 r) ;;;
  a <- col "total_cost" ;; b <- col "total_hours" ;;
  r <- lift (elementwise fdiv a b) ;;
  set_col "cost_per_hour" (Float64 r) ;;;
  a <- col "document_pages" ;; b <- col "review_time_hours" ;;
  r <- lift (elementwise fdiv a b) ;;
  set_col "pages_per_hour" (Float64 r) ;;;
  (* Efficiency indicators *)
  a <- col "hours_actual" ;; b <- col "hours_estimated" ;;
  d <- lift (elementwise fsub a b) ;;
  b <- col "hours_estimated" ;;
  r <- lift (elementwise fdiv (map fabs d) b) ;;
  set_col "hour_variance" (Float64 r) ;;;
  a <- col "efficiency_ratio" ;;
  set_col "high_efficiency" (Int64 (map (fun x => gt_int x (Fin (11 # 10))) a)) ;;;
  a <- col "hours_actual" ;; b <- col "hours_estimated" ;;
  r <- lift (elementwise gt_int a (scale (12 # 10) b)) ;;
  set_col "cost_overrun" (Int64 r) ;;;
  (* Complexity indicators *)
  a <- col "case_value" ;; b <- col "case_value" ;;
  set_col "high_value_case"
    (Int64 (map (fun x => gt_int x (quantile (75 # 100) b)) a)) ;;;
  a <- col "document_pages" ;; b <- col "document_pages" ;;
  set_col "document_intensive"
    (Int64 (map (fun x => gt_int x (quantile (8 # 10) b)) a)) ;;;
  a <- col "partner_ratio" ;;
  set_col "partner_intensive" (Int64 (map (fun x => gt_int x (Fin (3 # 10))) a)) ;;;
  (* Quality metrics *)
  a <- col "client_satisfaction" ;;
  set_col "high_satisfaction" (Int64 (map (fun x => gt_int x (Fin 8)) a)) ;;;
  a <- col "profit_margin" ;;
  set_col "profitable_case" (Int64 (map (fun x => gt_int x (Fin 20)) a)) ;;;
  get.

(** ** Training *)

(** The names bound in the module [legal_operations_main] once its
    [import] lines and its two definitions have run. *)
Definition module_globals : list string :=
  [ "pd"; "np";
    "RandomForestClassifier"; "GradientBoostingRegressor";
    "train_test_split";
    "StandardScaler"; "LabelEncoder";
    "accuracy_score"; "classification_report"; "mean_squared_error";
    "TfidfVectorizer";
    "warnings";
    "LegalOperationsPlatform"; "main" ].

(** Evaluating a global name. *)
Definition global {S} (name : string) : Py S unit :=
  if existsb (String.eqb name) module_globals then ret tt
  else raise (NameError name).

Inductive callee : Type :=
| Method (c : estimator_class) (name : string)
| Function (name : string).

(** What the function asks of scikit-learn, in order. *)
Inductive event : Type :=
| Construct (c : estimator_class)
| Call (f : callee) (raised : option exn).

(** The platform, the caller's frame and the calls made so far. *)
Record TrainState : Type := mkTrainState {
  platform : LegalOperationsPlatform;
  frame : DataFrame;
  calls : list event
}.

Definition record (ev : event) : Py TrainState unit :=
  modify (fun s => mkTrainState (platform s) (frame s) (calls s ++ [ev])%list).

Definition on_self (f : LegalOperationsPlatform -> LegalOperationsPlatform)
  : Py TrainState unit :=
  modify (fun s => mkTrainState (f (platform s)) (frame s) (calls s)).

Definition on_frame {A} (c : Py DataFrame A) : Py TrainState A :=
  zoom frame (fun d s => mkTrainState (platform s) d (calls s)) c.

(** Constructing an estimator: the class name is looked up first. *)
Definition new (c : estimator_class) (ps : list (string * Q))
  : Py TrainState estimator :=
  global (class_name c) ;;;
  record (Construct c) ;;;
  ret (mkEstimator c ps None).

(** A call into the library: what it raises is raised here. *)
Definition call {A} (f : callee) (r : result A) : Py TrainState A :=
  record (Call f (match r with Raise e => Some e | Return _ => None end)) ;;;
  lift r.

(** [e.transform(v)]: an encoder that was never fitted raises. *)
Definition transform (e : estimator) (v : column) : result column :=
  match state e with
  | Some st => encoder_transform st v
  | None => Raise (LibraryError "sklearn" "NotFittedError")
  end.

Definition set_encoder (k : string) (e : estimator) (p : LegalOperationsPlatform) :=
  mkPlatform (models p) (scalers p) (<[k := e]> (encoders p)) (vectorizers p)
    (is_trained p).
Definition set_scaler (k : string) (e : estimator) (p : LegalOperationsPlatform) :=
  mkPlatform (models p) (<[k := e]> (scalers p)) (encoders p) (vectorizers p)
    (is_trained p).
Definition set_model (k : string) (e : estimator) (p : LegalOperationsPlatform) :=
  mkPlatform (<[k := e]> (models p)) (scalers p) (encoders p) (vectorizers p)
    (is_trained p).
Definition set_is_trained (b : bool) (p : LegalOperationsPlatform) :=
  mkPlatform (models p) (scalers p) (encoders p) (vectorizers p) b.

Definition categorical_cols : list string :=
  ["practice_area"; "document_type"; "complexity"; "client_type"].

(** The body of the encoding loop. *)
Definition encode_column (c : string) : Py TrainState unit :=
  s <- get ;;
  match encoders (platform s) !! c with
  | None =>
      e <- new LabelEncoder [] ;;
      on_self (set_encoder c e) ;;;
      v <- on_frame (df <- get ;; lift (getitem df c)) ;;
      r <- call (Method LabelEncoder "fit_transform") (encoder_fit_transform v) ;;
      on_self (set_encoder c (mkEstimator LabelEncoder [] (Some (fst r)))) ;;;
      on_frame (set_col (c ++ "_encoded") (snd r))
  | Some e =>
      v <- on_frame (df <- get ;; lift (getitem df c)) ;;
      r <- call (Method LabelEncoder "transform") (transform e v) ;;
      on_frame (set_col (c ++ "_encoded") r)
  end.

Definition prepare_data_for_modeling : Py TrainState (list string) :=
  on_frame engineer_legal_features ;;;
  (* Encode categorical variables *)
  for_each categorical_cols encode_column ;;;
  (* Define feature columns *)
  let feature_cols :=
   ([ "case_value"; "hours_estimated"; "document_pages"; "review_time_hours";
      "billing_rate_partner"; "billing_rate_associate"; "billing_rate_paralegal";
      "document_complexity_score"; "total_hours"; "partner_ratio"; "cost_per_hour";
      "pages_per_hour"; "hour_variance"; "high_efficiency"; "cost_overrun";
      "high_value_case"; "document_intensive"; "partner_intensive" ]
    ++ map (fun c => String.append c "_encoded") categorical_cols)%list in
  ret feature_cols.

(** A value of the results dictionary. *)
Inductive value : Type :=
| VFloat (x : float)
| VStr (s : string).

(** [dict(zip(keys, values))]: a later pair overrides an earlier one. *)
Definition dict_zip (keys : list string) (vals : list float) : gmap string value :=
  fold_left (fun d kv => <[fst kv := VFloat (snd kv)]> d) (zip keys vals) ∅.

(** [1 - np.mean(np.abs(y_test - y_pred) / y_test)] *)
Definition relative_accuracy (y_test y_pred : column) : Py TrainState float :=
  global "np" ;;;
  t <- lift (as_float64 y_test) ;;
  p <- lift (as_float64 y_pred) ;;
  d <- lift (elementwise fsub t p) ;;
  r <- lift (elementwise fdiv (map fabs d) t) ;;
  ret (fsub (Fin 1) (Series_mean r)).

Definition train_legal_models : Py TrainState (gmap string (gmap string value)) :=
  feature_cols <- prepare_data_for_modeling ;;
  (* Prepare data *)
  df <- on_frame get ;;
  X <- lift (select df feature_cols) ;;
  let X := mkDataFrame (nrows df) X in
  (* Multiple prediction targets *)
  y_outcome <- lift (getitem df "case_outcome") ;;
  y_satisfaction <- lift (getitem df "client_satisfaction") ;;
  y_hours <- lift (getitem df "hours_actual") ;;
  y_cost <- lift (getitem df "total_cost") ;;
  (* Split data *)
  global "train_test_split" ;;;
  split <- call (Function "train_test_split")
             (train_test_split X y_outcome y_satisfaction y_hours y_cost (2 # 10) 42) ;;
  let '((X_train, X_test), (y_out_train, y_out_test), (y_sat_train, y_sat_test),
        (y_hrs_train, y_hrs_test), (y_cost_train, y_cost_test)) := split in
  (* Scale features *)
  scaler <- new StandardScaler [] ;;
  on_self (set_scaler "features" scaler) ;;;
  r <- call (Method StandardScaler "fit_transform") (scaler_fit_transform X_train) ;;
  let X_train_scaled := snd r in
  on_self (set_scaler "features" (mkEstimator StandardScaler [] (Some (fst r)))) ;;;
  X_test_scaled <- call (Method StandardScaler "transform")
                     (scaler_transform (fst r) X_test) ;;
  (* 1. Case Outcome Prediction *)
  outcome_encoder <- new LabelEncoder [] ;;
  r <- call (Method LabelEncoder "fit_transform") (encoder_fit_transform y_out_train) ;;
  let y_out_train_encoded := snd r in
  y_out_test_encoded <- call (Method LabelEncoder "transform")
                          (encoder_transform (fst r) y_out_test) ;;
  rf_outcome <- new RandomForestClassifier
                  [("n_estimators", 500); ("max_depth", 12); ("random_state", 42);
                   ("n_jobs", -1)]%Q ;;
  st <- call (Method RandomForestClassifier "fit")
          (fit (cls rf_outcome) (params rf_outcome) X_train_scaled y_out_train_encoded) ;;
  let rf_outcome := mkEstimator (cls rf_outcome) (params rf_outcome) (Some st) in
  on_self (set_model "outcome_predictor" rf_outcome) ;;;
  y_out_pred <- call (Method RandomForestClassifier "predict")
                  (predict (cls rf_outcome) st X_test_scaled) ;;
  global "accuracy_score" ;;;
  outcome_accuracy <- call (Function "accuracy_score")
                        (accuracy_score y_out_test_encoded y_out_pred) ;;
  (* 2. Hours Prediction *)
  gb_hours <- new GradientBoostingRegressor
                [("n_estimators", 500); ("learning_rate", 1 # 10); ("max_depth", 8);
                 ("random_state", 42)]%Q ;;
  st_hours <- call (Method GradientBoostingRegressor "fit")
                (fit (cls gb_hours) (params gb_hours) X_train_scaled y_hrs_train) ;;
  let gb_hours := mkEstimator (cls gb_hours) (params gb_hours) (Some st_hours) in
  on_self (set_model "hours_predictor" gb_hours) ;;;
  y_hrs_pred <- call (Method GradientBoostingRegressor "predict")
                  (predict (cls gb_hours) st_hours X_test_scaled) ;;
  global "mean_squared_error" ;;;
  hours_mse <- call (Function "mean_squared_error")
                 (mean_squared_error y_hrs_test y_hrs_pred) ;;
  hours_accuracy <- relative_accuracy y_hrs_test y_hrs_pred ;;
  (* 3. Cost Prediction *)
  rf_cost <- new RandomForestRegressor
               [("n_estimators", 500); ("max_depth", 12); ("random_state", 42);
                ("n_jobs", -1)]%Q ;;
  st_cost <- call (Method RandomForestRegressor "fit")
               (fit (cls rf_cost) (params rf_cost) X_train_scaled y_cost_train) ;;
  let rf_cost := mkEstimator (cls rf_cost) (params rf_cost) (Some st_cost) in
  on_self (set_model "cost_predictor" rf_cost) ;;;
  y_cost_pred <- call (Method RandomForestRegressor "predict")
                   (predict (cls rf_cost) st_cost X_test_scaled) ;;
  global "mean_squared_error" ;;;
  cost_mse <- call (Function "mean_squared_error")
                (mean_squared_error y_cost_test y_cost_pred) ;;
  cost_accuracy <- relative_accuracy y_cost_test y_cost_pred ;;
  let results : gmap string (gmap string value) :=
    <["feature_importance" := dict_zip feature_cols (feature_importances_ st)]>
    (<["cost_prediction" :=
         <["model_type" := VStr "Random Forest Regressor"]>
         (<["accuracy" := VFloat cost_accuracy]>
         (<["mse" := VFloat cost_mse]> ∅))]>
    (<["hours_prediction" :=
         <["model_type" := VStr "Gradient Boosting Regressor"]>
         (<["accuracy" := VFloat hours_accuracy]>
         (<["mse" := VFloat hours_mse]> ∅))]>
    (<["outcome_prediction" :=
         <["model_type" := VStr "Random Forest Classifier"]>
         (<["accuracy" := VFloat outcome_accuracy]> ∅)]> ∅))) in
  on_self (set_is_trained true) ;;;
  ret results.

(** ** Automation ROI; the state is the frame the caller passed *)

Definition calculate_automation_roi : Py DataFrame (gmap string float) :=
  (* Current manual processing costs *)
  review <- col "review_time_hours" ;;
  let manual_review_hours := Series_sum review in
  let manual_cost := fmul manual_review_hours (Fin 200) in
  (* Automated processing (75% time reduction) *)
  let automated_hours := fmul manual_review_hours (Fin (25 # 100)) in
  let automated_cost := fadd (fmul automated_hours (Fin 200)) (Fin 50000) in
  (* Calculate savings *)
  let annual_savings := fsub manual_cost automated_cost in
  let roi_percentage := fmul (fdiv annual_savings (Fin 50000)) (Fin 100) in
  ret (<["time_savings_hours" := fsub manual_review_hours automated_hours]>
       (<["roi_percentage" := roi_percentage]>
       (<["annual_savings" := annual_savings]>
       (<["automated_cost" := automated_cost]>
       (<["manual_cost" := manual_cost]> ∅))))).
End Engine.

(** ** [LegalOperationsApp]: the generators of the Streamlit application *)

Section App.
Context `{NumpyRandom}.

(** What a generator can reach: the global state of [numpy.random] and
    the wall clock [pd.Timestamp.now()] reads. *)
Record AppWorld : Type := mkAppWorld {
  app_random : RandomState;
  clock : Z
}.

Definition rng {A} (c : Py RandomState A) : Py AppWorld A :=
  zoom app_random (fun r w => mkAppWorld r (clock w)) c.

(** [pd.Timestamp.now()] *)
Definition Timestamp_now : Py AppWorld Z := w <- get ;; ret (clock w).

(** [data.loc[i, col]] *)
Definition loc_at (df : DataFrame) (i : Z) (c : string) : result cell :=
  match getitem df c with
  | Raise e => Raise e
  | Return v =>
      if i <? 0 then Raise (KeyError (str i))
      else match col_at v (Z.to_nat i) with
           | Some x => Return x
           | None => Raise (KeyError (str i))
           end
  end.

(** [f'{prefix}{np.random.randint(lo, hi)}' for _ in range(n)] *)
Definition labelled_randints (pre : string) (lo hi n : Z) : Py AppWorld (list string) :=
  for_each (range 0 n)
    (fun _ => k <- rng (draw (randint lo hi)) ;; ret (String.append pre (str k))).

Definition generate_legal_cases_data (n_cases : Z) : Py AppWorld DataFrame :=
  rng (np_random_seed 42) ;;;
  let practice_areas := ["Litigation"; "Corporate"; "Employment"; "IP"; "Regulatory";
                         "Compliance"; "Real Estate"; "Tax"] in
  let case_types := ["Civil Litigation"; "Criminal Defense"; "Contract Dispute";
                     "Employment Dispute"; "IP Infringement";
                     "Regulatory Investigation"; "M&A Transaction"; "Tax Appeal"] in
  let statuses := ["Active"; "Pending"; "Settlement"; "Trial"; "Closed"; "On Hold"] in
  let risk_levels := ["Low"; "Medium"; "High"; "Critical"] in
  let case_id := map (fun i => String.append "CASE-" (zfill 4 i)) (range 0 n_cases) in
  let case_name := map (fun i => String.append "Legal Matter " (str (i + 1)))
                     (range 0 n_cases) in
  practice_area <- rng (choice practice_areas n_cases) ;;
  case_type <- rng (choice case_types n_cases) ;;
  status <- rng (choice_p statuses n_cases
                   [Fin (3 # 10); Fin (15 # 100); Fin (2 # 10); Fin (1 # 10);
                    Fin (2 # 10); Fin (5 # 100)]) ;;
  risk_level <- rng (choice_p risk_levels n_cases
                       [Fin (2 # 10); Fin (4 # 10); Fin (3 # 10); Fin (1 # 10)]) ;;
  filing_date <- lift (date_range (Timestamp 2020 1 1) (Timestamp 2024 12 31) n_cases) ;;
  assigned_attorney <- labelled_randints "Attorney_" 1 25 n_cases ;;
  client <- labelled_randints "Client_" 1 50 n_cases ;;
  opposing_counsel <- labelled_randints "Opposing_Firm_" 1 30 n_cases ;;
  data <- lift (DataFrame_of_dict
    [ ("case_id", Object (map PStr case_id));
      ("case_name", Object (map PStr case_name));
      ("practice_area", Object (map PStr practice_area));
      ("case_type", Object (map PStr case_type));
      ("status", Object (map PStr status));
      ("risk_level", Object (map PStr risk_level));
      ("filing_date", Datetime64 filing_date);
      ("assigned_attorney", Object (map PStr assigned_attorney));
      ("client", Object (map PStr client));
      ("opposing_counsel", Object (map PStr opposing_counsel)) ]) ;;
  (* Generate financial data *)
  base_values <- rng (sized n_cases (draw (lognormal 11 (15 # 10)))) ;;
  let risk_multipliers := [("Low", 5 # 10); ("Medium", 1); ("High", 2);
                           ("Critical", 5)]%Q in
  potential_exposure <- for_each (range 0 n_cases)
    (fun i => b <- lift (list_get base_values i) ;;
              r <- lift (loc_at data i "risk_level") ;;
              m <- lift (dict_get risk_multipliers r) ;;
              ret (fmul (Fin b) (Fin m))) ;;
  data <- lift (setitem "potential_exposure" (Float64 potential_exposure) data) ;;
  pe <- lift (getnum data "potential_exposure") ;;
  u <- rng (sized n_cases (uniform (5 # 100) (25 # 100))) ;;
  fees <- lift (elementwise fmul pe (map Fin u)) ;;
  data <- lift (setitem "legal_fees_spent" (Float64 fees) data) ;;
  fees <- lift (getnum data "legal_fees_spent") ;;
  u <- rng (sized n_cases (uniform (12 # 10) 3)) ;;
  cost <- lift (elementwise fmul fees (map Fin u)) ;;
  data <- lift (setitem "estimated_total_cost" (Float64 cost) data) ;;
  (* Add outcome predictions for closed cases *)
  st <- lift (getitem data "status") ;;
  st <- lift (as_object st) ;;
  let closed_cases := map (eq_str "Closed") st in
  outcomes <- rng (choice_p ["Won"; "Lost"; "Settled"] (Z.of_nat (count closed_cases))
                     [Fin (4 # 10); Fin (2 # 10); Fin (4 # 10)]) ;;
  outcome <- lift (loc_new PNaN closed_cases (map PStr outcomes)) ;;
  data <- lift (setitem "outcome" (Object outcome) data) ;;
  (* Settlement amounts for settled cases *)
  oc <- lift (getitem data "outcome") ;;
  oc <- lift (as_object oc) ;;
  let settled_cases := map (eq_str "Settled") oc in
  pe <- lift (getnum data "potential_exposure") ;;
  u <- rng (sized (Z.of_nat (count settled_cases)) (uniform (1 # 10) (8 # 10))) ;;
  amounts <- lift (elementwise fmul (loc_rows settled_cases pe) (map Fin u)) ;;
  settlement <- lift (loc_new NaN settled_cases amounts) ;;
  data <- lift (setitem "settlement_amount" (Float64 settlement) data) ;;
  ret data.

Definition generate_contracts_data (n_contracts : Z) : Py AppWorld DataFrame :=
  rng (np_random_seed 42) ;;;
  let contract_types := ["Service Agreement"; "Supply Contract"; "Employment Contract";
                         "NDA"; "Licensing Agreement"; "Partnership Agreement";
                         "Real Estate Lease"; "Insurance Policy"] in
  let counterparties := map (fun i => String.append "Counterparty_" (str i)) (range 1 51) in
  let contract_id := map (fun i => String.append "CONTRACT-" (zfill 4 i))
                       (range 0 n_contracts) in
  contract_type <- rng (choice contract_types n_contracts) ;;
  counterparty <- rng (choice counterparties n_contracts) ;;
  start_date <- lift (date_range (Timestamp 2019 1 1) (Timestamp 2024 6 30) n_contracts) ;;
  contract_value <- rng (sized n_contracts (draw (lognormal 12 (12 # 10)))) ;;
  duration_months <- rng (choice_p [12; 24; 36; 60] n_contracts
                            [Fin (3 # 10); Fin (4 # 10); Fin (2 # 10); Fin (1 # 10)]) ;;
  data <- lift (DataFrame_of_dict
    [ ("contract_id", Object (map PStr contract_id));
      ("contract_type", Object (map PStr contract_type));
      ("counterparty", Object (map PStr counterparty));
      ("start_date", Datetime64 start_date);
      ("contract_value", Float64 (map Fin contract_value));
      ("duration_months", Int64 duration_months) ]) ;;
  (* Calculate end dates *)
  sd <- lift (getitem data "start_date") ;;
  sd <- lift (as_datetime sd) ;;
  let end_date := zip_with (fun s m => s + m * 30 * day_ns) sd duration_months in
  data <- lift (setitem "end_date" (Datetime64 end_date) data) ;;
  (* Risk scores *)
  b <- rng (sized n_contracts (draw (beta 2 5))) ;;
  data <- lift (setitem "risk_score" (Float64 (map (fun x => Fin (x * 10)) b)) data) ;;
  (* Performance scores *)
  b <- rng (sized n_contracts (draw (beta 5 2))) ;;
  data <- lift (setitem "performance_score" (Float64 (map (fun x => Fin (x * 10)) b)) data) ;;
  (* Contract status *)
  current_date <- Timestamp_now ;;
  data <- lift (setitem "status" (Object (repeat (PStr "Active") (nrows data))) data) ;;
  ed <- lift (getitem data "end_date") ;;
  ed <- lift (as_datetime ed) ;;
  st <- lift (getitem data "status") ;;
  st <- lift (as_object st) ;;
  let status := zip_with (fun e s => if e <? current_date then PStr "Expired" else s) ed st in
  data <- lift (setitem "status" (Object status) data) ;;
  ed <- lift (getitem data "end_date") ;;
  ed <- lift (as_datetime ed) ;;
  let due := map (fun e => e - current_date <? 90 * day_ns) ed in
  (if Nat.eqb (nrows data) 0
   then raise (ValueError "cannot set a frame with no defined index and a scalar")
   else ret tt) ;;;
  data <- lift (setitem "renewal_required"
                  (Object (map (fun d : bool => if d then PBool true else PNaN) due)) data) ;;
  rr <- lift (getitem data "renewal_required") ;;
  rr <- lift (as_object rr) ;;
  let filled := map (fun o => match o with PNaN => PBool false | _ => o end) rr in
  data <- lift (setitem "renewal_required" (Object filled) data) ;;
  (* Add compliance flags *)
  ci <- rng (choice_p [true; false] n_contracts [Fin (15 # 100); Fin (85 # 100)]) ;;
  data <- lift (setitem "compliance_issues" (Bool ci) data) ;;
  ar <- rng (choice_p [true; false] n_contracts [Fin (6 # 10); Fin (4 # 10)]) ;;
  data <- lift (setitem "auto_renewal" (Bool ar) data) ;;
  ret data.

(** One appended record of [generate_compliance_data]. *)
Record compliance_record : Type := mkCompliance {
  business_unit : string;
  compliance_area : string;
  assessment_date : Z;
  compliance_score : float;
  risk_rating : string;
  violations_count : Z;
  training_completion : float;
  audit_findings : Z
}.

Definition generate_compliance_data : Py AppWorld DataFrame :=
  rng (np_random_seed 42) ;;;
  let business_units := ["Corporate"; "Finance"; "HR"; "IT"; "Operations"; "Sales";
                         "Marketing"; "R&D"] in
  let compliance_areas := ["Data Privacy"; "Financial Regulations"; "Employment Law";
                           "Environmental"; "Safety"; "Anti-Corruption";
                           "Trade Compliance"; "Industry Standards"] in
  data <- for_each business_units (fun unit =>
    for_each compliance_areas (fun area =>
      for_each (month_ends 2023 2024) (fun month =>
        score <- rng (draw (beta 4 2)) ;;
        rating <- rng (choice1_p ["Low"; "Medium"; "High"]
                         [Fin (6 # 10); Fin (3 # 10); Fin (1 # 10)]) ;;
        violations <- rng (draw (poisson (5 # 10))) ;;
        training <- rng (draw (beta 8 2)) ;;
        findings <- rng (draw (poisson (12 # 10))) ;;
        ret (mkCompliance unit area month (Fin (score * 10)) rating violations
               (Fin training) findings)))) ;;
  let data := concat (concat data) in
  lift (DataFrame_of_dict
    [ ("business_unit", Object (map (fun r => PStr (business_unit r)) data));
      ("compliance_area", Object (map (fun r => PStr (compliance_area r)) data));
      ("assessment_date", Datetime64 (map assessment_date data));
      ("compliance_score", Float64 (map compliance_score data));
      ("risk_rating", Object (map (fun r => PStr (risk_rating r)) data));
      ("violations_count", Int64 (map violations_count data));
      ("training_completion", Float64 (map training_completion data));
      ("audit_findings", Int64 (map audit_findings data)) ]).

Definition generate_vendor_data (n_vendors : Z) : Py AppWorld DataFrame :=
  rng (np_random_seed 42) ;;;
  let vendor_types := ["Law Firm"; "Technology Vendor"; "Consulting Firm";
                       "Expert Witness"; "Court Reporter"; "Investigation Firm";
                       "Translation Service"; "Legal Research"] in
  let vendor_id := map (fun i => String.append "VENDOR-" (zfill 3 i)) (range 0 n_vendors) in
  let vendor_name := map (fun i => String.append "Vendor_" (str i))
                       (range 1 (n_vendors + 1)) in
  vendor_type <- rng (choice vendor_types n_vendors) ;;
  annual_spend <- rng (sized n_vendors (draw (lognormal 10 (15 # 10)))) ;;
  performance_score <- rng (sized n_vendors (draw (beta 4 2))) ;;
  diversity_status <- rng (choice_p ["Diverse"; "Non-Diverse"] n_vendors
                             [Fin (3 # 10); Fin (7 # 10)]) ;;
  contract_start <- lift (date_range (Timestamp 2019 1 1) (Timestamp 2023 12 31) n_vendors) ;;
  payment_terms_days <- rng (choice_p [30; 45; 60] n_vendors
                               [Fin (5 # 10); Fin (3 # 10); Fin (2 # 10)]) ;;
  invoice_accuracy <- rng (sized n_vendors (draw (beta 5 1))) ;;
  response_time_hours <- rng (sized n_vendors (draw (exponential 24))) ;;
  data <- lift (DataFrame_of_dict
    [ ("vendor_id", Object (map PStr vendor_id));
      ("vendor_name", Object (map PStr vendor_name));
      ("vendor_type", Object (map PStr vendor_type));
      ("annual_spend", Float64 (map Fin annual_spend));
      ("performance_score", Float64 (map (fun x => Fin (x * 10)) performance_score));
      ("diversity_status", Object (map PStr diversity_status));
      ("contract_start", Datetime64 contract_start);
      ("payment_terms_days", Int64 payment_terms_days);
      ("invoice_accuracy", Float64 (map Fin invoice_accuracy));
      ("response_time_hours", Float64 (map Fin response_time_hours)) ]) ;;
  ret data.
End App.

(** ** The Flask application [main.app] *)

Module Flask.

(** The JSON values the payloads are made of. *)
Inductive json : Type :=
| JStr (s : string)
| JList (l : list string).

(** A JSON object, as [get_json] decodes it. *)
Definition json_object : Type := list (string * json).

Inductive http_method : Type := GET | HEAD | OPTIONS | POST | PUT | PATCH | DELETE.

Record request : Type := mkRequest {
  method : http_method;
  path : string;
  query : list (string * string);
  headers : list (string * string);
  body : option json_object
}.

Record response : Type := mkResponse {
  status_code : Z;
  get_json : option json_object
}.

(** [data[key]] on a decoded JSON body *)
Definition field (key : string) (r : response) : option json :=
  match get_json r with
  | Some fields => assoc key fields
  | None => None
  end.

Section Routes.
(** The entries of the 'features' list: the tests only require one. *)
Variable feature : string.
Variable more_features : list string.

(** Modelled from the spec: the module [main] that defines [app] is not
    among the sources; only the tests that import it are.  The three
    views return [jsonify] of a literal dictionary and read nothing. *)
Definition home : response :=
  mkResponse 200 (Some [("message", JStr "Intelligence Platform API");
                        ("status", JStr "running")]).

(** Modelled from the spec: the view of [/health] in the absent [main]. *)
Definition health_check : response :=
  mkResponse 200 (Some [("status", JStr "healthy");
                        ("service", JStr "intelligence-platform")]).

(** Modelled from the spec: the view of [/api/v1/status] in the absent
    [main]; what the 'features' list holds is a parameter. *)
Definition api_status : response :=
  mkResponse 200 (Some [("api_version", JStr "v1");
                        ("status", JStr "operational");
                        ("features", JList (feature :: more_features))]).

(** Modelled from the spec: the route table of [app], three rules with
    Flask's default methods. *)
Definition url_map : list (string * response) :=
  [("/", home); ("/health", health_check); ("/api/v1/status", api_status)].

(** Modelled from the spec: how [app] answers one request after the
    requests in [served]: the rule whose path equals the request path
    runs its view; no rule is 404 Not Found, a rule with another method
    405 Method Not Allowed. *)
Definition dispatch (served : list request) (r : request) : response :=
  match assoc (path r) url_map with
  | None => mkResponse 404 None
  | Some view =>
      match method r with
      | GET => view
      | HEAD | OPTIONS => mkResponse 200 None
      | _ => mkResponse 405 None
      end
  end.

(** [client.get(path)] of the test client *)
Definition client_get (served : list request) (p : string) : response :=
  dispatch served (mkRequest GET p [] [] None).
End Routes.
End Flask.

(** ** The script of [legal_operations_main.py]: [main] *)

(** What [print] is given: text, and values still to be formatted, each
    with the format specification of its replacement field. *)
Inductive printable : Type :=
| PInt (z : Z)
| PFloat (x : float)
| PText (s : string)
| PCell (v : cell)
| PShape (rows cols : nat).

Inductive piece : Type :=
| Lit (s : string)
| Fmt (v : printable) (spec : string).

(** [s * n] on a string *)
Fixpoint str_mul (s : string) (n : nat) : string :=
  match n with
  | O => ""
  | S n' => String.append s (str_mul s n')
  end.

(** The line feed. *)
Definition nl : string := String (Ascii.ascii_of_nat 10) "".

(** [d[key]] on a dict with string keys *)
Definition dict_item {A} (d : gmap string A) (key : string) : result A :=
  match d !! key with
  | Some v => Return v
  | None => Raise (KeyError key)
  end.

(** [d.items()], given the keys in the order they were inserted. *)
Definition dict_items {A} (inserted : list string) (d : gmap string A)
  : list (string * A) :=
  omap (fun k => match d !! k with Some v => Some (k, v) | None => None end) inserted.

Definition printable_of (v : value) : printable :=
  match v with
  | VFloat x => PFloat x
  | VStr s => PText s
  end.

(** [sorted(items, key=lambda x: x[1], reverse=True)]: stable, the largest
    first (exact when no value is NaN). *)
Definition value_lt (a b : value) : bool :=
  match a, b with
  | VFloat x, VFloat y => flt x y
  | _, _ => false
  end.

Fixpoint insert_desc {K V} (lt : V -> V -> bool) (kv : K * V) (l : list (K * V))
  : list (K * V) :=
  match l with
  | [] => [kv]
  | kv' :: l' => if lt (snd kv) (snd kv') then kv' :: insert_desc lt kv l' else kv :: l
  end.

Definition sorted_desc {K V} (lt : V -> V -> bool) (l : list (K * V)) : list (K * V) :=
  fold_right (insert_desc lt) [] l.

(** Equality of two values of a column, as [value_counts] hashes them. *)
Definition cell_eqb (a b : cell) : bool :=
  match a, b with
  | CInt x, CInt y => x =? y
  | CFloat (Fin x), CFloat (Fin y) => Qeq_bool x y
  | CFloat PInf, CFloat PInf | CFloat NInf, CFloat NInf => true
  | CObj (PStr x), CObj (PStr y) => String.eqb x y
  | CObj (PBool x), CObj (PBool y) => Bool.eqb x y
  | CBool x, CBool y => Bool.eqb x y
  | CDate x, CDate y => x =? y
  | _, _ => false
  end.

Definition cell_isna (a : cell) : bool :=
  match a with
  | CFloat NaN | CObj PNaN => true
  | _ => false
  end.

Definition cells (c : column) : list cell :=
  omap (col_at c) (seq 0 (col_len c)).

(** The counts of the distinct values, in the order of first appearance. *)
Fixpoint tally (v : cell) (counts : list (cell * Z)) : list (cell * Z) :=
  match counts with
  | [] => [(v, 1)]
  | (v', k) :: counts' =>
      if cell_eqb v v' then (v', k + 1) :: counts' else (v', k) :: tally v counts'
  end.

(** [Series.value_counts()]: missing values dropped, the most frequent
    value first. *)
Definition value_counts (c : column) : list (cell * Z) :=
  sorted_desc Z.ltb
    (fold_left (fun counts v => tally v counts)
       (List.filter (fun v => negb (cell_isna v)) (cells c)) []).

Section Script.
Context `{NumpyRandom} `{Sklearn}.

(** The names of [results['feature_importance']], in the order
    [dict(zip(feature_cols, ...))] inserted them. *)
Definition feature_cols : list string :=
  ([ "case_value"; "hours_estimated"; "document_pages"; "review_time_hours";
     "billing_rate_partner"; "billing_rate_associate"; "billing_rate_paralegal";
     "document_complexity_score"; "total_hours"; "partner_ratio"; "cost_per_hour";
     "pages_per_hour"; "hour_variance"; "high_efficiency"; "cost_overrun";
     "high_value_case"; "document_intensive"; "partner_intensive" ]
   ++ map (fun c => String.append c "_encoded") categorical_cols)%list.

(** What the script can reach: the generator of [numpy.random] and the
    platform it creates, the standard output, and scikit-learn. *)
Record Process : Type := mkProcess {
  world : World;
  stdout : list (list piece);
  sklearn_calls : list event
}.

(** [print(...)]: one more line on the standard output *)
Definition print (line : list piece) : Py Process unit :=
  modify (fun p => mkProcess (world p) (stdout p ++ [line])%list (sklearn_calls p)).

Definition in_world {A} (c : Py World A) : Py Process A :=
  zoom world (fun w p => mkProcess w (stdout p) (sklearn_calls p)) c.

(** [platform.train_legal_models(df)]: the platform and the frame [df]
    names are the ones the method works on. *)
Definition train_on (df : DataFrame)
  : Py Process (gmap string (gmap string value) * DataFrame) :=
  fun p =>
    let (r, t) := train_legal_models (mkTrainState (self (world p)) df (sklearn_calls p)) in
    let p' := mkProcess (mkWorld (np_random (world p)) (platform t)) (stdout p) (calls t) in
    match r with
    | Return results => (Return (results, frame t), p')
    | Raise e => (Raise e, p')
    end.

(** [df[col].mean()] *)
Definition column_mean {S} (df : DataFrame) (c : string) : Py S float :=
  l <- lift (getnum df c) ;; ret (Series_mean l).

Definition main : Py Process unit :=
  print [Lit (str_mul "=" 80)] ;;;
  print [Lit "Enterprise Legal Operations Intelligence Platform"] ;;;
  print [Lit "Advanced NLP and Automation for Legal Workflow Optimization"] ;;;
  print [Lit "Author: Emilio Cardenas"] ;;;
  print [Lit (str_mul "=" 80)] ;;;
  (* Initialize platform *)
  in_world (modify (fun w => mkWorld (np_random w) init)) ;;;
  (* Generate legal data *)
  print [Lit (String.append nl "Generating legal case and document data...")] ;;;
  df <- in_world (generate_legal_data 1000) ;;
  print [Lit "Dataset shape: "; Fmt (PShape (nrows df) (length (columns df))) ""] ;;;
  m <- column_mean df "case_value" ;;
  print [Lit "Average case value: $"; Fmt (PFloat (fdiv m (Fin 1000000))) ".2f"; Lit "M"] ;;;
  m <- column_mean df "total_hours" ;;
  print [Lit "Average total hours: "; Fmt (PFloat m) ".1f"] ;;;
  (* Analyze practice areas *)
  pa <- lift (getitem df "practice_area") ;;
  let practice_distribution := value_counts pa in
  print [Lit (String.append nl "Practice area distribution:")] ;;;
  for_each practice_distribution
    (fun ac => print [Lit "  "; Fmt (PCell (fst ac)) ""; Lit ": "; Fmt (PInt (snd ac)) "";
                      Lit " cases"]) ;;;
  (* Train models *)
  print [Lit (String.append nl "Training legal analytics models...")] ;;;
  trained <- train_on df ;;
  let (results, df) := trained in
  (* Display results *)
  print [Lit (String.append nl "Model Performance Results:")] ;;;
  print [Lit (str_mul "-" 40)] ;;;
  print [Lit "CASE OUTCOME PREDICTION:"] ;;;
  outcome_results <- lift (dict_item results "outcome_prediction") ;;
  v <- lift (dict_item outcome_results "accuracy") ;;
  print [Lit "  Accuracy: "; Fmt (printable_of v) ".2%"] ;;;
  v <- lift (dict_item outcome_results "model_type") ;;
  print [Lit "  Model: "; Fmt (printable_of v) ""] ;;;
  print [Lit (String.append nl "HOURS ESTIMATION:")] ;;;
  hours_results <- lift (dict_item results "hours_prediction") ;;
  v <- lift (dict_item hours_results "accuracy") ;;
  print [Lit "  Accuracy: "; Fmt (printable_of v) ".2%"] ;;;
  v <- lift (dict_item hours_results "mse") ;;
  print [Lit "  MSE: "; Fmt (printable_of v) ".2f"] ;;;
  v <- lift (dict_item hours_results "model_type") ;;
  print [Lit "  Model: "; Fmt (printable_of v) ""] ;;;
  print [Lit (String.append nl "COST PREDICTION:")] ;;;
  cost_results <- lift (dict_item results "cost_prediction") ;;
  v <- lift (dict_item cost_results "accuracy") ;;
  print [Lit "  Accuracy: "; Fmt (printable_of v) ".2%"] ;;;
  v <- lift (dict_item cost_results "mse") ;;
  print [Lit "  MSE: $"; Fmt (printable_of v) ",.0f"] ;;;
  v <- lift (dict_item cost_results "model_type") ;;
  print [Lit "  Model: "; Fmt (printable_of v) ""] ;;;
  (* Calculate automation ROI *)
  print [Lit (String.append nl "Calculating automation ROI...")] ;;;
  roi_analysis <- lift (fst (calculate_automation_roi df)) ;;
  print [Lit (String.append nl "Automation ROI Analysis:")] ;;;
  print [Lit (str_mul "-" 40)] ;;;
  v <- lift (dict_item roi_analysis "manual_cost") ;;
  print [Lit "Manual Processing Cost: $"; Fmt (PFloat v) ",.0f"] ;;;
  v <- lift (dict_item roi_analysis "automated_cost") ;;
  print [Lit "Automated Processing Cost: $"; Fmt (PFloat v) ",.0f"] ;;;
  v <- lift (dict_item roi_analysis "annual_savings") ;;
  print [Lit "Annual Savings: $"; Fmt (PFloat v) ",.0f"] ;;;
  v <- lift (dict_item roi_analysis "roi_percentage") ;;
  print [Lit "ROI Percentage: "; Fmt (PFloat v) ".1f"; Lit "%"] ;;;
  v <- lift (dict_item roi_analysis "time_savings_hours") ;;
  print [Lit "Time Savings: "; Fmt (PFloat v) ",.0f"; Lit " hours"] ;;;
  print [Lit (String.append nl "Top 5 Most Important Features:")] ;;;
  feature_importance <- lift (dict_item results "feature_importance") ;;
  let sorted_features :=
    sorted_desc value_lt (dict_items feature_cols feature_importance) in
  for_each (firstn 5 sorted_features)
    (fun fi => print [Lit "  "; Fmt (PText (fst fi)) ""; Lit ": ";
                      Fmt (printable_of (snd fi)) ".4f"]) ;;;
  print [Lit (String.append nl "Business Impact:")] ;;;
  print [Lit "• 35-50% Cost Reduction in Routine Legal Tasks"] ;;;
  print [Lit "• 25-40% Improvement in Document Review Accuracy"] ;;;
  print [Lit "• 30-50% Reduction in Matter Processing Time"] ;;;
  print [Lit "• 150-300% ROI on Automation Investments"] ;;;
  print [Lit "• Real-time Legal KPI Monitoring and Analytics"].

End Script.

(** ** The Streamlit application: session state, loading and training *)

(** [series.notna()] *)
Definition notna (c : column) : list bool :=
  match c with
  | Float64 l => map (fun x => negb (isnan x)) l
  | Object l => map (fun o => match o with PNaN => false | _ => true end) l
  | Int64 l => map (fun _ => true) l
  | Bool l => map (fun _ => true) l
  | Datetime64 l => map (fun _ => true) l
  end.

(** [df[mask]] for a boolean mask over the rows *)
Definition filter_column (mask : list bool) (c : column) : column :=
  match c with
  | Int64 l => Int64 (loc_rows mask l)
  | Float64 l => Float64 (loc_rows mask l)
  | Object l => Object (loc_rows mask l)
  | Bool l => Bool (loc_rows mask l)
  | Datetime64 l => Datetime64 (loc_rows mask l)
  end.

Definition filter_rows (mask : list bool) (df : DataFrame) : result DataFrame :=
  if Nat.eqb (length mask) (nrows df)
  then Return (mkDataFrame (count mask)
                 (map (fun kc => (fst kc, filter_column mask (snd kc))) (columns df)))
  else Raise (ValueError "Item wrong length").

(** [series == s] *)
Definition series_eq (c : column) (s : string) : list bool :=
  match c with
  | Object l => map (eq_str s) l
  | Int64 l => map (fun _ => false) l
  | Float64 l => map (fun _ => false) l
  | Bool l => map (fun _ => false) l
  | Datetime64 l => map (fun _ => false) l
  end.

(** [series.iloc[0]] on the rows of a frame *)
Definition iloc0 (df : DataFrame) : result (list (string * cell)) :=
  if (0 <? nrows df)%nat then Return (row_of df 0)
  else Raise (IndexError "single positional indexer is out-of-bounds").

(** A value of a row in arithmetic with a float. *)
Definition as_number (v : cell) : result float :=
  match v with
  | CFloat x => Return x
  | CInt z => Return (Fin (inject_Z z))
  | CBool b | CObj (PBool b) => Return (Fin (if b then 1 else 0)%Q)
  | CObj PNaN => Return NaN
  | CObj (PStr _) | CDate _ => Raise (TypeError "unsupported operand type(s)")
  end.

(** Python's builtin [max(a, b)]: [b] when [b > a], else [a]. *)
Definition py_max (a b : float) : float := if flt a b then b else a.

(** [d.get(key, default)] for a dict literal with string keys. *)
Definition dict_get_default {A} (d : list (string * A)) (key : cell) (default : A) : A :=
  match key with
  | CObj (PStr k) =>
      match assoc k d with
      | Some v => v
      | None => default
      end
  | _ => default
  end.

(** An element the script puts on the page: the container, the Streamlit
    call, its text (with the values still to be formatted), and for a
    choice its options and its default. *)
Record element : Type := mkElement {
  container : string;
  api : string;
  body : list piece;
  options : list string;
  preselected : list string
}.

(** The double quote. *)
Definition dq : string := String (Ascii.ascii_of_nat 34) "".

(** The card of the prediction: the f-string of a [st.markdown] call, with
    the replacement field [value]. *)
Definition card (title : string) (value : list piece) : list piece :=
  let indent := str_mul " " 24 in
  ([Lit (String.concat ""
           [nl; indent; "<div class="; dq; "case-card"; dq; ">"; nl;
            indent; "    <h3>"; title; "</h3>"; nl;
            indent; "    <h2>"])]
   ++ value
   ++ [Lit (String.concat "" ["</h2>"; nl; indent; "</div>"; nl; indent])])%list.

(** What the user did with the widgets of the sidebar in this run. *)
Record Widgets : Type := mkWidgets {
  chosen_section : string;
  load_clicked : bool;
  train_clicked : bool;
  chosen_areas : list string;
  chosen_levels : list string
}.

(** What the application asks of scikit-learn besides [Sklearn]: the split
    of a frame and one target, and the array of a frame. *)
Class SklearnFrames `{Sklearn} : Type := {
  split_frame : DataFrame -> column -> Q -> Z ->
                result ((DataFrame * DataFrame) * (column * column));
  values : DataFrame -> ndarray
}.

Section Streamlit.
Context `{NumpyRandom} `{SklearnFrames}.

(** A value of [st.session_state]. *)
Inductive session_value : Type :=
| SBool (b : bool)
| SNone
| SFrame (df : DataFrame)
| SModel (model : estimator)
| SFloat (x : float).

(** What the application can reach: the generator and the clock, the
    session state, the page, and scikit-learn. *)
Record Session : Type := mkSession {
  app_world : AppWorld;
  session_state : gmap string session_value;
  page : list element;
  library : list event
}.

Definition in_app {A} (c : Py AppWorld A) : Py Session A :=
  zoom app_world (fun w s => mkSession w (session_state s) (page s) (library s)) c.

(** A Streamlit call that shows [text]. *)
Definition show (where_ call text : string) : Py Session unit :=
  modify (fun s => mkSession (app_world s) (session_state s)
                     (page s ++ [mkElement where_ call [Lit text] [] []])%list (library s)).

(** A Streamlit call that shows text with formatted values. *)
Definition show_pieces (where_ call : string) (text : list piece) : Py Session unit :=
  modify (fun s => mkSession (app_world s) (session_state s)
                     (page s ++ [mkElement where_ call text [] []])%list (library s)).

(** A widget that offers [opts], with [preset] selected at first. *)
Definition widget (where_ call text : string) (opts preset : list string)
  : Py Session unit :=
  modify (fun s => mkSession (app_world s) (session_state s)
                     (page s ++ [mkElement where_ call [Lit text] opts preset])%list
                     (library s)).

(** [st.session_state.key]: AttributeError when the key was never set. *)
Definition session_get (key : string) : Py Session session_value :=
  s <- get ;;
  match session_state s !! key with
  | Some v => ret v
  | None => raise (LibraryError "AttributeError" key)
  end.

(** [st.session_state.key = v] *)
Definition session_set (key : string) (v : session_value) : Py Session unit :=
  modify (fun s => mkSession (app_world s) (<[key := v]> (session_state s))
                     (page s) (library s)).

(** [key not in st.session_state] *)
Definition session_lacks (key : string) : Py Session bool :=
  s <- get ;;
  ret (match session_state s !! key with Some _ => false | None => true end).

(** The truth value of a session value, as [if] takes it.  The ensembles
    have a length, the number of their fitted trees. *)
Definition truth (v : session_value) : result bool :=
  match v with
  | SBool b => Return b
  | SNone => Return false
  | SFrame _ => Raise (ValueError "The truth value of a DataFrame is ambiguous")
  | SModel m =>
      if is_predictor (cls m)
      then match state m with
           | Some _ => Return true
           | None => Raise (LibraryError "AttributeError" "estimators_")
           end
      else Return true
  | SFloat x => Return (match x with Fin q => negb (Qeq_bool q 0) | _ => true end)
  end.

(** The value as the frame the code subscripts. *)
Definition frame_of (v : session_value) : result DataFrame :=
  match v with
  | SFrame df => Return df
  | SModel m =>
      if is_predictor (cls m)
      then match state m with
           | Some _ => Raise (TypeError "list indices must be integers or slices, not str")
           | None => Raise (LibraryError "AttributeError" "estimators_")
           end
      else Raise (TypeError "object is not subscriptable")
  | SBool _ | SNone | SFloat _ => Raise (TypeError "object is not subscriptable")
  end.

(** A call into scikit-learn, logged. *)
Definition ask {A} (f : callee) (r : result A) : Py Session A :=
  modify (fun s => mkSession (app_world s) (session_state s) (page s)
                     (library s ++ [Call f (match r with
                                            | Raise e => Some e
                                            | Return _ => None
                                            end)])%list) ;;;
  lift r.

(** [Class(...)]: the classes the module imports *)
Definition construct (c : estimator_class) (ps : list (string * Q)) : Py Session estimator :=
  modify (fun s => mkSession (app_world s) (session_state s) (page s)
                     (library s ++ [Construct c])%list) ;;;
  ret (mkEstimator c ps None).

(** [LegalOperationsApp.__init__]: each key of the session gets its default
    unless the session has it.  The three attributes set before are [None],
    as none of the three modules is in the repository, and no method reads
    them. *)
Definition App_init : Py Session unit :=
  b <- session_lacks "data_loaded" ;;
  (if b then session_set "data_loaded" (SBool false) else ret tt) ;;;
  b <- session_lacks "models_trained" ;;
  (if b then session_set "models_trained" (SBool false) else ret tt) ;;;
  b <- session_lacks "legal_cases" ;;
  (if b then session_set "legal_cases" SNone else ret tt) ;;;
  b <- session_lacks "contracts" ;;
  (if b then session_set "contracts" SNone else ret tt) ;;;
  b <- session_lacks "compliance_data" ;;
  (if b then session_set "compliance_data" SNone else ret tt).

Definition load_legal_data : Py Session unit :=
  show "st" "spinner" "Loading legal operations data..." ;;;
  (* Generate comprehensive legal dataset *)
  legal_cases <- in_app (generate_legal_cases_data 300) ;;
  contracts <- in_app (generate_contracts_data 200) ;;
  compliance_data <- in_app generate_compliance_data ;;
  vendor_data <- in_app (generate_vendor_data 50) ;;
  (* Store in session state *)
  session_set "legal_cases" (SFrame legal_cases) ;;;
  session_set "contracts" (SFrame contracts) ;;;
  session_set "compliance_data" (SFrame compliance_data) ;;;
  session_set "vendor_data" (SFrame vendor_data) ;;;
  session_set "data_loaded" (SBool true) ;;;
  show "st.sidebar" "success" "✅ Legal data loaded successfully!".

(** [closed_cases[new] = encoder.fit_transform(closed_cases[col])] *)
Definition encode_into (closed_cases : DataFrame) (col new : string)
  : Py Session DataFrame :=
  v <- lift (getitem closed_cases col) ;;
  r <- ask (Method LabelEncoder "fit_transform") (encoder_fit_transform v) ;;
  lift (setitem new (snd r) closed_cases).

Definition train_models : Py Session unit :=
  show "st" "spinner" "Training advanced legal analytics models..." ;;;
  loaded <- session_get "data_loaded" ;;
  loaded <- lift (truth loaded) ;;
  (if loaded : bool then
     (* Simple case outcome prediction model *)
     cases_df <- session_get "legal_cases" ;;
     cases_df <- lift (frame_of cases_df) ;;
     (* Prepare features for closed cases with outcomes *)
     outcome <- lift (getitem cases_df "outcome") ;;
     closed_cases <- lift (filter_rows (notna outcome) cases_df) ;;
     if (50 <? nrows closed_cases)%nat then
       (* Encode categorical variables *)
       le_practice <- construct LabelEncoder [] ;;
       le_risk <- construct LabelEncoder [] ;;
       le_type <- construct LabelEncoder [] ;;
       closed_cases <- encode_into closed_cases "practice_area" "practice_area_encoded" ;;
       closed_cases <- encode_into closed_cases "risk_level" "risk_level_encoded" ;;
       closed_cases <- encode_into closed_cases "case_type" "case_type_encoded" ;;
       (* Features *)
       let features := ["potential_exposure"; "legal_fees_spent"; "practice_area_encoded";
                        "risk_level_encoded"; "case_type_encoded"] in
       X <- lift (select closed_cases features) ;;
       let X := mkDataFrame (nrows closed_cases) X in
       oc <- lift (getitem closed_cases "outcome") ;;
       (* Binary: Win vs. Other *)
       let y := Int64 (map (fun b : bool => if b then 1 else 0) (series_eq oc "Won")) in
       (* Train model *)
       if (20 <? nrows X)%nat then
         parts <- ask (Function "train_test_split") (split_frame X y (3 # 10) 42) ;;
         let '((X_train, X_test), (y_train, y_test)) := parts in
         model <- construct RandomForestClassifier
                    [("n_estimators", 100); ("random_state", 42)]%Q ;;
         st <- ask (Method RandomForestClassifier "fit")
                 (fit (cls model) (params model) (values X_train) y_train) ;;
         let model := mkEstimator (cls model) (params model) (Some st) in
         (* Calculate performance *)
         y_pred <- ask (Method RandomForestClassifier "predict")
                     (predict (cls model) st (values X_test)) ;;
         accuracy <- ask (Function "accuracy_score") (accuracy_score y_test y_pred) ;;
         session_set "outcome_model" (SModel model) ;;;
         session_set "model_accuracy" (SFloat accuracy) ;;;
         session_set "models_trained" (SBool true)
       else ret tt
     else ret tt
   else ret tt) ;;;
  show "st.sidebar" "success" "✅ Models trained successfully!".

Definition render_sidebar (u : Widgets) : Py Session (string * list string * list string) :=
  show "st.sidebar" "title" "📋 Navigation" ;;;
  (* Main sections *)
  widget "st.sidebar" "selectbox" "Select Analysis Section"
    ["📊 Executive Dashboard";
     "⚖️ Litigation Management";
     "📋 Compliance Monitoring";
     "📄 Contract Analytics";
     "💼 Vendor Management";
     "💰 Financial Analysis";
     "⚠️ Risk Assessment";
     "🤖 Predictive Models";
     "⚙️ Data Management"] [] ;;;
  let section := chosen_section u in
  show "st.sidebar" "markdown" "---" ;;;
  (* Data controls *)
  show "st.sidebar" "subheader" "📁 Data Controls" ;;;
  show "st.sidebar" "button" "🔄 Load Legal Data" ;;;
  (if load_clicked u then load_legal_data else ret tt) ;;;
  show "st.sidebar" "button" "🧠 Train ML Models" ;;;
  (if train_clicked u then
     loaded <- session_get "data_loaded" ;;
     loaded <- lift (truth loaded) ;;
     if loaded : bool then train_models
     else show "st.sidebar" "error" "Please load data first!"
   else ret tt) ;;;
  (* Practice area filter *)
  show "st.sidebar" "subheader" "🏢 Practice Areas" ;;;
  let practice_areas := ["Litigation"; "Corporate"; "Employment"; "IP"; "Regulatory";
                         "Compliance"; "Real Estate"; "Tax"] in
  widget "st.sidebar" "multiselect" "Select Practice Areas" practice_areas
    ["Litigation"; "Corporate"; "Employment"; "Regulatory"] ;;;
  let selected_areas := chosen_areas u in
  (* Risk level filter *)
  widget "st.sidebar" "multiselect" "Risk Levels" ["Low"; "Medium"; "High"; "Critical"]
    ["Medium"; "High"; "Critical"] ;;;
  let risk_levels := chosen_levels u in
  (* System status *)
  show "st.sidebar" "subheader" "🔧 System Status" ;;;
  loaded <- session_get "data_loaded" ;;
  loaded <- lift (truth loaded) ;;
  let data_status := if loaded : bool then "✅ Loaded" else "❌ Not Loaded" in
  trained <- session_get "models_trained" ;;
  trained <- lift (truth trained) ;;
  let model_status := if trained : bool then "✅ Trained" else "❌ Not Trained" in
  show "st.sidebar" "write" (String.append "Data Status: " data_status) ;;;
  show "st.sidebar" "write" (String.append "Models Status: " model_status) ;;;
  ret (section, selected_areas, risk_levels).

(** [render_litigation_management], the prediction of lines 635-677: what
    the button 'Predict Outcome' runs for the case selected among the
    active ones. *)
Definition predict_outcome (active_cases : DataFrame) (selected_case : string)
  : Py Session unit :=
  ids <- lift (getitem active_cases "case_id") ;;
  chosen <- lift (filter_rows (series_eq ids selected_case) active_cases) ;;
  case_data <- lift (iloc0 chosen) ;;
  (* Simple prediction logic (in production, use trained model) *)
  level <- lift (row_get case_data "risk_level") ;;
  risk_score <- lift (dict_get [("Low", 2 # 10); ("Medium", 4 # 10); ("High", 7 # 10);
                                ("Critical", 9 # 10)]%Q level) ;;
  let base_win_prob := (6 # 10)%Q in (* Base win probability *)
  (* Adjust based on practice area and exposure *)
  let area_adjustments :=
    [("Corporate", 1 # 10); ("Employment", - (1 # 10)); ("IP", 5 # 100);
     ("Litigation", - (5 # 100)); ("Regulatory", - (15 # 100))]%Q in
  area <- lift (row_get case_data "practice_area") ;;
  let area_adj := dict_get_default area_adjustments area 0%Q in
  exposure <- lift (row_get case_data "potential_exposure") ;;
  exposure <- lift (as_number exposure) ;;
  let exposure_adj :=
    py_min (Fin (2 # 10)) (fmul (fdiv exposure (Fin 10000000)) (Fin (1 # 10))) in
  let win_probability :=
    py_max (Fin (1 # 10))
      (py_min (Fin (9 # 10))
         (fsub (fsub (fadd (Fin base_win_prob) (Fin area_adj)) exposure_adj)
            (fmul (Fin risk_score) (Fin (3 # 10))))) in
  show_pieces "st" "columns" [Fmt (PInt 3) ""] ;;;
  show_pieces "col1" "markdown, unsafe_allow_html=True"
    (card "Win Probability" [Fmt (PFloat win_probability) ".1%"]) ;;;
  fees <- lift (row_get case_data "legal_fees_spent") ;;
  u <- in_app (rng (uniform (15 # 10) 3)) ;;
  fees <- lift (as_number fees) ;;
  let estimated_cost := fmul fees (Fin u) in
  show_pieces "col2" "markdown, unsafe_allow_html=True"
    (card "Estimated Total Cost"
       [Lit "$"; Fmt (PFloat (fdiv estimated_cost (Fin 1000000))) ".1f"; Lit "M"]) ;;;
  let recommended_action :=
    if flt (Fin (6 # 10)) win_probability then "Proceed" else "Consider Settlement" in
  show_pieces "col3" "markdown, unsafe_allow_html=True" (card "Recommendation" [Lit recommended_action]).

End Streamlit.

(** ** Executable instances of the two library interfaces

    A linear congruential generator stands in for numpy's Mersenne Twister,
    and a scikit-learn whose calls all succeed; they run the definitions
    above on concrete inputs. *)

Module Toy.
Definition step (s : Z) : Z := (s * 1103515245 + 12345) mod 2147483648.

Definition unit_sample (s : Z) : Q := (step s mod 1000) # 1000.
Definition positive_sample (s : Z) : Q := (1 + step s mod 1000) # 10.

Lemma unit_sample_range s : (0 <= unit_sample s)%Q /\ (unit_sample s < 1)%Q.
Proof.
  unfold unit_sample, Qle, Qlt; simpl.
  pose proof (Z.mod_pos_bound (step s) 1000 eq_refl). lia.
Qed.

Lemma randint_in_range lo hi (s : Z) :
  lo < hi -> lo <= lo + step s mod (hi - lo) < hi.
Proof.
  intros Hlt. pose proof (Z.mod_pos_bound (step s) (hi - lo)). lia.
Qed.

Lemma positive_sample_pos s : (0 < positive_sample s)%Q.
Proof.
  unfold positive_sample, Qlt; simpl.
  pose proof (Z.mod_pos_bound (step s) 1000 eq_refl). lia.
Qed.

#[export] Instance lcg : NumpyRandom := {|
  RandomState := Z;
  seeded := fun k => k;
  random_sample := fun s => (unit_sample s, step s);
  randint := fun lo hi s => (lo + step s mod (hi - lo), step s);
  normal := fun mean sigma s => ((mean + sigma * (unit_sample s - (1 # 2)))%Q, step s);
  lognormal := fun mean sigma s => (positive_sample s, step s);
  exponential := fun scale s => ((scale * unit_sample s)%Q, step s);
  beta := fun a b s => (unit_sample s, step s);
  poisson := fun lam s => (step s mod 3, step s);
  random_sample_range := unit_sample_range;
  randint_range := fun lo hi s => randint_in_range lo hi s;
  lognormal_pos := fun _ _ s => positive_sample_pos s
|}.

(** Every call succeeds: the split keeps all rows on both sides, the
    transformers and predictors hand their input back. *)
#[export] Instance all_ok : Sklearn := {|
  ndarray := DataFrame;
  fitted := unit;
  train_test_split := fun X a b c d _ _ =>
    Return ((X, X), (a, a), (b, b), (c, c), (d, d));
  scaler_fit_transform := fun X => Return (tt, X);
  scaler_transform := fun _ X => Return X;
  encoder_fit_transform := fun y => Return (tt, Int64 (repeat 0 (col_len y)));
  encoder_transform := fun _ y => Return (Int64 (repeat 0 (col_len y)));
  fit := fun _ _ _ _ => Return tt;
  predict := fun _ _ X => Return (Float64 (repeat (Fin 1) (nrows X)));
  feature_importances_ := fun _ => [];
  accuracy_score := fun _ _ => Return (Fin 1);
  mean_squared_error := fun _ _ => Return (Fin 0)
|}.
End Toy.

(** A scikit-learn for the application whose calls all succeed: the split
    keeps all rows on both sides. *)
Module ToyApp.
#[export] Instance frames_ok : @SklearnFrames Toy.all_ok :=
  @Build_SklearnFrames Toy.all_ok
    (fun X y _ _ => Return ((X, X), (y, y)))
    (fun X => X).
End ToyApp.

(** * Specifications *)

(** ** Predicate transformers for [Py] computations *)

(** [wpe c Q E s]: from [s], the computation [c] returns a value and state
    satisfying [Q], or raises an exception and leaves a state satisfying
    [E]. *)
Definition wpe {S A} (c : Py S A) (Q : A -> S -> Prop) (E : exn -> S -> Prop)
  (s : S) : Prop :=
  match c s with
  | (Return a, s') => Q a s'
  | (Raise e, s') => E e s'
  end.

(** [wp]: [c] returns, and the result satisfies [Q]. *)
Definition wp {S A} (c : Py S A) (Q : A -> S -> Prop) (s : S) : Prop :=
  wpe c Q (fun _ _ => False) s.

Arguments wpe : simpl never.

(** ** The log of a training run *)

(** The call returned (or the event is a construction). *)
Definition returned (ev : event) : bool :=
  match ev with
  | Call _ (Some _) => false
  | _ => true
  end.

(** The class of the estimator, when the event is a call of [fit]. *)
Definition fit_of (ev : event) : option estimator_class :=
  match ev with
  | Call (Method c m) _ => if String.eqb m "fit" then Some c else None
  | _ => None
  end.

(** The estimators [fit] was called on, in order. *)
Definition fit_classes (evs : list event) : list estimator_class := omap fit_of evs.

(** The classes constructed, in order. *)
Definition constructed (evs : list event) : list estimator_class :=
  omap (fun ev => match ev with Construct c => Some c | _ => None end) evs.

(** A predictor other than the two imported families. *)
Definition other_family (c : estimator_class) : bool :=
  match c with
  | RandomForestRegressor => true
  | _ => false
  end.

(** Preprocessing only: a transformer constructed or called, a helper
    function called, and the call returned. *)
Definition quiet (ev : event) : bool :=
  match ev with
  | Construct c => negb (is_predictor c)
  | Call (Method c m) None => negb (is_predictor c) && negb (String.eqb m "fit")
  | Call (Function _) None => true
  | Call _ (Some _) => false
  end.

(** Exceptions of the frame operations. *)
Definition local_error (e : exn) : Prop :=
  match e with
  | KeyError _ | ValueError _ | TypeError _ => True
  | _ => False
  end.

(** A result that is a value or a local error. *)
Definition local_result {A} (r : result A) : Prop :=
  match r with
  | Raise e => local_error e
  | Return _ => True
  end.

(** The three ways the function ends. *)
Inductive ending (e : exn) (evs : list event) : Prop :=
| library_raised f evs0 :
    evs = (evs0 ++ [Call f (Some e)])%list ->
    forallb returned evs0 = true ->
    ending e evs
| frame_raised :
    forallb returned evs = true ->
    local_error e ->
    ending e evs
| third_model_unbound :
    forallb returned evs = true ->
    e = NameError "RandomForestRegressor" ->
    fit_classes evs = [RandomForestClassifier; GradientBoostingRegressor] ->
    ending e evs.

(** [fit] was called on the first predictor, then on the second, as far as
    the run went. *)
Definition fit_prefix (evs : list event) : Prop :=
  fit_classes evs = [] \/
  fit_classes evs = [RandomForestClassifier] \/
  fit_classes evs = [RandomForestClassifier; GradientBoostingRegressor].

(** A step that leaves the state alone and raises local errors only. *)
Definition pure_step {S A} (c : Py S A) : Prop :=
  forall s, wpe c (fun _ s' => s' = s) (fun e s' => s' = s /\ local_error e) s.

(** A computation on a frame raises local errors only. *)
Definition frame_step {A} (c : Py DataFrame A) : Prop :=
  forall d, wpe c (fun _ _ => True) (fun e _ => local_error e) d.

Section TrainingSpec.
Context `{Sklearn}.

(** How a run from [s] that raised [e] left the state [s']: untrained, no
    cost predictor stored, and the events [evs] it added to the log. *)
Definition run_summary (s : TrainState) (e : exn) (s' : TrainState) : Prop :=
  is_trained (platform s') = is_trained (platform s) /\
  models (platform s') !! "cost_predictor" = models (platform s) !! "cost_predictor" /\
  exists evs,
    calls s' = (calls s ++ evs)%list /\
    fit_prefix evs /\
    existsb other_family (constructed evs) = false /\
    ending e evs.

(** The preprocessing phase: the models are untouched and the events
    are quiet. *)
Definition preprocessed (s s' : TrainState) : Prop :=
  is_trained (platform s') = is_trained (platform s) /\
  models (platform s') = models (platform s) /\
  exists q, calls s' = (calls s ++ q)%list /\ forallb quiet q = true.

(** The preprocessing phase raised [e]: a frame operation did, or the last
    call into the library, which was not a [fit]. *)
Definition preprocessing_failed (s : TrainState) (e : exn) (s' : TrainState) : Prop :=
  is_trained (platform s') = is_trained (platform s) /\
  models (platform s') = models (platform s) /\
  exists q, forallb quiet q = true /\
    ((calls s' = (calls s ++ q)%list /\ local_error e) \/
     (exists f, fit_of (Call f (Some e)) = None /\
                calls s' = (calls s ++ q ++ [Call f (Some e)])%list)).

(** A step of the preprocessing phase. *)
Definition quiet_step {A} (c : Py TrainState A) : Prop :=
  forall s, wpe c (fun _ s' => preprocessed s s') (preprocessing_failed s) s.
End TrainingSpec.

(** ** The calls of a training run, by class *)




Section CallsSpec.
Context `{Sklearn}.


End CallsSpec.



(** ** Dependence on the state *)

(** [c] reads the state through [proj] only: from two states that agree on
    [proj] it yields the same result and states that again agree. *)
Definition reads_only {S T A} (proj : S -> T) (c : Py S A) : Prop :=
  forall s1 s2, proj s1 = proj s2 ->
    fst (c s1) = fst (c s2) /\ proj (snd (c s1)) = proj (snd (c s2)).

(** [c] depends on the state it starts from not at all. *)
Definition reseeds {S T A} (proj : S -> T) (c : Py S A) : Prop :=
  forall s1 s2, fst (c s1) = fst (c s2) /\ proj (snd (c s1)) = proj (snd (c s2)).

(** ** The case table and the weights of a row *)

(** What [case_table n] hands to the loops: [n] rows, the complexity labels
    among the four levels, the hour samples positive. *)
Definition sampled_columns (n : Z) (data : DataFrame) : Prop :=
  exists (practice_area document_type complexity client_type : list string)
         (case_value hours_estimated hours_actual partner_hours associate_hours
          paralegal_hours document_pages review_time_hours client_satisfaction
          billing_rate_partner billing_rate_associate billing_rate_paralegal : list Q),
    data = mkDataFrame (Z.to_nat n)
      [ ("case_id", Int64 (range 1 (n + 1)));
        ("practice_area", Object (map PStr practice_area));
        ("document_type", Object (map PStr document_type));
        ("complexity", Object (map PStr complexity));
        ("client_type", Object (map PStr client_type));
        ("case_value", Float64 (map Fin case_value));
        ("hours_estimated", Float64 (map Fin hours_estimated));
        ("hours_actual", Float64 (map Fin hours_actual));
        ("partner_hours", Float64 (map Fin partner_hours));
        ("associate_hours", Float64 (map Fin associate_hours));
        ("paralegal_hours", Float64 (map Fin paralegal_hours));
        ("document_pages", Float64 (map Fin document_pages));
        ("review_time_hours", Float64 (map Fin review_time_hours));
        ("client_satisfaction", Float64 (map (clip 1 10) (map Fin client_satisfaction)));
        ("billing_rate_partner", Float64 (map Fin billing_rate_partner));
        ("billing_rate_associate", Float64 (map Fin billing_rate_associate));
        ("billing_rate_paralegal", Float64 (map Fin billing_rate_paralegal)) ] /\
    Forall (fun l : list string => length l = Z.to_nat n)
      [practice_area; document_type; complexity; client_type] /\
    Forall (fun l : list Q => length l = Z.to_nat n)
      [case_value; hours_estimated; hours_actual; partner_hours; associate_hours;
       paralegal_hours; document_pages; review_time_hours; client_satisfaction;
       billing_rate_partner; billing_rate_associate; billing_rate_paralegal] /\
    Forall (fun c => In c complexity_levels) complexity /\
    Forall (fun q => 0 < q)%Q hours_estimated /\
    Forall (fun q => 0 < q)%Q hours_actual.

(** The vector of a row: the five weights, with the bounds on the first
    two. *)
Definition row_weights (probs : list float) : Prop :=
  exists win loss : Q,
    probs = [Fin win; Fin loss; Fin (3 # 10); Fin (5 # 100); Fin (5 # 100)] /\
    (0 <= win)%Q /\ (win <= 56 # 100)%Q /\ (14 # 100 <= loss)%Q /\
    (loss == 1 - win - (3 # 10))%Q.

(** ** Runs on the executable instances *)

(** [generate_legal_cases_data(25)] on the executable generator: four rows
    come out closed, two of them settled. *)
Definition cases_run : result DataFrame * AppWorld :=
  @generate_legal_cases_data Toy.lcg 25 (@mkAppWorld Toy.lcg 0 0).

Definition cases_frame : DataFrame :=
  match fst cases_run with
  | Return d => d
  | Raise _ => mkDataFrame 0 []
  end.

(** The case table of [generate_legal_data(2)] on the executable generator,
    and its first row. *)
Definition table_world : @World Toy.lcg Toy.all_ok := @mkWorld Toy.lcg Toy.all_ok 0 init.

Definition table_run : result DataFrame * @World Toy.lcg Toy.all_ok :=
  @case_table Toy.lcg Toy.all_ok 2 table_world.

Definition table_frame : DataFrame :=
  match fst table_run with
  | Return d => d
  | Raise _ => mkDataFrame 0 []
  end.

Definition first_row : Z * list (string * cell) := (0, row_of table_frame 0).

(** ** The frame [generate_legal_data] returns *)

(** The arrays [generate_legal_data] draws, by column. *)
Record legal_samples : Type := mkLegalSamples {
  drawn_practice_area : list string;
  drawn_document_type : list string;
  drawn_complexity : list string;
  drawn_client_type : list string;
  drawn_case_value : list Q;
  drawn_hours_estimated : list Q;
  drawn_hours_actual : list Q;
  drawn_partner_hours : list Q;
  drawn_associate_hours : list Q;
  drawn_paralegal_hours : list Q;
  drawn_document_pages : list Q;
  drawn_review_time_hours : list Q;
  drawn_client_satisfaction : list Q;
  drawn_billing_rate_partner : list Q;
  drawn_billing_rate_associate : list Q;
  drawn_billing_rate_paralegal : list Q;
  drawn_case_outcome : list string;
  drawn_noise : list Q
}.

(** 'total_cost', from the hours and the rates. *)
Definition total_cost_of (x : legal_samples) : list float :=
  zip_with fadd
    (zip_with fadd
       (zip_with fmul (map Fin (drawn_partner_hours x)) (map Fin (drawn_billing_rate_partner x)))
       (zip_with fmul (map Fin (drawn_associate_hours x)) (map Fin (drawn_billing_rate_associate x))))
    (zip_with fmul (map Fin (drawn_paralegal_hours x)) (map Fin (drawn_billing_rate_paralegal x))).

(** The frame the function builds from the arrays. *)
Definition legal_frame (n : Z) (x : legal_samples) : DataFrame :=
  mkDataFrame (Z.to_nat n)
    [ ("case_id", Int64 (range 1 (n + 1)));
      ("practice_area", Object (map PStr (drawn_practice_area x)));
      ("document_type", Object (map PStr (drawn_document_type x)));
      ("complexity", Object (map PStr (drawn_complexity x)));
      ("client_type", Object (map PStr (drawn_client_type x)));
      ("case_value", Float64 (map Fin (drawn_case_value x)));
      ("hours_estimated", Float64 (map Fin (drawn_hours_estimated x)));
      ("hours_actual", Float64 (map Fin (drawn_hours_actual x)));
      ("partner_hours", Float64 (map Fin (drawn_partner_hours x)));
      ("associate_hours", Float64 (map Fin (drawn_associate_hours x)));
      ("paralegal_hours", Float64 (map Fin (drawn_paralegal_hours x)));
      ("document_pages", Float64 (map Fin (drawn_document_pages x)));
      ("review_time_hours", Float64 (map Fin (drawn_review_time_hours x)));
      ("client_satisfaction",
       Float64 (map (clip 1 10) (map Fin (drawn_client_satisfaction x))));
      ("billing_rate_partner", Float64 (map Fin (drawn_billing_rate_partner x)));
      ("billing_rate_associate", Float64 (map Fin (drawn_billing_rate_associate x)));
      ("billing_rate_paralegal", Float64 (map Fin (drawn_billing_rate_paralegal x)));
      ("case_outcome", Object (map PStr (drawn_case_outcome x)));
      ("total_cost", Float64 (total_cost_of x));
      ("profit_margin",
       Float64 (scale 100
                  (zip_with fdiv
                     (zip_with fsub (map Fin (drawn_case_value x)) (total_cost_of x))
                     (map Fin (drawn_case_value x)))));
      ("efficiency_ratio",
       Float64 (zip_with fdiv (map Fin (drawn_hours_estimated x))
                  (map Fin (drawn_hours_actual x))));
      ("document_complexity_score",
       Float64 (map (clip 0 100)
                  (zip_with fadd
                     (zip_with fadd (scale (3 # 10) (map Fin (drawn_document_pages x)))
                        (scale (4 # 10) (map Fin (drawn_review_time_hours x))))
                     (map Fin (drawn_noise x))))) ].

(** What is known of the arrays: [n] entries each, the labels among the
    lists they are chosen from, the log-normal samples positive. *)
Definition legal_samples_ok (n : Z) (x : legal_samples) : Prop :=
  Forall (fun l : list string => length l = Z.to_nat n)
    [drawn_practice_area x; drawn_document_type x; drawn_complexity x;
     drawn_client_type x; drawn_case_outcome x] /\
  Forall (fun l : list Q => length l = Z.to_nat n)
    [drawn_case_value x; drawn_hours_estimated x; drawn_hours_actual x;
     drawn_partner_hours x; drawn_associate_hours x; drawn_paralegal_hours x;
     drawn_document_pages x; drawn_review_time_hours x; drawn_client_satisfaction x;
     drawn_billing_rate_partner x; drawn_billing_rate_associate x;
     drawn_billing_rate_paralegal x; drawn_noise x] /\
  Forall (fun s => In s practice_areas) (drawn_practice_area x) /\
  Forall (fun s => In s document_types) (drawn_document_type x) /\
  Forall (fun s => In s complexity_levels) (drawn_complexity x) /\
  Forall (fun s => In s client_types) (drawn_client_type x) /\
  Forall (fun s => In s case_outcomes) (drawn_case_outcome x) /\
  Forall (fun l : list Q => Forall (fun q => 0 < q)%Q l)
    [drawn_case_value x; drawn_hours_estimated x; drawn_hours_actual x;
     drawn_document_pages x; drawn_review_time_hours x].

(** ** Feature engineering *)

(** The columns [engineer_legal_features] reads and the ones it writes. *)
Definition engineer_inputs : list string :=
  [ "partner_hours"; "associate_hours"; "paralegal_hours"; "total_cost";
    "document_pages"; "review_time_hours"; "hours_actual"; "hours_estimated";
    "efficiency_ratio"; "case_value"; "client_satisfaction"; "profit_margin" ].

Definition engineered_columns : list string :=
  [ "total_hours"; "partner_ratio"; "cost_per_hour"; "pages_per_hour"; "hour_variance";
    "high_efficiency"; "cost_overrun"; "high_value_case"; "document_intensive";
    "partner_intensive"; "high_satisfaction"; "profitable_case" ].

(** The columns [cols] of [df] are read as numbers, one per row. *)
Definition numeric_columns (cols : list string) (df : DataFrame) : Prop :=
  Forall (fun c => exists l, getnum df c = Return l /\ length l = nrows df) cols.

(** The columns [cols] of [df] are float64 columns, one value per row. *)
Definition float_columns (cols : list string) (df : DataFrame) : Prop :=
  Forall (fun c => exists l, getitem df c = Return (Float64 l) /\ length l = nrows df)
    cols.

(** What is left of [df] in [d]: the rows and every column but the
    engineered ones. *)
Definition kept (df d : DataFrame) : Prop :=
  nrows d = nrows df /\
  forall c, ~ In c engineered_columns -> getitem d c = getitem df c.

(** A statement that keeps the frame so, whether it returns or raises, and
    raises local errors only. *)
Definition keeps_frame {A} (c : Py DataFrame A) : Prop :=
  forall df d, kept df d ->
    wpe c (fun _ d' => kept df d') (fun e d' => kept df d' /\ local_error e) d.

(** A frame of two cases with the twelve input columns. *)
Definition two_cases : DataFrame :=
  mkDataFrame 2
    [ ("partner_hours", Float64 [Fin 10; Fin 0]);
      ("associate_hours", Float64 [Fin 30; Fin 0]);
      ("paralegal_hours", Float64 [Fin 10; Fin 0]);
      ("total_cost", Float64 [Fin 21500; Fin 0]);
      ("document_pages", Float64 [Fin 400; Fin 20]);
      ("review_time_hours", Float64 [Fin 20; Fin 4]);
      ("hours_actual", Float64 [Fin 50; Fin 90]);
      ("hours_estimated", Float64 [Fin 60; Fin 60]);
      ("efficiency_ratio", Float64 [Fin (12 # 10); Fin (2 # 3)]);
      ("case_value", Float64 [Fin 100000; Fin 5000]);
      ("client_satisfaction", Float64 [Fin 9; Fin 4]);
      ("profit_margin", Float64 [Fin (785 # 10); Fin 100]) ].

Definition two_cases_engineered : DataFrame :=
  match fst (engineer_legal_features two_cases) with
  | Return d => d
  | Raise _ => two_cases
  end.

(** The hours of two cases, and nothing else. *)
Definition hours_only : DataFrame :=
  mkDataFrame 2
    [ ("partner_hours", Float64 [Fin 10; Fin 0]);
      ("associate_hours", Float64 [Fin 30; Fin 0]);
      ("paralegal_hours", Float64 [Fin 10; Fin 0]) ].

(** ** The encoders and the stored models *)

Section EncodersDefs.
Context `{Sklearn}.

(** An encoder is stored under [c] and was fitted. *)
Definition fitted_encoder (p : LegalOperationsPlatform) (c : string) : Prop :=
  exists e st, encoders p !! c = Some e /\ state e = Some st.

(** The event is a call of [transform] on a label encoder. *)
Definition transform_call (ev : event) : Prop :=
  exists r, ev = Call (Method LabelEncoder "transform") r.

End EncodersDefs.

Section StoredModelsDefs.
Context `{Sklearn}.

(** The call [fit] on an estimator of class [c] that returned. *)
Definition fit_returned (c : estimator_class) : event := Call (Method c "fit") None.

(** The estimator stored under [key] is the one the function constructs
    with [ps], fitted. *)
Definition stored (p : LegalOperationsPlatform) (key : string) (c : estimator_class)
    (ps : list (string * Q)) : Prop :=
  exists st, models p !! key = Some (mkEstimator c ps (Some st)).

(** A model is in [self.models] exactly when its [fit] returned. *)
Definition stored_when_fitted (p p' : LegalOperationsPlatform) (evs : list event)
    (key : string) (c : estimator_class) (ps : list (string * Q)) : Prop :=
  (In (fit_returned c) evs -> stored p' key c ps) /\
  (~ In (fit_returned c) evs -> models p' !! key = models p !! key).

Definition models_summary (s s' : TrainState) : Prop :=
  exists evs,
    calls s' = (calls s ++ evs)%list /\
    stored_when_fitted (platform s) (platform s') evs "outcome_predictor"
      RandomForestClassifier
      [("n_estimators", 500); ("max_depth", 12); ("random_state", 42); ("n_jobs", -1)]%Q /\
    stored_when_fitted (platform s) (platform s') evs "hours_predictor"
      GradientBoostingRegressor
      [("n_estimators", 500); ("learning_rate", 1 # 10); ("max_depth", 8);
       ("random_state", 42)]%Q.

End StoredModelsDefs.

(** ** The contract table *)

(** The status and the renewal flag of a contract that ends at [e], seen
    at [now]. *)
Definition contract_status (now e : Z) : pyobj :=
  if e <? now then PStr "Expired" else PStr "Active".

Definition contract_renewal (now e : Z) : pyobj := PBool (e - now <? 90 * day_ns).

(** The frame [generate_contracts_data] builds from what it draws. *)
Definition contracts_frame (n now : Z) (contract_type counterparty : list string)
    (start_date : list Z) (contract_value : list Q) (duration_months : list Z)
    (risk performance : list Q) (compliance_issues auto_renewal : list bool)
  : DataFrame :=
  let end_date := zip_with (fun s m => s + m * 30 * day_ns) start_date duration_months in
  mkDataFrame (Z.to_nat n)
    [ ("contract_id",
       Object (map PStr (map (fun i => String.append "CONTRACT-" (zfill 4 i)) (range 0 n))));
      ("contract_type", Object (map PStr contract_type));
      ("counterparty", Object (map PStr counterparty));
      ("start_date", Datetime64 start_date);
      ("contract_value", Float64 (map Fin contract_value));
      ("duration_months", Int64 duration_months);
      ("end_date", Datetime64 end_date);
      ("risk_score", Float64 (map (fun x => Fin (x * 10)) risk));
      ("performance_score", Float64 (map (fun x => Fin (x * 10)) performance));
      ("status", Object (map (contract_status now) end_date));
      ("renewal_required", Object (map (contract_renewal now) end_date));
      ("compliance_issues", Bool compliance_issues);
      ("auto_renewal", Bool auto_renewal) ].

(** ** The vendor table *)

Definition vendor_types : list string :=
  ["Law Firm"; "Technology Vendor"; "Consulting Firm"; "Expert Witness";
   "Court Reporter"; "Investigation Firm"; "Translation Service"; "Legal Research"].

(** The frame [generate_vendor_data] builds from what it draws. *)
Definition vendors_frame (n : Z) (vendor_type : list string) (annual_spend performance : list Q)
    (diversity_status : list string) (contract_start payment_terms_days : list Z)
    (invoice_accuracy response_time_hours : list Q) : DataFrame :=
  mkDataFrame (Z.to_nat n)
    [ ("vendor_id",
       Object (map PStr (map (fun i => String.append "VENDOR-" (zfill 3 i)) (range 0 n))));
      ("vendor_name",
       Object (map PStr (map (fun i => String.append "Vendor_" (str i)) (range 1 (n + 1)))));
      ("vendor_type", Object (map PStr vendor_type));
      ("annual_spend", Float64 (map Fin annual_spend));
      ("performance_score", Float64 (map (fun x => Fin (x * 10)) performance));
      ("diversity_status", Object (map PStr diversity_status));
      ("contract_start", Datetime64 contract_start);
      ("payment_terms_days", Int64 payment_terms_days);
      ("invoice_accuracy", Float64 (map Fin invoice_accuracy));
      ("response_time_hours", Float64 (map Fin response_time_hours)) ].

(** ** The compliance table *)

Definition business_units : list string :=
  ["Corporate"; "Finance"; "HR"; "IT"; "Operations"; "Sales"; "Marketing"; "R&D"].

Definition compliance_areas : list string :=
  ["Data Privacy"; "Financial Regulations"; "Employment Law"; "Environmental";
   "Safety"; "Anti-Corruption"; "Trade Compliance"; "Industry Standards"].

(** The assessments, in the order of the three nested loops: every business
    unit, for it every compliance area, for it every month end of 2023 and
    2024. *)
Definition assessments : list (string * string * Z) :=
  flat_map (fun unit =>
      flat_map (fun area => map (fun month => (unit, area, month)) (month_ends 2023 2024))
        compliance_areas)
    business_units.

(** What identifies a record. *)
Definition assessment_of (r : compliance_record) : string * string * Z :=
  (business_unit r, compliance_area r, assessment_date r).

(** ** The case table of the application *)

(** The factor a risk level multiplies the exposure by. *)
Definition risk_multiplier (level : string) : Q :=
  if String.eqb level "Low" then 5 # 10
  else if String.eqb level "Medium" then 1
  else if String.eqb level "High" then 2
  else 5.

(** The exposure of a case: the sampled value times the factor of its risk
    level. *)
Definition exposure_of (base : Q) (level : string) : float :=
  fmul (Fin base) (Fin (risk_multiplier level)).

(** What [generate_legal_cases_data] draws, by column. *)
Record case_samples : Type := mkCaseSamples {
  case_practice_area : list string;
  case_case_type : list string;
  case_status : list string;
  case_risk_level : list string;
  case_filing_date : list Z;
  case_assigned_attorney : list string;
  case_client : list string;
  case_opposing_counsel : list string;
  case_base_value : list Q;
  case_fee_share : list Q;
  case_cost_factor : list Q;
  case_outcome_drawn : list string;
  case_settlement_share : list Q
}.

(** The frame the function builds from them. *)
Definition legal_cases_frame (n : Z) (x : case_samples) : DataFrame :=
  let exposure := zip_with exposure_of (case_base_value x) (case_risk_level x) in
  let fees := zip_with fmul exposure (map Fin (case_fee_share x)) in
  let outcome :=
    scatter PNaN (map (eq_str "Closed") (map PStr (case_status x)))
      (map PStr (case_outcome_drawn x)) in
  let settled := map (eq_str "Settled") outcome in
  mkDataFrame (Z.to_nat n)
    [ ("case_id",
       Object (map PStr (map (fun i => String.append "CASE-" (zfill 4 i)) (range 0 n))));
      ("case_name",
       Object (map PStr (map (fun i => String.append "Legal Matter " (str (i + 1)))
                           (range 0 n))));
      ("practice_area", Object (map PStr (case_practice_area x)));
      ("case_type", Object (map PStr (case_case_type x)));
      ("status", Object (map PStr (case_status x)));
      ("risk_level", Object (map PStr (case_risk_level x)));
      ("filing_date", Datetime64 (case_filing_date x));
      ("assigned_attorney", Object (map PStr (case_assigned_attorney x)));
      ("client", Object (map PStr (case_client x)));
      ("opposing_counsel", Object (map PStr (case_opposing_counsel x)));
      ("potential_exposure", Float64 exposure);
      ("legal_fees_spent", Float64 fees);
      ("estimated_total_cost",
       Float64 (zip_with fmul fees (map Fin (case_cost_factor x))));
      ("outcome", Object outcome);
      ("settlement_amount",
       Float64 (scatter NaN settled
                  (zip_with fmul (loc_rows settled exposure)
                     (map Fin (case_settlement_share x))))) ].

(** A label made of a prefix and a number from [lo] up to, not
    including, [hi]. *)
Definition numbered (pre : string) (lo hi : Z) (s : string) : Prop :=
  exists k, s = String.append pre (str k) /\ lo <= k < hi.

(** What is known of the samples of [n] cases. *)
Definition case_samples_ok (n : Z) (x : case_samples) : Prop :=
  Forall (fun l : list string => length l = Z.to_nat n)
    [case_practice_area x; case_case_type x; case_status x; case_risk_level x;
     case_assigned_attorney x; case_client x; case_opposing_counsel x] /\
  length (case_filing_date x) = Z.to_nat n /\
  Forall (fun l : list Q => length l = Z.to_nat n)
    [case_base_value x; case_fee_share x; case_cost_factor x] /\
  Forall (fun s => In s ["Low"; "Medium"; "High"; "Critical"]) (case_risk_level x) /\
  Forall (fun t => Timestamp 2020 1 1 <= t <= Timestamp 2024 12 31) (case_filing_date x) /\
  Forall (numbered "Attorney_" 1 25) (case_assigned_attorney x) /\
  Forall (numbered "Client_" 1 50) (case_client x) /\
  Forall (numbered "Opposing_Firm_" 1 30) (case_opposing_counsel x) /\
  Forall (fun q => 0 < q)%Q (case_base_value x) /\
  Forall (fun q => 5 # 100 <= q /\ q < 25 # 100)%Q (case_fee_share x) /\
  Forall (fun q => 12 # 10 <= q /\ q < 3)%Q (case_cost_factor x) /\
  Forall (fun q => 1 # 10 <= q /\ q < 8 # 10)%Q (case_settlement_share x).

(** ** The Streamlit application *)

Section StreamlitSpecDefs.
Context `{NumpyRandom} `{SklearnFrames}.

Definition spinner (text : string) : element := mkElement "st" "spinner" [Lit text] [] [].

Definition sidebar_success (text : string) : element :=
  mkElement "st.sidebar" "success" [Lit text] [] [].

(** The session after a training that went through: the fitted forest, its
    accuracy and the flag. *)
Definition trained_state (st : fitted) (accuracy : float)
    (m : gmap string session_value) : gmap string session_value :=
  <["models_trained" := SBool true]>
    (<["model_accuracy" := SFloat accuracy]>
       (<["outcome_model" :=
            SModel (mkEstimator RandomForestClassifier
                      [("n_estimators", 100); ("random_state", 42)]%Q (Some st))]> m)).

(** The session has no data, or at most 50 cases with an outcome. *)
Definition too_few_closed (s : Session) : Prop :=
  exists v, session_state s !! "data_loaded" = Some v /\
    (truth v = Return false \/
     truth v = Return true /\
     exists df outcome,
       session_state s !! "legal_cases" = Some (SFrame df) /\
       getitem df "outcome" = Return outcome /\
       col_len outcome = nrows df /\
       (count (notna outcome) <= 50)%nat).

Definition training_calls : list event :=
  [ Call (Function "train_test_split") None;
    Construct RandomForestClassifier;
    Call (Method RandomForestClassifier "fit") None;
    Call (Method RandomForestClassifier "predict") None;
    Call (Function "accuracy_score") None ].

End StreamlitSpecDefs.

(** The defaults [__init__] gives the keys of the session. *)
Definition session_defaults `{Sklearn} : list (string * session_value) :=
  [("data_loaded", SBool false); ("models_trained", SBool false);
   ("legal_cases", SNone); ("contracts", SNone); ("compliance_data", SNone)].

(** [if key not in st.session_state: st.session_state.key = v] *)
Definition ensure `{Sklearn} (k : string) (v : session_value)
    (m : gmap string session_value) : gmap string session_value :=
  match m !! k with
  | Some _ => m
  | None => <[k := v]> m
  end.

(** ** Inputs of the runs on the executable instances *)

(** The two cases with their four categorical columns. *)
Definition two_cases_labelled : DataFrame :=
  mkDataFrame 2
    (columns two_cases ++
     [ ("practice_area", Object [PStr "Litigation"; PStr "Tax"]);
       ("document_type", Object [PStr "Contract"; PStr "Brief"]);
       ("complexity", Object [PStr "Low"; PStr "High"]);
       ("client_type", Object [PStr "Corporate"; PStr "Individual"]) ])%list.

Definition labelled_run : result (list string) * @TrainState Toy.all_ok :=
  @prepare_data_for_modeling Toy.all_ok (@mkTrainState Toy.all_ok init two_cases_labelled []).

Definition labelled_features : list string :=
  match fst labelled_run with
  | Return l => l
  | Raise _ => []
  end.

(** A session before any data is loaded. *)
Definition fresh_session : @Session Toy.lcg Toy.all_ok :=
  @mkSession Toy.lcg Toy.all_ok (@mkAppWorld Toy.lcg 0 0)
    (<["models_trained" := SBool false]> (<["data_loaded" := SBool false]> ∅)) [] [].

Definition train_click : Widgets :=
  mkWidgets "📊 Executive Dashboard" false true ["Litigation"] ["High"].

Section PredictionDefs.
Context `{NumpyRandom} `{SklearnFrames}.

(** The row [active_cases[active_cases['case_id'] == selected_case].iloc[0]]. *)
Definition selected_row (active_cases : DataFrame) (selected_case : string)
    (row : list (string * cell)) : Prop :=
  exists ids chosen,
    getitem active_cases "case_id" = Return ids /\
    filter_rows (series_eq ids selected_case) active_cases = Return chosen /\
    iloc0 chosen = Return row.

End PredictionDefs.

(** Two active cases of the application. *)
Definition two_active_cases : DataFrame :=
  mkDataFrame 2
    [ ("case_id", Object [PStr "CASE-0000"; PStr "CASE-0001"]);
      ("practice_area", Object [PStr "Litigation"; PStr "Corporate"]);
      ("risk_level", Object [PStr "High"; PStr "Low"]);
      ("potential_exposure", Float64 [Fin 9000000; Fin 1500000]);
      ("legal_fees_spent", Float64 [Fin 500000; Fin 120000]) ].

(** * Properties *)

(** ** Reasoning about [Py] computations *)

Lemma wpe_bind {S A B} (c : Py S A) (k : A -> Py S B) Q E s :
  wpe c (fun a s' => wpe (k a) Q E s') E s -> wpe (bind c k) Q E s.
Proof.
  unfold wpe, bind. destruct (c s) as [[a | e] s']; auto.
Qed.

Lemma wpe_ret {S A} (a : A) (Q : A -> S -> Prop) E s : Q a s -> wpe (ret a) Q E s.
Proof. auto. Qed.

Lemma wpe_raise {S A} e (Q : A -> S -> Prop) (E : exn -> S -> Prop) s :
  E e s -> wpe (raise e) Q E s.
Proof. auto. Qed.

Lemma wpe_lift {S A} (r : result A) (Q : A -> S -> Prop) (E : exn -> S -> Prop) s :
  (forall a, r = Return a -> Q a s) ->
  (forall e, r = Raise e -> E e s) ->
  wpe (lift r) Q E s.
Proof. unfold wpe, lift. destruct r; auto. Qed.

Lemma wpe_get {S} (Q : S -> S -> Prop) E s : Q s s -> wpe get Q E s.
Proof. auto. Qed.

Lemma wpe_put {S} (t : S) (Q : unit -> S -> Prop) E s : Q tt t -> wpe (put t) Q E s.
Proof. auto. Qed.

Lemma wpe_modify {S} (f : S -> S) (Q : unit -> S -> Prop) E s :
  Q tt (f s) -> wpe (modify f) Q E s.
Proof. auto. Qed.

Lemma wpe_mono {S A} (c : Py S A) (Q Q' : A -> S -> Prop) (E E' : exn -> S -> Prop) s :
  wpe c Q E s ->
  (forall a s', Q a s' -> Q' a s') ->
  (forall e s', E e s' -> E' e s') ->
  wpe c Q' E' s.
Proof.
  unfold wpe. destruct (c s) as [[a | e] s']; auto.
Qed.

Lemma wpe_zoom {S T A} (proj : S -> T) (upd : T -> S -> S) (c : Py T A) Q E s :
  wpe c (fun a t => Q a (upd t s)) (fun e t => E e (upd t s)) (proj s) ->
  wpe (zoom proj upd c) Q E s.
Proof.
  unfold wpe, zoom. destruct (c (proj s)) as [[a | e] t]; auto.
Qed.

Lemma wp_returns {S A} (c : Py S A) Q s :
  wp c Q s -> exists a s', c s = (Return a, s') /\ Q a s'.
Proof.
  unfold wp, wpe. destruct (c s) as [[a | e] s']; [eauto | tauto].
Qed.

Lemma returns_wp {S A} (c : Py S A) (Q : A -> S -> Prop) s a s' :
  c s = (Return a, s') -> Q a s' -> wp c Q s.
Proof. unfold wp, wpe. intros ->. auto. Qed.

(** Inverting a returning [bind]. *)
Lemma bind_returns {S A B} (c : Py S A) (k : A -> Py S B) s b s' :
  bind c k s = (Return b, s') ->
  exists a s1, c s = (Return a, s1) /\ k a s1 = (Return b, s').
Proof.
  unfold bind. destruct (c s) as [[a | e] s1]; [eauto | discriminate].
Qed.

Lemma lift_returns {S A} (r : result A) (s : S) a s' :
  lift r s = (Return a, s') -> r = Return a /\ s' = s.
Proof. unfold lift. intros [= -> ->]. auto. Qed.

Lemma ret_returns {S A} (x : A) (s : S) a s' :
  ret x s = (Return a, s') -> a = x /\ s' = s.
Proof. unfold ret. intros [= -> ->]. auto. Qed.

(** ** Frames *)

Lemma assoc_set_eq {A} k (v : A) l : assoc k (assoc_set k v l) = Some v.
Proof.
  induction l as [| [k' v'] l IH]; simpl.
  - now rewrite String.eqb_refl.
  - destruct (String.eqb k k') eqn:Ek; simpl; rewrite ?String.eqb_refl, ?Ek; auto.
Qed.

Lemma assoc_set_ne {A} k k' (v : A) l :
  k <> k' -> assoc k' (assoc_set k v l) = assoc k' l.
Proof.
  intros Hne. induction l as [| [k0 v0] l IH]; simpl.
  - destruct (String.eqb k' k) eqn:Ek; [| reflexivity].
    apply String.eqb_eq in Ek. congruence.
  - destruct (String.eqb k k0) eqn:Ek; simpl.
    + apply String.eqb_eq in Ek. subst k0.
      destruct (String.eqb k' k) eqn:Ek'; [| reflexivity].
      apply String.eqb_eq in Ek'. congruence.
    + destruct (String.eqb k' k0); auto.
Qed.

Lemma setitem_returns col c df df' :
  setitem col c df = Return df' ->
  col_len c = nrows df /\ nrows df' = nrows df /\
  columns df' = assoc_set col c (columns df).
Proof.
  unfold setitem. destruct (Nat.eqb_spec (col_len c) (nrows df)); [| discriminate].
  intros [= <-]. auto.
Qed.

Lemma getitem_setitem_eq col c df df' :
  setitem col c df = Return df' -> getitem df' col = Return c.
Proof.
  intros Hs. apply setitem_returns in Hs as (_ & _ & Hc).
  unfold getitem. now rewrite Hc, assoc_set_eq.
Qed.

Lemma getitem_setitem_ne col col' c df df' :
  col <> col' -> setitem col c df = Return df' -> getitem df' col' = getitem df col'.
Proof.
  intros Hne Hs. apply setitem_returns in Hs as (_ & _ & Hc).
  unfold getitem. now rewrite Hc, assoc_set_ne.
Qed.

(** ** Automation ROI *)

(** C9. On a frame whose 'review_time_hours' column holds numbers with a
    finite sum [total], [calculate_automation_roi] returns the dictionary
    with manual_cost = 200 * total, automated_cost = 0.25 * manual_cost +
    50000, annual_savings = manual_cost - automated_cost, roi_percentage =
    annual_savings / 50000 * 100 and time_savings_hours = 0.75 * total,
    in exact arithmetic, and leaves the frame as it was. *)
Theorem calculate_automation_roi_equations (df : DataFrame) (l : list float) (total : Q) :
  getnum df "review_time_hours" = Return l ->
  Series_sum l = Fin total ->
  exists (roi : gmap string float)
         (manual_cost automated_cost annual_savings roi_percentage time_savings : Q),
    calculate_automation_roi df = (Return roi, df) /\
    roi !! "manual_cost" = Some (Fin manual_cost) /\
    roi !! "automated_cost" = Some (Fin automated_cost) /\
    roi !! "annual_savings" = Some (Fin annual_savings) /\
    roi !! "roi_percentage" = Some (Fin roi_percentage) /\
    roi !! "time_savings_hours" = Some (Fin time_savings) /\
    (manual_cost == 200 * total)%Q /\
    (automated_cost == (25 # 100) * manual_cost + 50000)%Q /\
    (annual_savings == manual_cost - automated_cost)%Q /\
    (roi_percentage == annual_savings / 50000 * 100)%Q /\
    (time_savings == (75 # 100) * total)%Q.
Proof.
  intros Hcol Hsum.
  unfold calculate_automation_roi, col, bind, get, lift, ret.
  rewrite Hcol, Hsum. cbn [fmul fadd fsub fneg fdiv].
  change (Qeq_bool 50000 0) with false. cbv iota.
  eexists _, _, _, _, _, _.
  split; [reflexivity |].
  repeat (split; [by simplify_map_eq |]).
  repeat split; field.
Qed.

(** C9 at a frame with two reviews of 10 and 30 hours. *)
Lemma calculate_automation_roi_equations_witness :
  exists (roi : gmap string float)
         (manual_cost automated_cost annual_savings roi_percentage time_savings : Q),
    calculate_automation_roi
      (mkDataFrame 2 [("review_time_hours", Float64 [Fin 10; Fin 30])])
    = (Return roi, mkDataFrame 2 [("review_time_hours", Float64 [Fin 10; Fin 30])]) /\
    roi !! "manual_cost" = Some (Fin manual_cost) /\
    roi !! "automated_cost" = Some (Fin automated_cost) /\
    roi !! "annual_savings" = Some (Fin annual_savings) /\
    roi !! "roi_percentage" = Some (Fin roi_percentage) /\
    roi !! "time_savings_hours" = Some (Fin time_savings) /\
    (manual_cost == 200 * (10 + (30 + 0)))%Q /\
    (automated_cost == (25 # 100) * manual_cost + 50000)%Q /\
    (annual_savings == manual_cost - automated_cost)%Q /\
    (roi_percentage == annual_savings / 50000 * 100)%Q /\
    (time_savings == (75 # 100) * (10 + (30 + 0)))%Q.
Proof.
  apply (calculate_automation_roi_equations
           (mkDataFrame 2 [("review_time_hours", Float64 [Fin 10; Fin 30])])
           [Fin 10; Fin 30] (10 + (30 + 0))%Q); reflexivity.
Defined.

(** ** The Flask endpoints *)

(** C3. Whatever was served before, GET / answers 200 with message
    'Intelligence Platform API' and status 'running'; GET /health answers 200
    with status 'healthy' and service 'intelligence-platform'; GET
    /api/v1/status answers 200 with api_version 'v1', status 'operational'
    and a non-empty 'features' list. *)
Theorem working_endpoints (feature : string) (more_features : list string)
    (served : list Flask.request) :
  let get := Flask.client_get feature more_features served in
  (Flask.status_code (get "/") = 200 /\
   Flask.field "message" (get "/") = Some (Flask.JStr "Intelligence Platform API") /\
   Flask.field "status" (get "/") = Some (Flask.JStr "running")) /\
  (Flask.status_code (get "/health") = 200 /\
   Flask.field "status" (get "/health") = Some (Flask.JStr "healthy") /\
   Flask.field "service" (get "/health") = Some (Flask.JStr "intelligence-platform")) /\
  (Flask.status_code (get "/api/v1/status") = 200 /\
   Flask.field "api_version" (get "/api/v1/status") = Some (Flask.JStr "v1") /\
   Flask.field "status" (get "/api/v1/status") = Some (Flask.JStr "operational") /\
   exists features, Flask.field "features" (get "/api/v1/status")
                    = Some (Flask.JList features) /\ (0 < length features)%nat).
Proof.
  cbv zeta. repeat split; try reflexivity.
  exists (feature :: more_features). split; [reflexivity | simpl; lia].
Qed.

Lemma dispatch_unrouted feature more_features served (r : Flask.request) :
  Flask.path r <> "/" -> Flask.path r <> "/health" -> Flask.path r <> "/api/v1/status" ->
  Flask.dispatch feature more_features served r = Flask.mkResponse 404 None.
Proof.
  intros H1 H2 H3. unfold Flask.dispatch, Flask.url_map. simpl.
  destruct (String.eqb_spec (Flask.path r) "/"); [contradiction |].
  destruct (String.eqb_spec (Flask.path r) "/health"); [contradiction |].
  destruct (String.eqb_spec (Flask.path r) "/api/v1/status"); [contradiction |].
  reflexivity.
Qed.

(** C4. A request, of any method, for a path other than /, /health and
    /api/v1/status is answered with a status in {404, 501} that is not a
    success status (the status is 404); GET /invalid-endpoint is answered
    404. *)
Theorem unrouted_paths_not_found (feature : string) (more_features : list string)
    (served : list Flask.request) (r : Flask.request) :
  Flask.path r <> "/" -> Flask.path r <> "/health" -> Flask.path r <> "/api/v1/status" ->
  let status := Flask.status_code (Flask.dispatch feature more_features served r) in
  (status = 404 \/ status = 501) /\
  ~ (200 <= status < 300) /\
  Flask.status_code (Flask.client_get feature more_features served "/invalid-endpoint") = 404.
Proof.
  intros H1 H2 H3. cbv zeta.
  rewrite (dispatch_unrouted _ _ _ r H1 H2 H3). simpl.
  repeat split; [auto | lia].
Qed.

(** C4 at POST /api/v1/nlp/legal-research, one of the routes only the tests
    name. *)
Lemma unrouted_paths_not_found_witness :
  let r := Flask.mkRequest Flask.POST "/api/v1/nlp/legal-research" [] [] None in
  let status := Flask.status_code (Flask.dispatch "f" [] [] r) in
  (status = 404 \/ status = 501) /\
  ~ (200 <= status < 300) /\
  Flask.status_code (Flask.client_get "f" [] [] "/invalid-endpoint") = 404.
Proof.
  apply (unrouted_paths_not_found "f" [] []
           (Flask.mkRequest Flask.POST "/api/v1/nlp/legal-research" [] [] None));
    discriminate.
Defined.

(** C6. Two GET requests for the same working path are answered alike,
    whatever their query parameters, headers and bodies and whatever was
    served before each of them. *)
Theorem working_endpoints_stateless (feature : string) (more_features : list string)
    (served1 served2 : list Flask.request) (r1 r2 : Flask.request) :
  Flask.method r1 = Flask.GET -> Flask.method r2 = Flask.GET ->
  Flask.path r1 = Flask.path r2 ->
  Flask.path r1 = "/" \/ Flask.path r1 = "/health" \/ Flask.path r1 = "/api/v1/status" ->
  Flask.dispatch feature more_features served1 r1
  = Flask.dispatch feature more_features served2 r2.
Proof.
  intros Hm1 Hm2 Hp _. unfold Flask.dispatch. now rewrite Hm1, Hm2, Hp.
Qed.

(** C6 at two differently decorated requests for /health. *)
Lemma working_endpoints_stateless_witness :
  let r1 := Flask.mkRequest Flask.GET "/health" [("verbose", "1")] [] None in
  let r2 := Flask.mkRequest Flask.GET "/health" [] [("Authorization", "Bearer x")] None in
  Flask.dispatch "f" [] [] r1 = Flask.dispatch "f" [] [r1] r2.
Proof.
  apply (working_endpoints_stateless "f" [] [] _
           (Flask.mkRequest Flask.GET "/health" [("verbose", "1")] [] None)
           (Flask.mkRequest Flask.GET "/health" [] [("Authorization", "Bearer x")] None));
    simpl; auto.
Defined.

(** ** Training: what is asked of scikit-learn, and how the call ends *)

Lemma quiet_returned evs : forallb quiet evs = true -> forallb returned evs = true.
Proof.
  induction evs as [| ev evs IH]; simpl; [auto |].
  intros [Hq Hr]%andb_prop. rewrite (IH Hr), andb_true_r.
  destruct ev as [c | [c m | f] [e |]]; simpl in *; auto.
Qed.

Lemma fit_classes_app evs1 evs2 :
  fit_classes (evs1 ++ evs2) = (fit_classes evs1 ++ fit_classes evs2)%list.
Proof. apply omap_app. Qed.

Lemma constructed_app evs1 evs2 :
  constructed (evs1 ++ evs2) = (constructed evs1 ++ constructed evs2)%list.
Proof. apply omap_app. Qed.

Lemma fit_classes_quiet evs : forallb quiet evs = true -> fit_classes evs = [].
Proof.
  induction evs as [| ev evs IH]; simpl; [auto |].
  intros [Hq Hr]%andb_prop. unfold fit_classes in *. simpl. rewrite (IH Hr).
  destruct ev as [c | [c m | f] [e |]]; simpl in *; try discriminate; auto.
  destruct (String.eqb m "fit"); [| reflexivity].
  now rewrite andb_false_r in Hq.
Qed.

Lemma constructed_quiet evs :
  forallb quiet evs = true -> existsb other_family (constructed evs) = false.
Proof.
  induction evs as [| ev evs IH]; simpl; [auto |].
  intros [Hq Hr]%andb_prop. unfold constructed in *.
  destruct ev as [c | f r]; simpl; [| auto].
  rewrite (IH Hr). now destruct c.
Qed.

Lemma returned_app evs1 evs2 :
  forallb returned (evs1 ++ evs2) = forallb returned evs1 && forallb returned evs2.
Proof. apply forallb_app. Qed.

Section Training.
Context `{Sklearn}.

Lemma preprocessed_refl s : preprocessed s s.
Proof.
  repeat split. exists []. now rewrite app_nil_r.
Qed.

Lemma preprocessed_trans s1 s2 s3 :
  preprocessed s1 s2 -> preprocessed s2 s3 -> preprocessed s1 s3.
Proof.
  intros (Ht1 & Hm1 & q1 & Hc1 & Hq1) (Ht2 & Hm2 & q2 & Hc2 & Hq2).
  repeat split; [congruence | congruence |].
  exists (q1 ++ q2)%list. split.
  - rewrite Hc2, Hc1. now rewrite app_assoc.
  - rewrite forallb_app, Hq1, Hq2. reflexivity.
Qed.

Lemma preprocessing_failed_after s1 s2 e s3 :
  preprocessed s1 s2 -> preprocessing_failed s2 e s3 -> preprocessing_failed s1 e s3.
Proof.
  intros (Ht1 & Hm1 & q1 & Hc1 & Hq1) (Ht2 & Hm2 & q2 & Hq2 & Hc2).
  repeat split; [congruence | congruence |].
  exists (q1 ++ q2)%list. split.
  - rewrite forallb_app, Hq1, Hq2. reflexivity.
  - destruct Hc2 as [[Hc2 He] | (f & Hf & Hc2)]; [left | right].
    + split; [| assumption]. rewrite Hc2, Hc1. now rewrite app_assoc.
    + exists f. split; [exact Hf |]. rewrite Hc2, Hc1. now rewrite <- !app_assoc.
Qed.

Lemma quiet_bind {A B} (c : Py TrainState A) (k : A -> Py TrainState B) :
  quiet_step c -> (forall a, quiet_step (k a)) -> quiet_step (bind c k).
Proof.
  intros Hc Hk s. apply wpe_bind.
  eapply wpe_mono; [apply Hc | | auto].
  intros a s1 H1. cbv beta in *.
  eapply wpe_mono; [apply Hk | |]; cbv beta.
  - intros b s2 H2. exact (preprocessed_trans _ _ _ H1 H2).
  - intros e s2 H2. exact (preprocessing_failed_after _ _ _ _ H1 H2).
Qed.

Lemma quiet_ret {A} (a : A) : quiet_step (ret a).
Proof. intros s. apply wpe_ret, preprocessed_refl. Qed.

Lemma quiet_get : quiet_step get.
Proof. intros s. apply wpe_get, preprocessed_refl. Qed.

Lemma quiet_raise {A} e : local_error e -> quiet_step (@raise _ A e).
Proof.
  intros He s. apply wpe_raise. repeat split.
  exists []. split; [reflexivity |]. left. now rewrite app_nil_r.
Qed.

Lemma quiet_for_each {A B} (xs : list A) (body : A -> Py TrainState B) :
  (forall x, quiet_step (body x)) -> quiet_step (for_each xs body).
Proof.
  intros Hb. induction xs as [| x xs IH]; simpl.
  - apply quiet_ret.
  - apply quiet_bind; [apply Hb |]. intros y.
    apply quiet_bind; [apply IH |]. intros ys. apply quiet_ret.
Qed.

(** *** Steps that only read: they return or raise a local error *)

Lemma getitem_local df c : local_result (getitem df c).
Proof. unfold getitem. now destruct (assoc c (columns df)). Qed.

Lemma as_float64_local c : local_result (as_float64 c).
Proof. now destruct c. Qed.

Lemma getnum_local df c : local_result (getnum df c).
Proof.
  unfold getnum. pose proof (getitem_local df c) as Hg.
  destruct (getitem df c); [apply as_float64_local | exact Hg].
Qed.

Lemma elementwise_local {B} (op : float -> float -> B) a b :
  local_result (elementwise op a b).
Proof. unfold elementwise. now destruct (Nat.eqb (length a) (length b)). Qed.

Lemma setitem_local c v df : local_result (setitem c v df).
Proof. unfold setitem. now destruct (Nat.eqb (col_len v) (nrows df)). Qed.

Lemma select_local df cols : local_result (select df cols).
Proof.
  induction cols as [| c cols IH]; simpl; [exact I |].
  pose proof (getitem_local df c) as Hg.
  destruct (getitem df c); [| exact Hg].
  destruct (select df cols); [exact I | exact IH].
Qed.

Lemma pure_lift {S A} (r : result A) : local_result r -> pure_step (@lift S A r).
Proof.
  intros Hr s. apply wpe_lift; [auto |]. intros e ->. auto.
Qed.

Lemma pure_ret {S A} (a : A) : pure_step (@ret S A a).
Proof. intros s. now apply wpe_ret. Qed.

Lemma pure_bind {S A B} (c : Py S A) (k : A -> Py S B) :
  pure_step c -> (forall a, pure_step (k a)) -> pure_step (bind c k).
Proof.
  intros Hc Hk s. apply wpe_bind.
  eapply wpe_mono; [apply Hc | | auto].
  intros a s1 ->. apply Hk.
Qed.

Lemma pure_global {S} name :
  existsb (String.eqb name) module_globals = true -> pure_step (@global S name).
Proof. intros Hb. unfold global. rewrite Hb. apply pure_ret. Qed.

Lemma frame_of_pure {A} (c : Py DataFrame A) : pure_step c -> frame_step c.
Proof.
  intros Hc d. eapply wpe_mono; [apply Hc | auto | ]. now intros e d' [_ He].
Qed.

Lemma frame_bind {A B} (c : Py DataFrame A) (k : A -> Py DataFrame B) :
  frame_step c -> (forall a, frame_step (k a)) -> frame_step (bind c k).
Proof.
  intros Hc Hk d. apply wpe_bind.
  eapply wpe_mono; [apply Hc | | auto].
  intros a d1 _. apply Hk.
Qed.

Lemma frame_get : frame_step get.
Proof. intros d. now apply wpe_get. Qed.

Lemma frame_put d' : frame_step (put d').
Proof. intros d. now apply wpe_put. Qed.

Lemma frame_lift {A} (r : result A) : local_result r -> frame_step (lift r).
Proof. intros Hr. apply frame_of_pure, pure_lift, Hr. Qed.

Lemma frame_col c : frame_step (col c).
Proof.
  apply frame_bind; [apply frame_get |]. intros d. apply frame_lift, getnum_local.
Qed.

Lemma frame_set_col c v : frame_step (set_col c v).
Proof.
  apply frame_bind; [apply frame_get |]. intros d.
  apply frame_bind; [apply frame_lift, setitem_local |]. intros d'. apply frame_put.
Qed.

Lemma frame_engineer_legal_features : frame_step engineer_legal_features.
Proof.
  unfold engineer_legal_features.
  repeat first
    [ apply frame_get
    | apply frame_col
    | apply frame_set_col
    | apply frame_lift, elementwise_local
    | apply frame_bind; [| intros ?] ].
Qed.

(** *** The steps of the preprocessing phase *)

Lemma quiet_of_pure {A} (c : Py TrainState A) : pure_step c -> quiet_step c.
Proof.
  intros Hc s. eapply wpe_mono; [apply Hc | |]; cbv beta.
  - intros _ s' ->. apply preprocessed_refl.
  - intros e s' [-> He]. repeat split. exists []. split; [reflexivity |].
    left. now rewrite app_nil_r.
Qed.

Lemma quiet_on_frame {A} (c : Py DataFrame A) : frame_step c -> quiet_step (on_frame c).
Proof.
  intros Hc s. unfold on_frame. apply wpe_zoom.
  eapply wpe_mono; [apply Hc | |]; cbv beta.
  - intros _ d _. repeat split. exists []. now rewrite app_nil_r.
  - intros e d He. repeat split. exists []. split; [reflexivity |].
    left. simpl. now rewrite app_nil_r.
Qed.

Lemma quiet_set_encoder k e : quiet_step (on_self (set_encoder k e)).
Proof.
  intros s. apply wpe_modify. repeat split. exists []. simpl. now rewrite app_nil_r.
Qed.

Lemma quiet_record ev : quiet ev = true -> quiet_step (record ev).
Proof.
  intros Hq s. apply wpe_modify. repeat split. exists [ev]. simpl.
  now rewrite Hq.
Qed.

Lemma quiet_new c ps :
  is_predictor c = false ->
  existsb (String.eqb (class_name c)) module_globals = true ->
  quiet_step (new c ps).
Proof.
  intros Hc Hb. unfold new.
  apply quiet_bind; [apply quiet_of_pure, pure_global, Hb |]. intros _.
  apply quiet_bind; [apply quiet_record; simpl; now rewrite Hc |]. intros _.
  apply quiet_ret.
Qed.

Lemma quiet_call {A} c m (r : result A) :
  is_predictor c = false -> String.eqb m "fit" = false ->
  quiet_step (call (Method c m) r).
Proof.
  intros Hc Hm s. unfold call. apply wpe_bind, wpe_modify.
  apply wpe_lift.
  - intros a ->. repeat split. exists [Call (Method c m) None]. simpl.
    now rewrite Hc, Hm.
  - intros e ->. repeat split. exists []. split; [reflexivity |].
    right. exists (Method c m). split; [simpl; now rewrite Hm | reflexivity].
Qed.

Lemma quiet_encode_column c : quiet_step (encode_column c).
Proof.
  unfold encode_column.
  apply quiet_bind; [apply quiet_get |]. intros s.
  destruct (encoders (platform s) !! c).
  - apply quiet_bind;
      [apply quiet_on_frame, frame_bind;
       [apply frame_get | intros d; apply frame_lift, getitem_local] |].
    intros v. apply quiet_bind; [now apply quiet_call |]. intros r.
    apply quiet_on_frame, frame_set_col.
  - apply quiet_bind; [now apply quiet_new |]. intros e.
    apply quiet_bind; [apply quiet_set_encoder |]. intros _.
    apply quiet_bind;
      [apply quiet_on_frame, frame_bind;
       [apply frame_get | intros d; apply frame_lift, getitem_local] |].
    intros v. apply quiet_bind; [now apply quiet_call |]. intros r.
    apply quiet_bind; [apply quiet_set_encoder |]. intros _.
    apply quiet_on_frame, frame_set_col.
Qed.

Lemma quiet_prepare_data_for_modeling : quiet_step prepare_data_for_modeling.
Proof.
  unfold prepare_data_for_modeling.
  apply quiet_bind; [apply quiet_on_frame, frame_engineer_legal_features |].
  intros _. apply quiet_bind; [apply quiet_for_each, quiet_encode_column |].
  intros _. apply quiet_ret.
Qed.

(** *** The training phase, step by step

    The state is kept as [mkTrainState P F (C ++ L)]: [C] the log when the
    preprocessing ended, [L] the events since. *)

Lemma wpe_call {A} f (r : result A) Q E P F C L :
  (forall a, r = Return a -> Q a (mkTrainState P F (C ++ (L ++ [Call f None])))) ->
  (forall e, r = Raise e -> E e (mkTrainState P F ((C ++ L) ++ [Call f (Some e)]))) ->
  wpe (call f r) Q E (mkTrainState P F (C ++ L)).
Proof.
  intros Hret Hraise. unfold call. apply wpe_bind, wpe_modify. cbn [platform frame calls].
  apply wpe_lift.
  - intros a ->. rewrite <- app_assoc. now apply Hret.
  - intros e ->. now apply Hraise.
Qed.

Lemma wpe_new c ps Q E P F C L :
  existsb (String.eqb (class_name c)) module_globals = true ->
  Q (mkEstimator c ps None) (mkTrainState P F (C ++ (L ++ [Construct c]))) ->
  wpe (new c ps) Q E (mkTrainState P F (C ++ L)).
Proof.
  intros Hb HQ. unfold new, global. rewrite Hb.
  apply wpe_bind, wpe_ret, wpe_bind, wpe_modify, wpe_ret.
  cbn [platform frame calls]. now rewrite <- app_assoc.
Qed.

Lemma wpe_new_unbound {A} c ps (Q : A -> TrainState -> Prop) E
    (k : estimator -> Py TrainState A) s :
  existsb (String.eqb (class_name c)) module_globals = false ->
  E (NameError (class_name c)) s ->
  wpe (bind (new c ps) k) Q E s.
Proof.
  intros Hb HE. unfold new, global. rewrite Hb.
  apply wpe_bind, wpe_bind, wpe_raise, HE.
Qed.

Lemma wpe_on_self f Q E P F C :
  Q tt (mkTrainState (f P) F C) -> wpe (on_self f) Q E (mkTrainState P F C).
Proof. intros HQ. now apply wpe_modify. Qed.

Lemma wpe_pure {A B} (c : Py TrainState A) (k : A -> Py TrainState B) Q E s :
  pure_step c ->
  (forall a, wpe (k a) Q E s) ->
  (forall e, local_error e -> E e s) ->
  wpe (bind c k) Q E s.
Proof.
  intros Hc Hk HE. apply wpe_bind.
  eapply wpe_mono; [apply Hc | |]; cbv beta.
  - intros a s' ->. apply Hk.
  - intros e s' [-> He]. now apply HE.
Qed.

Lemma pure_relative_accuracy y_test y_pred :
  pure_step (relative_accuracy y_test y_pred).
Proof.
  unfold relative_accuracy.
  repeat first
    [ apply pure_ret
    | apply pure_global; reflexivity
    | apply pure_lift, as_float64_local
    | apply pure_lift, elementwise_local
    | apply pure_bind; [| intros ?] ].
Qed.

Lemma pure_on_frame_get : pure_step (on_frame get).
Proof.
  intros s. unfold on_frame. apply wpe_zoom, wpe_get. now destruct s.
Qed.

Section Endings.
Variables (s0 : TrainState) (P1 : LegalOperationsPlatform) (F1 : DataFrame)
          (C1 : list event).
Hypothesis Hpre : preprocessed s0 (mkTrainState P1 F1 C1).

Lemma ends_in_library e P F L f :
  is_trained P = is_trained P1 ->
  models P !! "cost_predictor" = models P1 !! "cost_predictor" ->
  fit_prefix (L ++ [Call f (Some e)]) ->
  existsb other_family (constructed L) = false ->
  forallb returned L = true ->
  run_summary s0 e (mkTrainState P F ((C1 ++ L) ++ [Call f (Some e)])).
Proof.
  destruct Hpre as (Ht & Hm & q & Hc & Hq). cbn [platform calls] in *.
  intros HtP HmP Hfit Hother Hret. unfold run_summary. cbn [platform calls].
  split; [congruence |]. split; [congruence |].
  exists (q ++ L ++ [Call f (Some e)])%list. split; [| split; [| split]].
  - rewrite Hc. now rewrite <- !app_assoc.
  - unfold fit_prefix in *. rewrite fit_classes_app, (fit_classes_quiet q Hq).
    exact Hfit.
  - rewrite !constructed_app, !existsb_app, (constructed_quiet q Hq), Hother.
    reflexivity.
  - apply (library_raised e _ f (q ++ L)%list).
    + now rewrite <- app_assoc.
    + now rewrite forallb_app, (quiet_returned q Hq), Hret.
Qed.

Lemma ends_in_frame e P F L :
  is_trained P = is_trained P1 ->
  models P !! "cost_predictor" = models P1 !! "cost_predictor" ->
  fit_prefix L ->
  existsb other_family (constructed L) = false ->
  forallb returned L = true ->
  local_error e ->
  run_summary s0 e (mkTrainState P F (C1 ++ L)).
Proof.
  destruct Hpre as (Ht & Hm & q & Hc & Hq). cbn [platform calls] in *.
  intros HtP HmP Hfit Hother Hret He. unfold run_summary. cbn [platform calls].
  split; [congruence |]. split; [congruence |].
  exists (q ++ L)%list. split; [| split; [| split]].
  - rewrite Hc. now rewrite <- !app_assoc.
  - unfold fit_prefix in *. rewrite fit_classes_app, (fit_classes_quiet q Hq).
    exact Hfit.
  - now rewrite constructed_app, existsb_app, (constructed_quiet q Hq), Hother.
  - apply frame_raised; [| exact He].
    now rewrite forallb_app, (quiet_returned q Hq), Hret.
Qed.

Lemma ends_at_third_model P F L :
  is_trained P = is_trained P1 ->
  models P !! "cost_predictor" = models P1 !! "cost_predictor" ->
  fit_classes L = [RandomForestClassifier; GradientBoostingRegressor] ->
  existsb other_family (constructed L) = false ->
  forallb returned L = true ->
  run_summary s0 (NameError "RandomForestRegressor") (mkTrainState P F (C1 ++ L)).
Proof.
  destruct Hpre as (Ht & Hm & q & Hc & Hq). cbn [platform calls] in *.
  intros HtP HmP Hfit Hother Hret. unfold run_summary. cbn [platform calls].
  split; [congruence |]. split; [congruence |].
  exists (q ++ L)%list. split; [| split; [| split]].
  - rewrite Hc. now rewrite <- !app_assoc.
  - unfold fit_prefix. rewrite fit_classes_app, (fit_classes_quiet q Hq), Hfit.
    auto.
  - now rewrite constructed_app, existsb_app, (constructed_quiet q Hq), Hother.
  - apply third_model_unbound; [| reflexivity |].
    + now rewrite forallb_app, (quiet_returned q Hq), Hret.
    + now rewrite fit_classes_app, (fit_classes_quiet q Hq).
Qed.
End Endings.

Lemma preprocessing_failed_summary s e s' :
  preprocessing_failed s e s' -> run_summary s e s'.
Proof.
  intros (Ht & Hm & q & Hq & Hc). unfold run_summary.
  split; [exact Ht |]. split; [now rewrite Hm |].
  destruct Hc as [[Hc He] | (f & Hf & Hc)].
  - exists q. split; [exact Hc |]. split; [left; now apply fit_classes_quiet |].
    split; [now apply constructed_quiet |].
    apply frame_raised; [now apply quiet_returned | exact He].
  - exists (q ++ [Call f (Some e)])%list. split; [exact Hc |].
    split; [| split].
    + left. rewrite fit_classes_app, (fit_classes_quiet q Hq).
      change (fit_classes [Call f (Some e)])
        with (match fit_of (Call f (Some e)) with Some c => [c] | None => [] end).
      now rewrite Hf.
    + rewrite constructed_app, existsb_app, (constructed_quiet q Hq). reflexivity.
    + apply (library_raised e _ f q); [reflexivity | now apply quiet_returned].
Qed.

Ltac solve_pure :=
  first
    [ apply pure_on_frame_get
    | apply pure_relative_accuracy
    | apply pure_global; reflexivity
    | apply pure_lift, select_local
    | apply pure_lift, getitem_local ].

Ltac solve_fit_prefix :=
  unfold fit_prefix;
  first [ left; reflexivity | right; left; reflexivity | right; right; reflexivity ].

Ltac solve_untouched :=
  cbn [models set_model set_scaler set_encoder];
  rewrite ?lookup_insert_ne by done; reflexivity.

Ltac ends_with Hpre :=
  first
    [ apply (ends_in_library _ _ _ _ Hpre);
      [ reflexivity | solve_untouched | solve_fit_prefix | reflexivity | reflexivity ]
    | apply (ends_in_frame _ _ _ _ Hpre);
      [ reflexivity | solve_untouched | solve_fit_prefix | reflexivity | reflexivity
      | assumption ]
    | apply (ends_at_third_model _ _ _ _ Hpre);
      [ reflexivity | solve_untouched | reflexivity | reflexivity | reflexivity ] ].

Ltac step Hpre :=
  lazymatch goal with
  | |- wpe (match ?x with _ => _ end) _ _ _ => destruct x
  | |- wpe (bind (call _ _) _) _ _ _ =>
      apply wpe_bind, wpe_call; [intros ? _; cbn [app] | intros ? _; ends_with Hpre]
  | |- wpe (bind (new RandomForestRegressor _) _) _ _ _ =>
      apply wpe_new_unbound; [reflexivity | ends_with Hpre]
  | |- wpe (bind (new _ _) _) _ _ _ =>
      apply wpe_bind, wpe_new; [reflexivity | cbn [app]]
  | |- wpe (bind (on_self _) _) _ _ _ =>
      apply wpe_bind, wpe_on_self
  | |- wpe (bind _ _) _ _ _ =>
      apply wpe_pure; [solve_pure | intros ? | intros ? ?; ends_with Hpre]
  end.

(** Every run of [train_legal_models] raises, in one of the three ways. *)
Lemma train_legal_models_run (s : TrainState) :
  wpe train_legal_models (fun _ _ => False) (run_summary s) s.
Proof.
  unfold train_legal_models.
  apply wpe_bind.
  eapply wpe_mono;
    [apply quiet_prepare_data_for_modeling | | apply preprocessing_failed_summary].
  cbv beta. intros feature_cols [P1 F1 C1] Hpre.
  rewrite <- (app_nil_r C1).
  repeat step Hpre.
Qed.

Lemma train_legal_models_raises (s : TrainState) :
  exists e s', train_legal_models s = (Raise e, s') /\ run_summary s e s'.
Proof.
  pose proof (train_legal_models_run s) as Hrun. unfold wpe in Hrun.
  destruct (train_legal_models s) as [[a | e] s']; [contradiction | eauto].
Qed.


End Training.

(** C1 (which the code does not meet). Whatever scikit-learn does and
    whatever frame is passed, [train_legal_models] raises: it never returns
    a results dictionary, [is_trained] keeps its value and nothing is
    stored under 'cost_predictor'.  The third estimator is constructed under
    the name RandomForestRegressor, which the module does not import. *)
Theorem train_legal_models_always_raises `{Sklearn} (s : TrainState) :
  exists e s',
    train_legal_models s = (Raise e, s') /\
    is_trained (platform s') = is_trained (platform s) /\
    models (platform s') !! "cost_predictor" = models (platform s) !! "cost_predictor".
Proof.
  destruct (train_legal_models_raises s) as (e & s' & Hrun & Ht & Hm & _).
  eauto.
Qed.

(** The failing run of C1, on the frame [generate_legal_data(5)] with a
    library whose calls all succeed: a NameError at the third estimator,
    after the first two were fitted and stored. *)
Lemma train_legal_models_name_error :
  let df := match fst (@generate_legal_data Toy.lcg Toy.all_ok 5
                         (@mkWorld Toy.lcg Toy.all_ok 0 init)) with
            | Return d => d
            | Raise _ => mkDataFrame 0 []
            end in
  let run := @train_legal_models Toy.all_ok (mkTrainState init df []) in
  nrows df = 5%nat /\
  fst run = Raise (NameError "RandomForestRegressor") /\
  is_trained (platform (snd run)) = false /\
  map fst (map_to_list (models (platform (snd run))))
  = ["outcome_predictor"; "hours_predictor"] /\
  fit_classes (calls (snd run)) = [RandomForestClassifier; GradientBoostingRegressor].
Proof. vm_compute. repeat split; reflexivity. Qed.

(** ** Determinism of the generators *)

Section ReadsOnly.
Context {S T : Type} (proj : S -> T).

Lemma reads_only_ret {A} (a : A) : reads_only proj (ret a).
Proof. intros s1 s2 Hs. auto. Qed.

Lemma reads_only_lift {A} (r : result A) : reads_only proj (lift r).
Proof. intros s1 s2 Hs. auto. Qed.

Lemma reads_only_bind {A B} (c : Py S A) (k : A -> Py S B) :
  reads_only proj c -> (forall a, reads_only proj (k a)) ->
  reads_only proj (bind c k).
Proof.
  intros Hc Hk s1 s2 Hs. unfold bind.
  destruct (Hc s1 s2 Hs) as [Hr Hp].
  destruct (c s1) as [[a1 | e1] t1], (c s2) as [[a2 | e2] t2];
    simpl in Hr, Hp; try discriminate.
  - injection Hr as ->. now apply Hk.
  - injection Hr as ->. auto.
Qed.

Lemma reads_only_for_each {A B} (xs : list A) (body : A -> Py S B) :
  (forall x, reads_only proj (body x)) -> reads_only proj (for_each xs body).
Proof.
  intros Hb. induction xs as [| x xs IH]; simpl.
  - apply reads_only_ret.
  - apply reads_only_bind; [apply Hb |]. intros y.
    apply reads_only_bind; [apply IH |]. intros ys. apply reads_only_ret.
Qed.

Lemma reads_only_zoom {A} (upd : T -> S -> S) (c : Py T A) :
  (forall t s, proj (upd t s) = t) -> reads_only proj (zoom proj upd c).
Proof.
  intros Hlens s1 s2 Hs. unfold zoom. rewrite Hs.
  destruct (c (proj s2)) as [r t]. simpl. now rewrite !Hlens.
Qed.

(** Once the generator is reseeded, where the state stood before does not
    matter. *)
Lemma reseeded {A} (upd : T -> S -> S) (seed_state : T) (rest : Py S A) :
  (forall t s, proj (upd t s) = t) ->
  reads_only proj rest ->
  reseeds proj (bind (zoom proj upd (put seed_state)) (fun _ => rest)).
Proof.
  intros Hlens Hrest s1 s2. unfold bind, zoom, put.
  apply Hrest. now rewrite !Hlens.
Qed.

Lemma reseeds_bind {A B} (c : Py S A) (k : A -> Py S B) :
  reseeds proj c -> (forall a, reads_only proj (k a)) -> reseeds proj (bind c k).
Proof.
  intros Hc Hk s1 s2. unfold bind.
  destruct (Hc s1 s2) as [Hr Hp].
  destruct (c s1) as [[a1 | e1] t1], (c s2) as [[a2 | e2] t2];
    simpl in Hr, Hp; try discriminate.
  - injection Hr as ->. now apply Hk.
  - injection Hr as ->. auto.
Qed.
End ReadsOnly.

Ltac solve_reads_only lens :=
  repeat first
    [ apply reads_only_ret
    | apply reads_only_lift
    | apply reads_only_zoom; exact lens
    | apply reads_only_for_each; intros ?
    | apply reads_only_bind; [| intros ?] ].

Section Determinism.
Context `{NumpyRandom} `{Sklearn}.

Lemma np_random_lens (r : RandomState) (w : World) :
  np_random (mkWorld r (self w)) = r.
Proof. reflexivity. Qed.

Lemma app_random_lens (r : RandomState) (w : AppWorld) :
  app_random (mkAppWorld r (clock w)) = r.
Proof. reflexivity. Qed.

Lemma generate_legal_data_deterministic n (w1 w2 : World) :
  fst (generate_legal_data n w1) = fst (generate_legal_data n w2).
Proof.
  unfold generate_legal_data, case_table, rnd, np_random_seed.
  apply (reseeds_bind np_random).
  - apply reseeded; [exact np_random_lens |]. solve_reads_only np_random_lens.
  - intros data. solve_reads_only np_random_lens.
Qed.

Lemma generate_legal_cases_data_deterministic n (w1 w2 : AppWorld) :
  fst (generate_legal_cases_data n w1) = fst (generate_legal_cases_data n w2).
Proof.
  unfold generate_legal_cases_data, labelled_randints, rng, np_random_seed. cbv zeta.
  apply (reseeded app_random); [exact app_random_lens |].
  solve_reads_only app_random_lens.
Qed.

Lemma generate_compliance_data_deterministic (w1 w2 : AppWorld) :
  fst (generate_compliance_data w1) = fst (generate_compliance_data w2).
Proof.
  unfold generate_compliance_data, rng, np_random_seed. cbv zeta.
  apply (reseeded app_random); [exact app_random_lens |].
  solve_reads_only app_random_lens.
Qed.

Lemma generate_vendor_data_deterministic n (w1 w2 : AppWorld) :
  fst (generate_vendor_data n w1) = fst (generate_vendor_data n w2).
Proof.
  unfold generate_vendor_data, rng, np_random_seed. cbv zeta.
  apply (reseeded app_random); [exact app_random_lens |].
  solve_reads_only app_random_lens.
Qed.

Lemma generate_contracts_data_reseeded n (w : AppWorld) :
  generate_contracts_data n w
  = generate_contracts_data n (mkAppWorld (seeded 42) (clock w)).
Proof. reflexivity. Qed.
End Determinism.

(** C5, as the code has it. [generate_legal_data],
    [generate_legal_cases_data], [generate_compliance_data] and
    [generate_vendor_data] return the same frame (or raise the same
    exception) for equal arguments, whatever the states of numpy's generator,
    of the platform and of the clock at the two calls, because each reseeds
    with 42 first.  [generate_contracts_data] also reads the clock: two calls
    with equal arguments agree when they read the same time. *)
Theorem generators_deterministic `{NumpyRandom} `{Sklearn} :
  (forall n (w1 w2 : World),
     fst (generate_legal_data n w1) = fst (generate_legal_data n w2)) /\
  (forall n (w1 w2 : AppWorld),
     fst (generate_legal_cases_data n w1) = fst (generate_legal_cases_data n w2)) /\
  (forall w1 w2 : AppWorld,
     fst (generate_compliance_data w1) = fst (generate_compliance_data w2)) /\
  (forall n (w1 w2 : AppWorld),
     fst (generate_vendor_data n w1) = fst (generate_vendor_data n w2)) /\
  (forall n (w1 w2 : AppWorld),
     clock w1 = clock w2 ->
     fst (generate_contracts_data n w1) = fst (generate_contracts_data n w2)).
Proof.
  split; [exact generate_legal_data_deterministic |].
  split; [exact generate_legal_cases_data_deterministic |].
  split; [exact generate_compliance_data_deterministic |].
  split; [exact generate_vendor_data_deterministic |].
  intros n w1 w2 Hclock.
  rewrite (generate_contracts_data_reseeded n w1), (generate_contracts_data_reseeded n w2).
  now rewrite Hclock.
Qed.

(** C5 at two calls of [generate_contracts_data(3)] on 4 November 2026,
    from different generator states. *)
Lemma generators_deterministic_witness :
  fst (@generate_contracts_data Toy.lcg 3 (@mkAppWorld Toy.lcg 1 (Timestamp 2026 11 4)))
  = fst (@generate_contracts_data Toy.lcg 3 (@mkAppWorld Toy.lcg 2 (Timestamp 2026 11 4))).
Proof.
  apply (proj2 (proj2 (proj2 (proj2 (@generators_deterministic Toy.lcg Toy.all_ok))))).
  reflexivity.
Defined.

(** C5 as stated fails for [generate_contracts_data]: a call on 1 June 2019
    and a call on 1 January 2030, with equal arguments and equal generator
    states, return different frames.  Every contract ends between 27
    December 2019 (the first start date plus 12 * 30 days) and 4 June 2029
    (the last start date plus 60 * 30 days), so the first call marks every
    row 'Active' and the second every row 'Expired', whatever is drawn
    ([generate_contracts_data_not_deterministic] below, for every
    generator). *)
Lemma generate_contracts_data_reads_the_clock :
  fst (@generate_contracts_data Toy.lcg 3 (@mkAppWorld Toy.lcg 0 (Timestamp 2019 6 1)))
  <> fst (@generate_contracts_data Toy.lcg 3 (@mkAppWorld Toy.lcg 0 (Timestamp 2030 1 1))).
Proof.
  intros Heq.
  apply (f_equal (fun r => match r with
                           | Return d => getitem d "status"
                           | Raise e => Raise e
                           end)) in Heq.
  vm_compute in Heq. discriminate Heq.
Qed.

(** ** Masked assignment and the invariants of the case table *)

Lemma loc_new_returns {A} (fill : A) mask vals l :
  loc_new fill mask vals = Return l -> l = scatter fill mask vals.
Proof.
  unfold loc_new. destruct (Nat.eqb (count mask) (length vals)); [| discriminate].
  now intros [= <-].
Qed.

Lemma length_scatter {A} (fill : A) mask vals :
  length (scatter fill mask vals) = length mask.
Proof.
  revert vals. induction mask as [| [|] mask IH]; intros vals; simpl; auto.
  destruct vals; simpl; auto.
Qed.

(** A row that does not hold the fill value is a row of the mask. *)
Lemma scatter_lookup {A} (fill : A) mask vals (i : nat) x :
  scatter fill mask vals !! i = Some x -> x <> fill -> mask !! i = Some true.
Proof.
  revert vals i. induction mask as [| b mask IH]; intros vals i; simpl.
  - discriminate.
  - destruct b.
    + destruct i as [| i]; [reflexivity |].
      destruct vals as [| v vals]; simpl; apply IH.
    + destruct i as [| i]; simpl.
      * intros [= <-] Hne. contradiction.
      * apply IH.
Qed.

Lemma eq_str_true s o : eq_str s o = true -> o = PStr s.
Proof.
  destruct o as [s' | b |]; simpl; try discriminate.
  intros Heq%String.eqb_eq. now subst.
Qed.

Lemma mask_lookup s (l : list pyobj) (i : nat) :
  map (eq_str s) l !! i = Some true -> l !! i = Some (PStr s).
Proof.
  revert i. induction l as [| o l IH]; intros [| i]; simpl; try discriminate.
  - intros [= Heq]. now rewrite (eq_str_true _ _ Heq).
  - apply IH.
Qed.

Lemma as_object_returns c l : as_object c = Return l -> c = Object l.
Proof. destruct c; simpl; try discriminate. now intros [= ->]. Qed.

(** Taking a returning computation apart, step by step. *)
Ltac invert_run H :=
  repeat
    (let a := fresh "v" in
     let s := fresh "s" in
     let Hstep := fresh "Hstep" in
     apply bind_returns in H as (a & s & Hstep & H);
     try (apply lift_returns in Hstep as [Hstep ->])).

Section CaseTable.
Context `{NumpyRandom}.

(** C10. In a frame [generate_legal_cases_data] returns, a row whose
    'settlement_amount' is not NaN has 'outcome' equal to 'Settled', and a
    row whose 'outcome' is not NaN has 'status' equal to 'Closed'. *)
Theorem case_table_invariants n (w : AppWorld) df w' :
  generate_legal_cases_data n w = (Return df, w') ->
  exists status outcome settlement,
    getitem df "status" = Return (Object status) /\
    getitem df "outcome" = Return (Object outcome) /\
    getitem df "settlement_amount" = Return (Float64 settlement) /\
    length status = nrows df /\
    length outcome = nrows df /\
    length settlement = nrows df /\
    forall i : nat,
      (forall x, settlement !! i = Some x -> x <> NaN ->
                 outcome !! i = Some (PStr "Settled")) /\
      (forall o, outcome !! i = Some o -> o <> PNaN ->
                 status !! i = Some (PStr "Closed")).
Proof.
  intros Hrun. unfold generate_legal_cases_data in Hrun. cbv zeta in Hrun.
  invert_run Hrun. apply ret_returns in Hrun as [-> ->].
  repeat match goal with
         | Hl : loc_new _ _ _ = Return _ |- _ => apply loc_new_returns in Hl
         | Ho : as_object _ = Return _ |- _ => apply as_object_returns in Ho
         end.
  subst.
  match goal with
  | Hset : setitem "settlement_amount" _ _ = Return _,
    Hget : getitem _ "outcome" = Return _,
    Hout : setitem "outcome" _ _ = Return _,
    Hst : getitem _ "status" = Return _ |- _ =>
      rename Hset into Hsettle, Hget into Hread, Hout into Houtcome, Hst into Hstatus
  end.
  rewrite (getitem_setitem_eq _ _ _ _ Houtcome) in Hread. injection Hread as <-.
  pose proof (setitem_returns _ _ _ _ Hsettle) as (Hlen1 & Hrows1 & _).
  pose proof (setitem_returns _ _ _ _ Houtcome) as (Hlen2 & Hrows2 & _).
  simpl in Hlen1, Hlen2.
  eexists _, _, _.
  rewrite (getitem_setitem_ne "settlement_amount" "status" _ _ _
             ltac:(discriminate) Hsettle),
          (getitem_setitem_ne "outcome" "status" _ _ _ ltac:(discriminate) Houtcome),
          (getitem_setitem_ne "settlement_amount" "outcome" _ _ _
             ltac:(discriminate) Hsettle),
          (getitem_setitem_eq _ _ _ _ Houtcome),
          (getitem_setitem_eq _ _ _ _ Hsettle).
  split; [exact Hstatus |]. split; [reflexivity |]. split; [reflexivity |].
  rewrite !length_scatter, !length_map in *.
  split; [congruence |]. split; [congruence |]. split; [congruence |].
  intros i. split.
  - intros x Hx Hnan. apply scatter_lookup in Hx; [| exact Hnan].
    now apply mask_lookup in Hx.
  - intros o Ho Hnan. apply scatter_lookup in Ho; [| exact Hnan].
    now apply mask_lookup in Ho.
Qed.
End CaseTable.

Lemma cases_run_returns : cases_run = (Return cases_frame, snd cases_run).
Proof.
  assert (fst cases_run = Return cases_frame) as Hfst by (vm_compute; reflexivity).
  rewrite <- Hfst. apply surjective_pairing.
Qed.

(** C10 at [generate_legal_cases_data(25)]. *)
Lemma case_table_invariants_witness :
  cases_run = (Return cases_frame, snd cases_run) /\
  exists status outcome settlement,
    getitem cases_frame "status" = Return (Object status) /\
    getitem cases_frame "outcome" = Return (Object outcome) /\
    getitem cases_frame "settlement_amount" = Return (Float64 settlement) /\
    length status = nrows cases_frame /\
    length outcome = nrows cases_frame /\
    length settlement = nrows cases_frame /\
    forall i : nat,
      (forall x, settlement !! i = Some x -> x <> NaN ->
                 outcome !! i = Some (PStr "Settled")) /\
      (forall o, outcome !! i = Some o -> o <> PNaN ->
                 status !! i = Some (PStr "Closed")).
Proof.
  split; [exact cases_run_returns |].
  exact (@case_table_invariants Toy.lcg 25 (@mkAppWorld Toy.lcg 0 0) cases_frame
           (snd cases_run) cases_run_returns).
Defined.

(** ** Sampling never fails on valid arguments *)

Lemma wp_bind {S A B} (c : Py S A) (k : A -> Py S B) Q s :
  wp c (fun a s' => wp (k a) Q s') s -> wp (bind c k) Q s.
Proof. apply wpe_bind. Qed.

Lemma wp_ret {S A} (a : A) (Q : A -> S -> Prop) s : Q a s -> wp (ret a) Q s.
Proof. apply wpe_ret. Qed.

Lemma wp_lift {S A} (r : result A) (Q : A -> S -> Prop) s a :
  r = Return a -> Q a s -> wp (lift r) Q s.
Proof. intros -> HQ. exact HQ. Qed.

Lemma wp_mono {S A} (c : Py S A) (Q Q' : A -> S -> Prop) s :
  wp c Q s -> (forall a s', Q a s' -> Q' a s') -> wp c Q' s.
Proof. intros Hc HQ. eapply wpe_mono; [exact Hc | exact HQ | auto]. Qed.

(** A loop whose body always returns: the results are related to the
    elements one by one, and an invariant of the state is kept. *)
Lemma wp_for_each {S A B} (R : A -> B -> Prop) (I : S -> Prop)
    (xs : list A) (body : A -> Py S B) s :
  I s ->
  (forall x s, In x xs -> I s -> wp (body x) (fun y s' => R x y /\ I s') s) ->
  wp (for_each xs body) (fun ys s' => Forall2 R xs ys /\ I s') s.
Proof.
  revert s. induction xs as [| x xs IH]; intros s HI Hbody; simpl.
  - apply wp_ret. split; [constructor | exact HI].
  - apply wp_bind. eapply wp_mono; [apply Hbody; [now left | exact HI] |].
    intros y s1 [Hy HI1]. apply wp_bind.
    eapply wp_mono; [apply IH; [exact HI1 |] |].
    + intros x' s' Hin. apply Hbody. now right.
    + intros ys s2 [Hys HI2]. apply wp_ret. split; [now constructor | exact HI2].
Qed.

Lemma Forall2_const_r {A B} (P : B -> Prop) (xs : list A) (ys : list B) :
  Forall2 (fun _ y => P y) xs ys -> length ys = length xs /\ Forall P ys.
Proof.
  induction 1 as [| x y xs ys Hy _ [IHlen IHall]]; simpl; [auto |].
  split; [congruence | now constructor].
Qed.

Lemma list_get_In {A} (a : list A) (i : Z) :
  0 <= i < Z.of_nat (length a) -> exists x, list_get a i = Return x /\ In x a.
Proof.
  intros Hi. unfold list_get.
  destruct (Z.ltb_spec i 0) as [Hneg | _]; [lia |].
  destruct (a !! Z.to_nat i) as [x |] eqn:Hx.
  - exists x. split; [reflexivity |]. apply list_elem_of_In.
    now apply list_elem_of_lookup_2 in Hx.
  - apply lookup_ge_None in Hx. lia.
Qed.

Lemma searchsorted_right_lt (cdf : list Q) (u c : Q) :
  In c cdf -> (u < c)%Q -> (searchsorted_right cdf u < length cdf)%nat.
Proof.
  induction cdf as [| d cdf IH]; simpl; [contradiction |].
  intros Hin Hlt. destruct (Qle_bool d u) eqn:Hd; [| lia].
  destruct Hin as [-> | Hin].
  - apply Qle_bool_iff in Hd. exfalso. apply (Qlt_not_le _ _ Hlt Hd).
  - specialize (IH Hin Hlt). lia.
Qed.

Lemma length_cumsum_from acc p : length (cumsum_from acc p) = length p.
Proof. revert acc. induction p; intros acc; simpl; auto. Qed.

Lemma last_cumsum_from acc p d :
  p <> [] -> (List.last (cumsum_from acc p) d == acc + fold_right Qplus 0%Q p)%Q.
Proof.
  revert acc. induction p as [| x p IH]; intros acc Hne; [congruence |].
  destruct p as [| y p].
  - simpl. ring.
  - change (List.last (cumsum_from acc (x :: y :: p)) d)
      with (List.last (cumsum_from (acc + x) (y :: p)) d).
    rewrite IH by discriminate. simpl. ring.
Qed.

Lemma last_In {A} (l : list A) d : l <> [] -> In (List.last l d) l.
Proof.
  induction l as [| x l IH]; [congruence |]. intros _.
  destruct l as [| y l]; [now left |]. right. apply IH. discriminate.
Qed.

Lemma check_p_returns {A} (a : list A) p q :
  check_p a p = Return q ->
  mapM finite p = Some q /\ length a = length q /\
  forallb (Qle_bool 0) q = true /\ (fold_right Qplus 0%Q q == 1)%Q.
Proof.
  unfold check_p. destruct (mapM finite p) as [q' |]; [| discriminate].
  destruct (Nat.eqb_spec (length a) (length q')); simpl; [| discriminate].
  destruct (forallb (Qle_bool 0) q') eqn:Hnn; simpl; [| discriminate].
  destruct (Qeq_bool (fold_right Qplus 0%Q q') 1) eqn:Hsum; simpl; [| discriminate].
  intros [= <-]. apply Qeq_bool_iff in Hsum. auto.
Qed.

Section Sampling.
Context `{NumpyRandom}.

Lemma wp_draw {A} (f : RandomState -> A * RandomState) (Q : A -> RandomState -> Prop) s :
  Q (fst (f s)) (snd (f s)) -> wp (draw f) Q s.
Proof. unfold wp, wpe, draw. now destruct (f s). Qed.

Lemma wp_sized {A} (P : A -> Prop) n (one : Py RandomState A) s :
  0 <= n ->
  (forall s, wp one (fun a _ => P a) s) ->
  wp (sized n one) (fun l _ => length l = Z.to_nat n /\ Forall P l) s.
Proof.
  intros Hn Hone. unfold sized.
  destruct (Z.ltb_spec n 0) as [Hneg | _]; [lia |].
  eapply wp_mono.
  - apply (wp_for_each (fun _ y => P y) (fun _ => True)); [exact I |].
    intros x s1 _ _. eapply wp_mono; [apply Hone | auto].
  - intros l s' [Hall _]. apply Forall2_const_r in Hall as [Hlen Hall].
    now rewrite Hlen, length_seq.
Qed.

Lemma wp_choice1 {A} (a : list A) s :
  a <> [] -> wp (choice1 a) (fun x _ => In x a) s.
Proof.
  intros Hne. unfold choice1. destruct a as [| x0 a0] eqn:Ea; [congruence |].
  rewrite <- Ea. apply wp_bind, wp_draw.
  assert (0 < Z.of_nat (length a)) as Hlen by (subst a; simpl; lia).
  destruct (list_get_In a (fst (randint 0 (Z.of_nat (length a)) s))) as (x & Hx & Hin).
  { apply randint_range. exact Hlen. }
  now apply (wp_lift _ _ _ x).
Qed.

Lemma wp_pick {A} (a : list A) (q : list Q) s :
  q <> [] -> length a = length q -> (fold_right Qplus 0%Q q == 1)%Q ->
  wp (pick a q) (fun x _ => In x a) s.
Proof.
  intros Hne Hlen Hsum. unfold pick. apply wp_bind, wp_draw.
  set (u := fst (random_sample s)).
  set (total := List.last (cumsum q) 0%Q).
  assert (total == 1)%Q as Htotal.
  { unfold total, cumsum. rewrite last_cumsum_from by exact Hne. rewrite Hsum. ring. }
  destruct (list_get_In a
              (Z.of_nat (searchsorted_right (map (fun c => (c / total)%Q) (cumsum q)) u)))
    as (x & Hx & Hin).
  { split; [lia |]. apply Nat2Z.inj_lt. rewrite Hlen.
    replace (length q) with (length (map (fun c => (c / total)%Q) (cumsum q)))
      by (rewrite length_map; apply length_cumsum_from).
    apply (searchsorted_right_lt _ u (total / total)%Q).
    - apply (in_map (fun c => (c / total)%Q) _ total). apply last_In. unfold cumsum.
      destruct q; [congruence | discriminate].
    - rewrite Htotal. destruct (random_sample_range s) as [_ Hlt].
      unfold u. change (1 / 1)%Q with 1%Q. exact Hlt. }
  now apply (wp_lift _ _ _ x).
Qed.

Lemma wp_choice1_p {A} (a : list A) p q s :
  a <> [] -> check_p a p = Return q ->
  wp (choice1_p a p) (fun x _ => In x a) s.
Proof.
  intros Hne Hcheck. unfold choice1_p. destruct a as [| x0 a0] eqn:Ea; [congruence |].
  rewrite <- Ea in *. apply wp_bind. apply (wp_lift _ _ _ q Hcheck).
  apply check_p_returns in Hcheck as (_ & Hlen & _ & Hsum).
  apply wp_pick; [| exact Hlen | exact Hsum].
  intros ->. subst a. discriminate.
Qed.
End Sampling.

(** ** The outcome probabilities of a row *)

Lemma Qeq_bool_false (x y : Q) : ~ (x == y)%Q -> Qeq_bool x y = false.
Proof.
  intros Hne. destruct (Qeq_bool x y) eqn:Heq; [| reflexivity].
  apply Qeq_bool_iff in Heq. contradiction.
Qed.

Lemma Qle_bool_false (x y : Q) : (y < x)%Q -> Qle_bool x y = false.
Proof.
  intros Hlt. destruct (Qle_bool x y) eqn:Hle; [| reflexivity].
  apply Qle_bool_iff in Hle. exfalso. apply (Qlt_not_le _ _ Hlt Hle).
Qed.

Lemma outcome_probs_of_row_weights {S} (row : list (string * cell)) c he ha (s : S) :
  row_get row "complexity" = Return (CObj (PStr c)) ->
  In c complexity_levels ->
  row_get row "hours_estimated" = Return (CFloat (Fin he)) ->
  row_get row "hours_actual" = Return (CFloat (Fin ha)) ->
  (0 < he)%Q -> (0 < ha)%Q ->
  exists probs, outcome_probs_of_row row s = (Return probs, s) /\ row_weights probs.
Proof.
  intros Hc Hin Hhe Hha Hpe Hpa.
  assert (0 < he / ha)%Q as Hratio.
  { apply Qlt_shift_div_l; [exact Hpa |]. now rewrite Qmult_0_l. }
  assert (Qeq_bool ha 0 = false) as Hnz.
  { apply Qeq_bool_false. intros Heq. rewrite Heq in Hpa. now apply Qlt_irrefl in Hpa. }
  unfold outcome_probs_of_row, bind, lift, ret.
  rewrite Hc.
  assert (exists cf, dict_get [("Low", 8 # 10); ("Medium", 6 # 10); ("High", 4 # 10);
                               ("Very High", 2 # 10)]%Q (CObj (PStr c)) = Return cf /\
                     (0 <= cf)%Q /\ (cf <= 8 # 10)%Q) as (cf & -> & Hcf0 & Hcf1).
  { simpl in Hin. destruct Hin as [<- | [<- | [<- | [<- | []]]]];
      (eexists; split; [reflexivity | split; discriminate]). }
  rewrite Hhe. cbn [cell_float]. rewrite Hha. cbn [cell_float].
  unfold py_div. rewrite Hnz. cbn [fdiv]. rewrite Hnz.
  unfold py_min, flt.
  destruct (Qle_bool 1 (he / ha)) eqn:Hle; cbn [negb fmul fsub fadd fneg];
    eexists; (split; [reflexivity |]); eexists _, _; (split; [reflexivity |]).
  - repeat split; try nra; ring.
  - assert (he / ha < 1)%Q as Hlt.
    { apply Qnot_le_lt. intros Hge. apply Qle_bool_iff in Hge. congruence. }
    repeat split; try nra; ring.
Qed.

Section OutcomeDraw.
Context `{NumpyRandom}.

(** After the normalisation the weights pass the checks of [choice]: one
    per outcome, none negative, summing to one. *)
Lemma normalised_weights_valid probs :
  row_weights probs ->
  exists q, check_p case_outcomes (map (fun x => fdiv x (np_sum probs)) probs) = Return q /\
            length q = 5%nat /\ Forall (fun x => 0 <= x)%Q q /\
            (fold_right Qplus 0%Q q == 1)%Q.
Proof.
  intros (win & loss & -> & Hw0 & Hw1 & Hl & Hleq).
  cbn [np_sum fold_right fadd].
  set (t := (win + (loss + ((3 # 10) + ((5 # 100) + ((5 # 100) + 0)))))%Q).
  assert (t == 11 # 10)%Q as Ht by (unfold t; rewrite Hleq; ring).
  assert (Qeq_bool t 0 = false) as Hnz.
  { apply Qeq_bool_false. rewrite Ht. discriminate. }
  assert (0 < t)%Q as Htpos by (rewrite Ht; reflexivity).
  cbn [map fdiv]. rewrite Hnz.
  exists [win / t; loss / t; (3 # 10) / t; (5 # 100) / t; (5 # 100) / t]%Q.
  assert (forall x, 0 <= x -> 0 <= x / t)%Q as Hdiv.
  { intros x Hx. apply Qle_shift_div_l; [exact Htpos |]. now rewrite Qmult_0_l. }
  assert (fold_right Qplus 0 [win / t; loss / t; (3 # 10) / t; (5 # 100) / t;
                              (5 # 100) / t] == 1)%Q as Hsum.
  { cbn [fold_right]. unfold t. field. lra. }
  assert (Forall (fun x => 0 <= x)%Q
            [win / t; loss / t; (3 # 10) / t; (5 # 100) / t; (5 # 100) / t]%Q) as Hall.
  { repeat constructor; apply Hdiv; try discriminate; try assumption.
    apply Qle_trans with (14 # 100); [discriminate | exact Hl]. }
  split; [| split; [reflexivity | split; assumption]].
  unfold check_p. cbn [mapM finite mbind option_bind mret option_ret fmap option_fmap].
  change (mapM finite _) with
    (Some [win / t; loss / t; (3 # 10) / t; (5 # 100) / t; (5 # 100) / t]%Q).
  cbn [length case_outcomes Nat.eqb negb].
  replace (forallb (Qle_bool 0) _) with true.
  2:{ symmetry. apply forallb_forall. intros x Hx. apply Qle_bool_iff.
      rewrite Forall_forall in Hall. apply Hall. now apply list_elem_of_In. }
  cbn [negb]. apply Qeq_bool_iff in Hsum. now rewrite Hsum.
Qed.

(** The second loop never fails on the vector of a row. *)
Lemma wp_draw_outcome probs s :
  row_weights probs -> wp (draw_outcome probs) (fun o _ => In o case_outcomes) s.
Proof.
  intros Hw. destruct (normalised_weights_valid probs Hw) as (q & Hq & _).
  unfold draw_outcome. now apply (wp_choice1_p _ _ q).
Qed.
End OutcomeDraw.

(** ** Building frames and reading rows *)

Lemma assoc_set_fresh {A} k (v : A) l :
  ~ In k (map fst l) -> assoc_set k v l = (l ++ [(k, v)])%list.
Proof.
  induction l as [| [k' v'] l IH]; simpl; [reflexivity |].
  intros Hnin. destruct (String.eqb_spec k k') as [-> | Hne]; [tauto |].
  rewrite IH; [reflexivity | tauto].
Qed.

Lemma fold_assoc_set_distinct (d acc : list (string * column)) :
  List.NoDup (map fst (acc ++ d)) ->
  fold_left (fun acc kc => assoc_set (fst kc) (snd kc) acc) d acc = (acc ++ d)%list.
Proof.
  revert acc. induction d as [| [k c] d IH]; intros acc Hnd; simpl.
  - now rewrite app_nil_r.
  - rewrite assoc_set_fresh.
    + rewrite IH; rewrite <- app_assoc; [reflexivity | exact Hnd].
    + rewrite map_app in Hnd. simpl in Hnd.
      apply List.NoDup_remove_2 in Hnd. intros Hin. apply Hnd.
      apply in_or_app. now left.
Qed.

Lemma DataFrame_of_dict_distinct (d : list (string * column)) (n : nat) :
  d <> [] ->
  List.NoDup (map fst d) ->
  Forall (fun kc => col_len (snd kc) = n) d ->
  DataFrame_of_dict d = Return (mkDataFrame n d).
Proof.
  intros Hne Hnd Hlen. unfold DataFrame_of_dict.
  destruct d as [| [k c] d'] eqn:Ed; [congruence |]. rewrite <- Ed in *.
  assert (col_len c = n) as Hc.
  { rewrite Forall_forall in Hlen. apply (Hlen (k, c)). subst d. now left. }
  replace (forallb _ d) with true.
  - now rewrite (fold_assoc_set_distinct d []), Hc.
  - symmetry. apply forallb_forall. intros kc Hin. apply Nat.eqb_eq.
    rewrite Forall_forall in Hlen. rewrite Hc. apply Hlen. now apply list_elem_of_In.
Qed.

Lemma setitem_fits k c df :
  col_len c = nrows df ->
  setitem k c df = Return (mkDataFrame (nrows df) (assoc_set k c (columns df))).
Proof. intros Hlen. unfold setitem. now rewrite Hlen, Nat.eqb_refl. Qed.

Lemma elementwise_fits {B} (op : float -> float -> B) a b :
  length a = length b -> elementwise op a b = Return (zip_with op a b).
Proof. intros Hlen. unfold elementwise. now rewrite Hlen, Nat.eqb_refl. Qed.

Lemma length_zip_with_same {A B C} (f : A -> B -> C) a b :
  length a = length b -> length (zip_with f a b) = length a.
Proof.
  revert b. induction a as [| x a IH]; intros [| y b]; simpl; try discriminate; auto.
Qed.

Lemma col_at_lt c (i : nat) : (i < col_len c)%nat -> exists v, col_at c i = Some v.
Proof.
  intros Hi. destruct c as [l | l | l | l | l]; simpl in *;
    destruct (lookup_lt_is_Some_2 l i Hi) as [x ->]; simpl; eauto.
Qed.

Lemma assoc_row (cols : list (string * column)) (i : nat) c col v :
  Forall (fun kc => (i < col_len (snd kc))%nat) cols ->
  assoc c cols = Some col -> col_at col i = Some v ->
  assoc c (omap (fun kc => match col_at (snd kc) i with
                           | Some x => Some (fst kc, x)
                           | None => None
                           end) cols) = Some v.
Proof.
  induction 1 as [| [k ck] cols Hk _ IH]; simpl; [discriminate |].
  intros Hassoc Hv. destruct (col_at_lt ck i Hk) as (x & Hx).
  change (omap ?f ((k, ck) :: cols)) with
    (match f (k, ck) with Some y => y :: omap f cols | None => omap f cols end).
  cbn [fst snd]. rewrite Hx. simpl.
  destruct (String.eqb c k); [| now apply IH].
  injection Hassoc as <-. congruence.
Qed.

Lemma row_get_row_of df (i : nat) c col v :
  Forall (fun kc => col_len (snd kc) = nrows df) (columns df) ->
  (i < nrows df)%nat ->
  getitem df c = Return col -> col_at col i = Some v ->
  row_get (row_of df i) c = Return v.
Proof.
  intros Hwf Hi Hget Hv. unfold row_get, row_of.
  unfold getitem in Hget. destruct (assoc c (columns df)) as [col' |] eqn:Ha;
    [| discriminate]. injection Hget as ->.
  rewrite (assoc_row _ i c col v); [reflexivity | | exact Ha | exact Hv].
  eapply Forall_impl; [exact Hwf |]. intros kc Hkc. simpl in Hkc. lia.
Qed.

Lemma iterrows_In df ir :
  In ir (iterrows df) -> exists i : nat, (i < nrows df)%nat /\ snd ir = row_of df i.
Proof.
  unfold iterrows. intros (i & <- & Hi)%in_map_iff.
  apply in_seq in Hi. exists i. split; [lia | reflexivity].
Qed.

Lemma length_iterrows df : length (iterrows df) = nrows df.
Proof. unfold iterrows. now rewrite length_map, length_seq. Qed.

Lemma length_range lo hi : length (range lo hi) = Z.to_nat (hi - lo).
Proof. unfold range. now rewrite length_map, length_seq. Qed.

(** ** The case table of [generate_legal_data] *)

Section CaseTableSpec.
Context `{NumpyRandom} `{Sklearn}.

Lemma wp_rnd {A} (c : Py RandomState A) (P : A -> Prop) (w : World) :
  (forall r, wp c (fun a _ => P a) r) ->
  wp (rnd c) (fun a w' => P a /\ self w' = self w) w.
Proof.
  intros Hc. unfold rnd. apply wpe_zoom.
  eapply wpe_mono; [apply Hc | | auto]. cbv beta. auto.
Qed.

Lemma wp_samples (P : Q -> Prop) n (f : RandomState -> Q * RandomState) (w : World) :
  0 <= n -> (forall s, P (fst (f s))) ->
  wp (rnd (sized n (draw f)))
    (fun l w' => (length l = Z.to_nat n /\ Forall P l) /\ self w' = self w) w.
Proof.
  intros Hn HP. apply wp_rnd. intros r. apply wp_sized; [exact Hn |].
  intros s. apply wp_draw, HP.
Qed.

Lemma wp_choice {A} (a : list A) n (w : World) :
  0 <= n -> a <> [] ->
  wp (rnd (choice a n))
    (fun l w' => (length l = Z.to_nat n /\ Forall (fun x => In x a) l) /\ self w' = self w) w.
Proof.
  intros Hn Hne. apply wp_rnd. intros r. apply wp_sized; [exact Hn |].
  intros s. now apply wp_choice1.
Qed.

Ltac sample_step :=
  apply wp_bind; eapply wp_mono;
  [ first [ apply wp_choice; [assumption | discriminate]
          | apply (wp_samples (fun q => 0 < q)%Q); [assumption | intros ?; apply lognormal_pos]
          | apply (wp_samples (fun _ => True)); [assumption | auto] ]
  | let l := fresh "l" in
    let w := fresh "w" in
    let Hlen := fresh "Hlen" in
    let Hall := fresh "Hall" in
    let Hself := fresh "Hself" in
    intros l w [[Hlen Hall] Hself] ].

Lemma case_table_returns n (w : World) :
  0 <= n ->
  wp (case_table n) (fun data w' => sampled_columns n data /\ self w' = self w) w.
Proof.
  intros Hn. unfold case_table.
  apply wp_bind. unfold rnd at 1, np_random_seed. apply wpe_zoom, wpe_put.
  do 16 sample_step.
  eapply wp_lift.
  - apply (DataFrame_of_dict_distinct _ (Z.to_nat n)); [discriminate | |].
    + cbn [map fst].
      repeat (apply List.NoDup_cons; [cbn [In]; intuition discriminate |]).
      apply List.NoDup_nil.
    + repeat constructor; cbn [snd col_len]; rewrite ?length_map; try assumption.
      rewrite length_range. f_equal. lia.
  - split; [| cbn [self] in *; congruence].
    eexists _, _, _, _, _, _, _, _, _, _, _, _, _, _, _, _.
    split; [reflexivity |].
    repeat split; repeat constructor; assumption.
Qed.
End CaseTableSpec.

Lemma lookup_map {A B} (f : A -> B) (l : list A) (i : nat) x :
  l !! i = Some x -> map f l !! i = Some (f x).
Proof.
  revert i. induction l as [| y l IH]; intros [| i]; simpl; try discriminate.
  - now intros [= ->].
  - apply IH.
Qed.

Lemma Forall_lookup_In {A} (P : A -> Prop) (l : list A) (i : nat) :
  Forall P l -> (i < length l)%nat -> exists x, l !! i = Some x /\ P x.
Proof.
  intros Hall Hi. destruct (lookup_lt_is_Some_2 l i Hi) as [x Hx].
  exists x. split; [exact Hx |]. rewrite Forall_forall in Hall.
  apply Hall. now apply list_elem_of_lookup_2 in Hx.
Qed.

(** Every row of the case table has a complexity among the four levels and
    positive hour samples. *)
Lemma case_table_rows n data ir :
  sampled_columns n data -> In ir (iterrows data) ->
  exists c he ha,
    row_get (snd ir) "complexity" = Return (CObj (PStr c)) /\
    In c complexity_levels /\
    row_get (snd ir) "hours_estimated" = Return (CFloat (Fin he)) /\
    row_get (snd ir) "hours_actual" = Return (CFloat (Fin ha)) /\
    (0 < he)%Q /\ (0 < ha)%Q.
Proof.
  intros (pa & dt & cx & ct & cv & he & ha & ph & ah & lh & dp & rt & cs & bp & ba & bl
          & -> & Hstr & Hnum & Hcx & Hhe & Hha) Hin.
  apply iterrows_In in Hin as (i & Hi & ->). cbn [nrows] in Hi.
  repeat match goal with
         | Hf : Forall _ (_ :: _) |- _ => apply Forall_cons in Hf as [? Hf]
         end.
  destruct (Forall_lookup_In _ cx i Hcx) as (c & Hc & Hlevel); [lia |].
  destruct (Forall_lookup_In _ he i Hhe) as (e & He & Hepos); [lia |].
  destruct (Forall_lookup_In _ ha i Hha) as (a & Ha & Hapos); [lia |].
  exists c, e, a.
  assert (Forall (fun kc : string * column => col_len (snd kc) = Z.to_nat n)
            (columns (mkDataFrame (Z.to_nat n)
               [ ("case_id", Int64 (range 1 (n + 1)));
                 ("practice_area", Object (map PStr pa));
                 ("document_type", Object (map PStr dt));
                 ("complexity", Object (map PStr cx));
                 ("client_type", Object (map PStr ct));
                 ("case_value", Float64 (map Fin cv));
                 ("hours_estimated", Float64 (map Fin he));
                 ("hours_actual", Float64 (map Fin ha));
                 ("partner_hours", Float64 (map Fin ph));
                 ("associate_hours", Float64 (map Fin ah));
                 ("paralegal_hours", Float64 (map Fin lh));
                 ("document_pages", Float64 (map Fin dp));
                 ("review_time_hours", Float64 (map Fin rt));
                 ("client_satisfaction", Float64 (map (clip 1 10) (map Fin cs)));
                 ("billing_rate_partner", Float64 (map Fin bp));
                 ("billing_rate_associate", Float64 (map Fin ba));
                 ("billing_rate_paralegal", Float64 (map Fin bl)) ]))) as Hwf.
  { cbn [columns]. repeat constructor; cbn [snd col_len]; rewrite ?length_map;
      try assumption. rewrite length_range. f_equal. lia. }
  repeat split; try assumption.
  - eapply row_get_row_of; [exact Hwf | exact Hi | reflexivity |].
    cbn [col_at]. now rewrite (lookup_map PStr cx i c Hc).
  - eapply row_get_row_of; [exact Hwf | exact Hi | reflexivity |].
    cbn [col_at]. now rewrite (lookup_map Fin he i e He).
  - eapply row_get_row_of; [exact Hwf | exact Hi | reflexivity |].
    cbn [col_at]. now rewrite (lookup_map Fin ha i a Ha).
Qed.

(** Lengths of the arrays a frame of [N] rows is computed from. *)
Ltac len N :=
  lazymatch goal with
  | |- length (map _ _) = _ => rewrite length_map; len N
  | |- length (scale _ _) = _ => unfold scale; len N
  | |- length (repeat _ _) = _ => rewrite repeat_length; reflexivity
  | |- length (zip_with _ ?a ?b) = _ =>
      rewrite (length_zip_with_same _ a b);
      [len N | transitivity N; [len N | symmetry; len N]]
  | |- length _ = _ => first [assumption | congruence]
  end.

Ltac frame_step N :=
  apply wp_bind;
  lazymatch goal with
  | |- wp (lift (setitem _ _ _)) _ _ =>
      eapply wp_lift;
      [ apply setitem_fits; cbn [col_len nrows]; len N
      | cbn [nrows columns assoc_set String.eqb Ascii.eqb Bool.eqb] ]
  | |- wp (lift (getnum _ _)) _ _ => eapply wp_lift; [reflexivity |]
  | |- wp (lift (getitem _ _)) _ _ => eapply wp_lift; [reflexivity |]
  | |- wp (lift (as_datetime _)) _ _ => eapply wp_lift; [reflexivity |]
  | |- wp (lift (as_object _)) _ _ => eapply wp_lift; [reflexivity |]
  | |- wp (lift (elementwise _ _ _)) _ _ =>
      eapply wp_lift;
      [ apply elementwise_fits; transitivity N; [len N | symmetry; len N] |]
  end.

Section LegalData.
Context `{NumpyRandom} `{Sklearn}.

Lemma case_table_negative n (w : World) :
  n < 0 -> exists e w', case_table n w = (Raise e, w').
Proof.
  intros Hn. unfold case_table, bind, rnd, zoom, np_random_seed, put, choice, sized.
  cbn [np_random self]. destruct (Z.ltb_spec n 0) as [_ | Hge]; [| lia].
  unfold raise. eauto.
Qed.

Lemma case_table_sampled n (w : World) data w1 :
  case_table n w = (Return data, w1) -> 0 <= n /\ sampled_columns n data.
Proof.
  intros Hrun. destruct (Z.lt_ge_cases n 0) as [Hneg | Hn].
  - destruct (case_table_negative n w Hneg) as (e & w' & Hraise). congruence.
  - split; [exact Hn |].
    pose proof (case_table_returns n w Hn) as Hwp. unfold wp, wpe in Hwp.
    rewrite Hrun in Hwp. tauto.
Qed.

Lemma generate_legal_data_returns n (w : World) :
  0 <= n ->
  wp (generate_legal_data n)
    (fun df w' => nrows df = Z.to_nat n /\
                  getitem df "case_id" = Return (Int64 (range 1 (n + 1))) /\
                  self w' = self w) w.
Proof.
  intros Hn. unfold generate_legal_data.
  apply wp_bind. eapply wp_mono; [apply case_table_returns, Hn |].
  intros data w1 [Hdata Hself1].
  (* the first loop *)
  apply wp_bind. eapply wp_mono.
  { apply (wp_for_each (fun _ probs => row_weights probs) (fun w' => w' = w1));
      [reflexivity |].
    intros ir s Hin ->.
    destruct (case_table_rows n data ir Hdata Hin) as (c & he & ha & Hc & Hl & He & Ha & Hpe & Hpa).
    destruct (outcome_probs_of_row_weights (snd ir) c he ha w1 Hc Hl He Ha Hpe Hpa)
      as (probs & Hrun & Hw).
    unfold wp, wpe. rewrite Hrun. auto. }
  intros outcome_probs w2 [Hprobs ->]. apply Forall2_const_r in Hprobs as [Hlenp Hprobs].
  (* the second loop *)
  apply wp_bind. eapply wp_mono.
  { apply (wp_for_each (fun _ (o : string) => True) (fun w' => self w' = self w1));
      [reflexivity |].
    intros probs s Hin Hs. eapply wp_mono.
    - apply wp_rnd. intros r. apply wp_draw_outcome.
      rewrite Forall_forall in Hprobs. apply Hprobs. now apply list_elem_of_In.
    - cbv beta. intros o s' [_ Hs']. split; [exact I | congruence]. }
  intros outcomes w3 [Houts Hself3]. apply Forall2_length in Houts.
  rewrite length_iterrows in Hlenp.
  destruct Hdata as (pa & dt & cx & ct & cv & he & ha & ph & ah & lh & dp & rt & cs & bp
                     & ba & bl & -> & Hstr & Hnum & _).
  cbn [nrows] in *.
  repeat match goal with
         | Hf : Forall _ (_ :: _) |- _ => apply Forall_cons in Hf as [? Hf]
         end.
  assert (length outcomes = Z.to_nat n) as Hlen_outcomes by congruence.
  do 26 frame_step (Z.to_nat n).
  apply wp_bind. eapply wp_mono;
    [apply (wp_samples (fun _ => True)); [exact Hn | auto] |].
  intros noise w4 [[Hlen_noise _] Hself4].
  do 2 frame_step (Z.to_nat n).
  apply wp_ret. split; [reflexivity |]. split; [reflexivity | congruence].
Qed.

Lemma range_lookup lo hi (i : nat) :
  (i < Z.to_nat (hi - lo))%nat -> range lo hi !! i = Some (lo + Z.of_nat i).
Proof.
  intros Hi. unfold range.
  apply (lookup_map (fun i => lo + Z.of_nat i) (seq 0 (Z.to_nat (hi - lo))) i i).
  now apply lookup_seq_lt.
Qed.
End LegalData.

(** C7. For [n_cases >= 1], [generate_legal_data(n_cases)] returns a frame
    of exactly [n_cases] rows whose 'case_id' column is 1, 2, ..., n_cases;
    the platform object is left as it was: only the state of numpy's
    generator changes. *)
Theorem generate_legal_data_rows `{NumpyRandom} `{Sklearn} (n_cases : Z) (w : World) :
  1 <= n_cases ->
  exists df w' case_id,
    generate_legal_data n_cases w = (Return df, w') /\
    nrows df = Z.to_nat n_cases /\
    getitem df "case_id" = Return (Int64 case_id) /\
    length case_id = Z.to_nat n_cases /\
    (forall i : nat, (i < Z.to_nat n_cases)%nat -> case_id !! i = Some (Z.of_nat i + 1)) /\
    self w' = self w.
Proof.
  intros Hn.
  destruct (wp_returns _ _ _ (generate_legal_data_returns n_cases w ltac:(lia)))
    as (df & w' & Hrun & Hrows & Hid & Hself).
  exists df, w', (range 1 (n_cases + 1)).
  repeat split; try assumption.
  - rewrite length_range. f_equal. lia.
  - intros i Hi. rewrite range_lookup; [f_equal; lia |].
    replace (n_cases + 1 - 1) with n_cases by lia. exact Hi.
Qed.

(** C7 at [generate_legal_data(3)]. *)
Lemma generate_legal_data_rows_witness :
  exists df w' case_id,
    @generate_legal_data Toy.lcg Toy.all_ok 3 (@mkWorld Toy.lcg Toy.all_ok 0 init)
    = (Return df, w') /\
    nrows df = Z.to_nat 3 /\
    getitem df "case_id" = Return (Int64 case_id) /\
    length case_id = Z.to_nat 3 /\
    (forall i : nat, (i < Z.to_nat 3)%nat -> case_id !! i = Some (Z.of_nat i + 1)) /\
    self w' = self (@mkWorld Toy.lcg Toy.all_ok 0 init).
Proof.
  apply (@generate_legal_data_rows Toy.lcg Toy.all_ok 3
           (@mkWorld Toy.lcg Toy.all_ok 0 init)).
  lia.
Defined.

(** C8. For every row of the table the loops of [generate_legal_data] run
    over, the weights of the row are [win, loss, 0.3, 0.05, 0.05] with
    0 <= win <= 0.56 and loss = 1 - win - 0.3 >= 0.14; after the
    normalisation they pass the checks [np.random.choice] makes on [p] (five
    entries, none negative, summing to one), and the draw returns one of the
    five outcomes rather than raising. *)
Theorem outcome_probabilities_valid `{NumpyRandom} `{Sklearn}
    (n_cases : Z) (w w1 s : World) (data : DataFrame)
    (ir : Z * list (string * cell)) (r : RandomState) :
  case_table n_cases w = (Return data, w1) ->
  In ir (iterrows data) ->
  exists (win loss : Q) (probs : list float) (p : list Q),
    outcome_probs_of_row (snd ir) s = (Return probs, s) /\
    probs = [Fin win; Fin loss; Fin (3 # 10); Fin (5 # 100); Fin (5 # 100)] /\
    (0 <= win)%Q /\ (win <= 56 # 100)%Q /\
    (loss == 1 - win - (3 # 10))%Q /\ (14 # 100 <= loss)%Q /\
    check_p case_outcomes (map (fun x => fdiv x (np_sum probs)) probs) = Return p /\
    length p = 5%nat /\ Forall (fun x => 0 <= x)%Q p /\
    (fold_right Qplus 0%Q p == 1)%Q /\
    exists outcome r',
      draw_outcome probs r = (Return outcome, r') /\ In outcome case_outcomes.
Proof.
  intros Hrun Hin.
  apply case_table_sampled in Hrun as [_ Hdata].
  destruct (case_table_rows n_cases data ir Hdata Hin)
    as (c & he & ha & Hc & Hl & He & Ha & Hpe & Hpa).
  destruct (outcome_probs_of_row_weights (snd ir) c he ha s Hc Hl He Ha Hpe Hpa)
    as (probs & Hprobs & Hw).
  destruct (normalised_weights_valid probs Hw) as (p & Hp & Hlen & Hnn & Hsum).
  destruct (wp_returns _ _ _ (wp_draw_outcome probs r Hw)) as (o & r' & Hdraw & Ho).
  destruct Hw as (win & loss & -> & Hw0 & Hw1 & Hl14 & Hleq).
  exists win, loss, [Fin win; Fin loss; Fin (3 # 10); Fin (5 # 100); Fin (5 # 100)], p.
  repeat split; try assumption.
  exists o, r'. auto.
Qed.

Lemma table_run_returns : table_run = (Return table_frame, snd table_run).
Proof.
  assert (fst table_run = Return table_frame) as Hfst by (vm_compute; reflexivity).
  rewrite <- Hfst. apply surjective_pairing.
Qed.

Lemma first_row_In : In first_row (iterrows table_frame).
Proof. vm_compute. left. reflexivity. Qed.

(** C8 at the first row of [generate_legal_data(2)]. *)
Lemma outcome_probabilities_valid_witness :
  exists (win loss : Q) (probs : list float) (p : list Q),
    outcome_probs_of_row (snd first_row) table_world = (Return probs, table_world) /\
    probs = [Fin win; Fin loss; Fin (3 # 10); Fin (5 # 100); Fin (5 # 100)] /\
    (0 <= win)%Q /\ (win <= 56 # 100)%Q /\
    (loss == 1 - win - (3 # 10))%Q /\ (14 # 100 <= loss)%Q /\
    check_p case_outcomes (map (fun x => fdiv x (np_sum probs)) probs) = Return p /\
    length p = 5%nat /\ Forall (fun x => 0 <= x)%Q p /\
    (fold_right Qplus 0%Q p == 1)%Q /\
    exists outcome r',
      @draw_outcome Toy.lcg probs 7 = (Return outcome, r') /\ In outcome case_outcomes.
Proof.
  exact (@outcome_probabilities_valid Toy.lcg Toy.all_ok 2 table_world (snd table_run)
           table_world table_frame first_row 7 table_run_returns first_row_In).
Defined.

(** ** The contract table and the clock *)

Lemma date_range_returns start stop n :
  0 <= n -> start <= stop ->
  exists l, date_range start stop n = Return l /\
            length l = Z.to_nat n /\ Forall (fun t => start <= t <= stop) l.
Proof.
  intros Hn Hle. unfold date_range.
  destruct (Z.ltb_spec n 0) as [Hneg | _]; [lia |].
  eexists. split; [reflexivity |]. split.
  - now rewrite length_map, length_seq.
  - apply Forall_forall. intros t Hin. apply list_elem_of_In in Hin.
    apply in_map_iff in Hin as (i & <- & Hi). apply in_seq in Hi.
    destruct (Z.eqb_spec n 1) as [_ | Hne]; [lia |].
    assert (0 <= (stop - start) * Z.of_nat i / (n - 1) <= stop - start) as Hdiv.
    { split.
      - apply Z.div_pos; [| lia]. apply Z.mul_nonneg_nonneg; lia.
      - apply Z.div_le_upper_bound; [lia |].
        rewrite Z.mul_comm. apply Z.mul_le_mono_nonneg_r; lia. }
    lia.
Qed.

Lemma zip_with_repeat {A B C} (f : A -> B -> C) (l : list A) (x : B) :
  zip_with f l (repeat x (length l)) = map (fun a => f a x) l.
Proof. induction l as [| a l IH]; simpl; [reflexivity | now rewrite IH]. Qed.

Lemma length_zip_with_lists {A B C} (f : A -> B -> C) a b n :
  length a = n -> length b = n -> length (zip_with f a b) = n.
Proof. intros Ha Hb. rewrite length_zip_with_same; congruence. Qed.

Section ContractTable.
Context `{NumpyRandom}.

Lemma wp_rng {A} (c : Py RandomState A) (P : A -> Prop) (w : AppWorld) :
  (forall r, wp c (fun a _ => P a) r) ->
  wp (rng c) (fun a w' => P a /\ clock w' = clock w) w.
Proof.
  intros Hc. unfold rng. apply wpe_zoom.
  eapply wpe_mono; [apply Hc | | auto]. cbv beta. auto.
Qed.

Lemma wp_choice_p {A} (a : list A) n p q s :
  a <> [] -> check_p a p = Return q -> 0 <= n ->
  wp (choice_p a n p) (fun l _ => length l = Z.to_nat n /\ Forall (fun x => In x a) l) s.
Proof.
  intros Hne Hcheck Hn. unfold choice_p.
  destruct a as [| x0 a0] eqn:Ea; [congruence |]. rewrite <- Ea in *.
  apply wp_bind. apply (wp_lift _ _ _ q Hcheck).
  apply check_p_returns in Hcheck as (_ & Hlen & _ & Hsum).
  apply wp_sized; [exact Hn |]. intros r.
  apply wp_pick; [| exact Hlen | exact Hsum].
  intros ->. subst a. discriminate.
Qed.

Lemma wp_app_choice {A} (a : list A) n (w : AppWorld) :
  0 <= n -> a <> [] ->
  wp (rng (choice a n))
    (fun l w' => (length l = Z.to_nat n /\ Forall (fun x => In x a) l) /\
                 clock w' = clock w) w.
Proof.
  intros Hn Hne. apply wp_rng. intros r. apply wp_sized; [exact Hn |].
  intros s. now apply wp_choice1.
Qed.

Lemma wp_app_choice_p {A} (a : list A) n p q (w : AppWorld) :
  0 <= n -> a <> [] -> check_p a p = Return q ->
  wp (rng (choice_p a n p))
    (fun l w' => (length l = Z.to_nat n /\ Forall (fun x => In x a) l) /\
                 clock w' = clock w) w.
Proof.
  intros Hn Hne Hcheck. apply wp_rng. intros r. now apply (wp_choice_p a n p q).
Qed.

Lemma wp_app_samples n (f : RandomState -> Q * RandomState) (w : AppWorld) :
  0 <= n ->
  wp (rng (sized n (draw f)))
    (fun l w' => (length l = Z.to_nat n /\ Forall (fun _ => True) l) /\
                 clock w' = clock w) w.
Proof.
  intros Hn. apply wp_rng. intros r. apply wp_sized; [exact Hn |].
  intros s. now apply wp_draw.
Qed.

Ltac app_sample :=
  apply wp_bind; eapply wp_mono;
  [ first [ apply wp_app_choice; [assumption | discriminate]
          | eapply wp_app_choice_p; [assumption | discriminate | reflexivity]
          | apply wp_app_samples; assumption ]
  | let l := fresh "l" in
    let w := fresh "w" in
    let Hlen := fresh "Hlen" in
    let Hall := fresh "Hall" in
    let Hclock := fresh "Hclock" in
    intros l w [[Hlen Hall] Hclock] ].

(** The frame [generate_contracts_data] returns marks a contract 'Expired'
    exactly when its end date lies before the clock; the end dates lie
    between 27 December 2019 and 4 June 2029. *)
Lemma generate_contracts_data_returns n (w : AppWorld) :
  1 <= n ->
  wp (generate_contracts_data n)
    (fun df w' => exists ends,
       length ends = Z.to_nat n /\
       Forall (fun e => Timestamp 2019 12 27 <= e <= Timestamp 2029 6 4) ends /\
       getitem df "status"
       = Return (Object (map (fun e => if e <? clock w then PStr "Expired"
                                       else PStr "Active") ends))) w.
Proof.
  intros Hn. assert (0 <= n) as Hn0 by lia.
  unfold generate_contracts_data. cbv zeta.
  apply wp_bind. unfold rng at 1, np_random_seed. apply wpe_zoom, wpe_put.
  do 2 app_sample.
  destruct (date_range_returns (Timestamp 2019 1 1) (Timestamp 2024 6 30) n Hn0
              ltac:(vm_compute; discriminate)) as (start & Hstart & Hlen_start & Hall_start).
  apply wp_bind. apply (wp_lift _ _ _ start Hstart).
  do 2 app_sample.
  apply wp_bind. eapply wp_lift.
  { apply (DataFrame_of_dict_distinct _ (Z.to_nat n)); [discriminate | |].
    - cbn [map fst].
      repeat (apply List.NoDup_cons; [cbn [In]; intuition discriminate |]).
      apply List.NoDup_nil.
    - repeat constructor; cbn [snd col_len]; rewrite ?length_map; try assumption.
      rewrite length_range. f_equal. lia. }
  do 3 frame_step (Z.to_nat n).
  app_sample. frame_step (Z.to_nat n).
  app_sample. frame_step (Z.to_nat n).
  unfold Timestamp_now. apply wp_bind, wp_bind, wpe_get, wp_ret.
  do 8 frame_step (Z.to_nat n).
  apply wp_bind. destruct (Nat.eqb_spec (Z.to_nat n) 0) as [Hzero | _]; [lia |].
  apply wp_ret.
  do 4 frame_step (Z.to_nat n).
  app_sample. frame_step (Z.to_nat n).
  app_sample. frame_step (Z.to_nat n).
  apply wp_ret.
  exists (zip_with (fun s m => s + m * 30 * day_ns) start l2).
  split; [now apply length_zip_with_lists |]. split.
  - assert (Timestamp 2019 12 27 = Timestamp 2019 1 1 + 12 * 30 * day_ns) as ->
      by reflexivity.
    assert (Timestamp 2029 6 4 = Timestamp 2024 6 30 + 60 * 30 * day_ns) as ->
      by reflexivity.
    assert (0 < day_ns) as Hday by reflexivity.
    revert Hall_start Hall2 Hday.
    generalize (Timestamp 2019 1 1) (Timestamp 2024 6 30) day_ns. intros lo hi d.
    clear. intros Hstart. revert l2.
    induction Hstart as [| s start Hs _ IH]; intros l2 Hl2 Hd; [constructor |].
    destruct l2 as [| m l2]; [constructor |].
    apply Forall_cons in Hl2 as [Hm Hl2]. simpl. constructor; [| now apply IH].
    simpl in Hm. destruct Hm as [<- | [<- | [<- | [<- | []]]]]; lia.
  - cbn [getitem columns assoc String.eqb Ascii.eqb Bool.eqb].
    rewrite <- (length_zip_with_lists (fun s m => s + m * 30 * day_ns) start l2
                  (Z.to_nat n) Hlen_start Hlen2) at 1.
    rewrite zip_with_repeat.
    cbn [clock] in *. replace (clock w5) with (clock w) by congruence.
    reflexivity.
Qed.

Lemma generate_contracts_data_status n (w : AppWorld) :
  1 <= n ->
  exists df w' ends,
    generate_contracts_data n w = (Return df, w') /\
    length ends = Z.to_nat n /\
    Forall (fun e => Timestamp 2019 12 27 <= e <= Timestamp 2029 6 4) ends /\
    getitem df "status"
    = Return (Object (map (fun e => if e <? clock w then PStr "Expired"
                                    else PStr "Active") ends)).
Proof.
  intros Hn.
  destruct (wp_returns _ _ _ (generate_contracts_data_returns n w Hn))
    as (df & w' & Hrun & ends & Hlen & Hall & Hstatus).
  eauto 8.
Qed.

(** Whatever the generator draws: a call before 27 December 2019 and a call
    after 4 June 2029 return different frames. *)
Lemma generate_contracts_data_not_deterministic n (w1 w2 : AppWorld) :
  1 <= n ->
  clock w1 <= Timestamp 2019 12 27 -> Timestamp 2029 6 4 < clock w2 ->
  fst (generate_contracts_data n w1) <> fst (generate_contracts_data n w2).
Proof.
  intros Hn Hearly Hlate.
  destruct (generate_contracts_data_status n w1 Hn)
    as (df1 & w1' & ends1 & Hrun1 & Hlen1 & Hall1 & Hst1).
  destruct (generate_contracts_data_status n w2 Hn)
    as (df2 & w2' & ends2 & Hrun2 & Hlen2 & Hall2 & Hst2).
  rewrite Hrun1, Hrun2. cbn [fst]. intros [= ->].
  rewrite Hst1 in Hst2. injection Hst2 as Heq.
  destruct ends1 as [| e1 ends1]; [simpl in Hlen1; lia |].
  destruct ends2 as [| e2 ends2]; [simpl in Hlen2; lia |].
  apply Forall_cons in Hall1 as [He1 _]. apply Forall_cons in Hall2 as [He2 _].
  simpl in Heq. injection Heq as Heq _.
  destruct (Z.ltb_spec e1 (clock w1)); destruct (Z.ltb_spec e2 (clock w2));
    try discriminate; lia.
Qed.
End ContractTable.

(** ** [generate_legal_data]: the frame it returns *)

Section LegalFrame.
Context `{NumpyRandom} `{Sklearn}.

Ltac sample_col :=
  apply wp_bind; eapply wp_mono;
  [ first [ apply wp_choice; [assumption | discriminate]
          | apply (wp_samples (fun q => 0 < q)%Q); [assumption | intros ?; apply lognormal_pos]
          | apply (wp_samples (fun _ => True)); [assumption | auto] ]
  | let l := fresh "l" in
    let w := fresh "w" in
    let Hlen := fresh "Hlen" in
    let Hall := fresh "Hall" in
    let Hself := fresh "Hself" in
    intros l w [[Hlen Hall] Hself] ].

Lemma generate_legal_data_frame n (w : World) :
  0 <= n ->
  wp (generate_legal_data n)
    (fun df w' => (exists x, df = legal_frame n x /\ legal_samples_ok n x) /\
                  self w' = self w) w.
Proof.
  intros Hn. unfold generate_legal_data, case_table.
  apply wp_bind, wp_bind. unfold rnd at 1, np_random_seed. apply wpe_zoom, wpe_put.
  do 16 sample_col.
  eapply wp_lift.
  { apply (DataFrame_of_dict_distinct _ (Z.to_nat n)); [discriminate | |].
    - cbn [map fst].
      repeat (apply List.NoDup_cons; [cbn [In]; intuition discriminate |]).
      apply List.NoDup_nil.
    - repeat constructor; cbn [snd col_len]; rewrite ?length_map; try assumption.
      rewrite length_range. f_equal. lia. }
  match goal with
  | |- wp _ _ ?w' => set (wt := w')
  end.
  match goal with
  | |- wp (bind (for_each (iterrows ?d) _) _) _ _ => set (data := d)
  end.
  assert (sampled_columns n data) as Hdata.
  { eexists _, _, _, _, _, _, _, _, _, _, _, _, _, _, _, _.
    split; [reflexivity |].
    repeat split; repeat constructor; assumption. }
  (* the first loop *)
  apply wp_bind. eapply wp_mono.
  { apply (wp_for_each (fun _ probs => row_weights probs) (fun w' => w' = wt));
      [reflexivity |].
    intros ir s Hin ->.
    destruct (case_table_rows n data ir Hdata Hin)
      as (c & he & ha & Hc & Hl & He & Ha & Hpe & Hpa).
    destruct (outcome_probs_of_row_weights (snd ir) c he ha wt Hc Hl He Ha Hpe Hpa)
      as (probs & Hrun & Hw).
    unfold wp, wpe. rewrite Hrun. auto. }
  intros outcome_probs wt' [Hprobs ->]. apply Forall2_const_r in Hprobs as [Hlenp Hprobs].
  (* the second loop *)
  apply wp_bind. eapply wp_mono.
  { apply (wp_for_each (fun _ (o : string) => In o case_outcomes)
             (fun w' => self w' = self wt)); [reflexivity |].
    intros probs s Hin Hs. eapply wp_mono.
    - apply wp_rnd. intros r. apply wp_draw_outcome.
      rewrite Forall_forall in Hprobs. apply Hprobs. now apply list_elem_of_In.
    - cbv beta. intros o s' [Ho Hs']. split; [exact Ho | congruence]. }
  intros outcomes wo [Houts Hself_o]. apply Forall2_const_r in Houts as [Hlen_outs Hall_outs].
  rewrite length_iterrows in Hlenp. clear Hdata. subst data. cbn [nrows] in *.
  assert (length outcomes = Z.to_nat n) as Hlen_outcomes by congruence.
  do 26 frame_step (Z.to_nat n).
  apply wp_bind. eapply wp_mono;
    [apply (wp_samples (fun _ => True)); [exact Hn | auto] |].
  intros noise wn [[Hlen_noise _] Hself_n].
  do 2 frame_step (Z.to_nat n).
  apply wp_ret. split.
  - exists (mkLegalSamples l l0 l1 l2 l3 l4 l5 l6 l7 l8 l9 l10 l11 l12 l13 l14
              outcomes noise).
    split; [reflexivity |].
    unfold legal_samples_ok.
    cbn [drawn_practice_area drawn_document_type drawn_complexity drawn_client_type
         drawn_case_value drawn_hours_estimated drawn_hours_actual drawn_partner_hours
         drawn_associate_hours drawn_paralegal_hours drawn_document_pages
         drawn_review_time_hours drawn_client_satisfaction drawn_billing_rate_partner
         drawn_billing_rate_associate drawn_billing_rate_paralegal drawn_case_outcome
         drawn_noise].
    repeat split; repeat constructor; assumption.
  - subst wt. cbn [self] in *. congruence.
Qed.

End LegalFrame.

(** ** Elementwise arithmetic on finite values *)

Lemma clip_Fin (lo hi q : Q) :
  (lo <= hi)%Q -> exists q', clip lo hi (Fin q) = Fin q' /\ (lo <= q' <= hi)%Q.
Proof.
  intros Hle. unfold clip, flt.
  destruct (Qle_bool lo q) eqn:Elo; cbn [negb].
  - apply Qle_bool_iff in Elo.
    destruct (Qle_bool q hi) eqn:Ehi; cbn [negb].
    + apply Qle_bool_iff in Ehi. eauto.
    + exists hi. split; [reflexivity |]. split; [exact Hle | apply Qle_refl].
  - destruct (Qle_bool lo hi) eqn:Ehi; cbn [negb].
    + exists lo. split; [reflexivity |]. split; [apply Qle_refl | exact Hle].
    + apply Qle_bool_iff in Hle. congruence.
Qed.

Lemma lookup_zip_with_Some {A B C} (f : A -> B -> C) (a : list A) (b : list B) (i : nat) x y :
  a !! i = Some x -> b !! i = Some y -> zip_with f a b !! i = Some (f x y).
Proof. intros Ha Hb. rewrite lookup_zip_with, Ha, Hb. reflexivity. Qed.

Lemma lookup_scale k (a : list float) (i : nat) x :
  a !! i = Some x -> scale k a !! i = Some (fmul x (Fin k)).
Proof. intros Ha. unfold scale. now apply (lookup_map (fun x => fmul x (Fin k))). Qed.

Lemma lookup_length {A} (l : list A) (n i : nat) :
  length l = n -> (i < n)%nat -> exists x, l !! i = Some x.
Proof. intros <- Hi. now apply lookup_lt_is_Some_2. Qed.

Lemma loc_at_Float64 df c (l : list float) (i : nat) x :
  getitem df c = Return (Float64 l) -> l !! i = Some x ->
  loc_at df (Z.of_nat i) c = Return (CFloat x).
Proof.
  intros Hc Hx. unfold loc_at. rewrite Hc.
  destruct (Z.ltb_spec (Z.of_nat i) 0) as [Hneg | _]; [lia |].
  cbn [col_at]. now rewrite Nat2Z.id, Hx.
Qed.

Lemma Forall_lookup_Some {A} (P : A -> Prop) (l : list A) (i : nat) x :
  Forall P l -> l !! i = Some x -> P x.
Proof.
  intros Hall Hx. rewrite Forall_forall in Hall. apply Hall.
  now apply list_elem_of_lookup_2 in Hx.
Qed.

Lemma Forall_map_iff {A B} (f : A -> B) (P : B -> Prop) (l : list A) :
  Forall (fun x => P (f x)) l -> Forall P (map f l).
Proof. induction 1; simpl; constructor; auto. Qed.

Ltac split_samples Hok :=
  let Hstr := fresh "Hstr" in
  let Hnum := fresh "Hnum" in
  let Hpos := fresh "Hpos" in
  destruct Hok as (Hstr & Hnum & ? & ? & ? & ? & ? & Hpos);
  repeat match goal with
         | Hf : Forall _ (_ :: _) |- _ => apply Forall_cons in Hf as [? Hf]
         end;
  clear Hstr Hnum Hpos.

(** X1. For every [n_cases >= 0], [generate_legal_data(n_cases)] returns a
    frame of [n_cases] rows with the twenty-two columns below, in this
    order, each holding [n_cases] values; the platform object is left as
    it was.  For [n_cases = 0] the frame has the columns and no rows. *)
Theorem generate_legal_data_schema `{NumpyRandom} `{Sklearn} (n_cases : Z) (w : World) :
  0 <= n_cases ->
  exists df w',
    generate_legal_data n_cases w = (Return df, w') /\
    nrows df = Z.to_nat n_cases /\
    map fst (columns df)
    = [ "case_id"; "practice_area"; "document_type"; "complexity"; "client_type";
        "case_value"; "hours_estimated"; "hours_actual"; "partner_hours";
        "associate_hours"; "paralegal_hours"; "document_pages"; "review_time_hours";
        "client_satisfaction"; "billing_rate_partner"; "billing_rate_associate";
        "billing_rate_paralegal"; "case_outcome"; "total_cost"; "profit_margin";
        "efficiency_ratio"; "document_complexity_score" ] /\
    Forall (fun kc => col_len (snd kc) = Z.to_nat n_cases) (columns df) /\
    self w' = self w.
Proof.
  intros Hn.
  destruct (wp_returns _ _ _ (generate_legal_data_frame n_cases w Hn))
    as (df & w' & Hrun & (x & -> & Hok) & Hself).
  exists (legal_frame n_cases x), w'.
  split; [exact Hrun |]. split; [reflexivity |]. split; [reflexivity |].
  split; [| exact Hself].
  split_samples Hok.
  unfold legal_frame, total_cost_of. cbn [columns].
  repeat (apply List.Forall_cons;
          [cbn [snd col_len]; first [len (Z.to_nat n_cases) | idtac] |]).
  - rewrite length_range. f_equal. lia.
  - apply List.Forall_nil.
Qed.

(** X1 at the empty table. *)
Lemma generate_legal_data_schema_witness :
  exists df w',
    @generate_legal_data Toy.lcg Toy.all_ok 0 (@mkWorld Toy.lcg Toy.all_ok 0 init)
    = (Return df, w') /\
    nrows df = Z.to_nat 0 /\
    map fst (columns df)
    = [ "case_id"; "practice_area"; "document_type"; "complexity"; "client_type";
        "case_value"; "hours_estimated"; "hours_actual"; "partner_hours";
        "associate_hours"; "paralegal_hours"; "document_pages"; "review_time_hours";
        "client_satisfaction"; "billing_rate_partner"; "billing_rate_associate";
        "billing_rate_paralegal"; "case_outcome"; "total_cost"; "profit_margin";
        "efficiency_ratio"; "document_complexity_score" ] /\
    Forall (fun kc => col_len (snd kc) = Z.to_nat 0) (columns df) /\
    self w' = self (@mkWorld Toy.lcg Toy.all_ok 0 init).
Proof.
  apply (@generate_legal_data_schema Toy.lcg Toy.all_ok 0
           (@mkWorld Toy.lcg Toy.all_ok 0 init)).
  lia.
Defined.

Lemma Forall_clip lo hi (l : list float) :
  (lo <= hi)%Q -> Forall (fun x => exists q, x = Fin q) l ->
  Forall (fun x => exists q, x = Fin q /\ (lo <= q <= hi)%Q) (map (clip lo hi) l).
Proof.
  intros Hle Hall. apply Forall_map_iff.
  eapply List.Forall_impl; [| exact Hall].
  intros x [q ->]. now apply clip_Fin.
Qed.

Lemma Forall_Fin (l : list Q) : Forall (fun x => exists q, x = Fin q) (map Fin l).
Proof. apply Forall_map_iff, Forall_forall. eauto. Qed.

Lemma Forall_scale k (l : list float) :
  Forall (fun x => exists q, x = Fin q) l ->
  Forall (fun x => exists q, x = Fin q) (scale k l).
Proof.
  intros Hall. unfold scale. apply Forall_map_iff.
  eapply List.Forall_impl; [| exact Hall]. intros x [q ->]. simpl. eauto.
Qed.

Lemma Forall_fadd (a b : list float) :
  Forall (fun x => exists q, x = Fin q) a ->
  Forall (fun x => exists q, x = Fin q) b ->
  Forall (fun x => exists q, x = Fin q) (zip_with fadd a b).
Proof.
  intros Ha. revert b. induction Ha as [| x a [q ->] _ IH]; intros b Hb; [constructor |].
  destruct Hb as [| y b [q' ->] Hb]; simpl; [constructor |].
  constructor; [eauto | now apply IH].
Qed.

Lemma Forall_labels (labels l : list string) :
  Forall (fun s => In s labels) l ->
  Forall (fun o => exists s, o = PStr s /\ In s labels) (map PStr l).
Proof.
  intros Hall. apply Forall_map_iff.
  eapply List.Forall_impl; [| exact Hall]. cbv beta. eauto.
Qed.

(** X2. In the frame [generate_legal_data] returns, every entry of
    'client_satisfaction' lies between 1 and 10 and every entry of
    'document_complexity_score' between 0 and 100 (the two clipped
    columns), and the five label columns only hold labels of the lists
    they are drawn from. *)
Theorem generate_legal_data_ranges `{NumpyRandom} `{Sklearn} (n_cases : Z) (w : World) :
  0 <= n_cases ->
  exists df w' satisfaction score practice_area document_type complexity client_type
         case_outcome,
    generate_legal_data n_cases w = (Return df, w') /\
    getitem df "client_satisfaction" = Return (Float64 satisfaction) /\
    Forall (fun x => exists q, x = Fin q /\ (1 <= q <= 10)%Q) satisfaction /\
    getitem df "document_complexity_score" = Return (Float64 score) /\
    Forall (fun x => exists q, x = Fin q /\ (0 <= q <= 100)%Q) score /\
    getitem df "practice_area" = Return (Object practice_area) /\
    Forall (fun o => exists s, o = PStr s /\ In s practice_areas) practice_area /\
    getitem df "document_type" = Return (Object document_type) /\
    Forall (fun o => exists s, o = PStr s /\ In s document_types) document_type /\
    getitem df "complexity" = Return (Object complexity) /\
    Forall (fun o => exists s, o = PStr s /\ In s complexity_levels) complexity /\
    getitem df "client_type" = Return (Object client_type) /\
    Forall (fun o => exists s, o = PStr s /\ In s client_types) client_type /\
    getitem df "case_outcome" = Return (Object case_outcome) /\
    Forall (fun o => exists s, o = PStr s /\ In s case_outcomes) case_outcome.
Proof.
  intros Hn.
  destruct (wp_returns _ _ _ (generate_legal_data_frame n_cases w Hn))
    as (df & w' & Hrun & (x & -> & Hok) & Hself).
  split_samples Hok.
  eexists _, _, _, _, _, _, _, _, _.
  split; [exact Hrun |].
  split; [reflexivity |]. split; [apply Forall_clip; [discriminate | apply Forall_Fin] |].
  split; [reflexivity |].
  split.
  { apply Forall_clip; [discriminate |].
    repeat first [apply Forall_fadd | apply Forall_scale | apply Forall_Fin]. }
  repeat (split; [reflexivity |]; split; [now apply Forall_labels |]).
  split; [reflexivity | now apply Forall_labels].
Qed.

(** X2 at [generate_legal_data(4)]. *)
Lemma generate_legal_data_ranges_witness :
  exists df w' satisfaction score practice_area document_type complexity client_type
         case_outcome,
    @generate_legal_data Toy.lcg Toy.all_ok 4 (@mkWorld Toy.lcg Toy.all_ok 0 init)
    = (Return df, w') /\
    getitem df "client_satisfaction" = Return (Float64 satisfaction) /\
    Forall (fun x => exists q, x = Fin q /\ (1 <= q <= 10)%Q) satisfaction /\
    getitem df "document_complexity_score" = Return (Float64 score) /\
    Forall (fun x => exists q, x = Fin q /\ (0 <= q <= 100)%Q) score /\
    getitem df "practice_area" = Return (Object practice_area) /\
    Forall (fun o => exists s, o = PStr s /\ In s practice_areas) practice_area /\
    getitem df "document_type" = Return (Object document_type) /\
    Forall (fun o => exists s, o = PStr s /\ In s document_types) document_type /\
    getitem df "complexity" = Return (Object complexity) /\
    Forall (fun o => exists s, o = PStr s /\ In s complexity_levels) complexity /\
    getitem df "client_type" = Return (Object client_type) /\
    Forall (fun o => exists s, o = PStr s /\ In s client_types) client_type /\
    getitem df "case_outcome" = Return (Object case_outcome) /\
    Forall (fun o => exists s, o = PStr s /\ In s case_outcomes) case_outcome.
Proof.
  apply (@generate_legal_data_ranges Toy.lcg Toy.all_ok 4
           (@mkWorld Toy.lcg Toy.all_ok 0 init)).
  lia.
Defined.

Lemma fdiv_Fin (x y : Q) : ~ (y == 0)%Q -> fdiv (Fin x) (Fin y) = Fin (x / y).
Proof. intros Hy. unfold fdiv. now rewrite Qeq_bool_false. Qed.

(** X3. Row by row, the derived columns of the returned frame are computed
    from the sampled ones: total_cost = partner_hours * billing_rate_partner
    + associate_hours * billing_rate_associate + paralegal_hours *
    billing_rate_paralegal, profit_margin = (case_value - total_cost) /
    case_value * 100 and efficiency_ratio = hours_estimated / hours_actual,
    all finite, with case_value and the efficiency ratio positive. *)
Theorem generate_legal_data_derived `{NumpyRandom} `{Sklearn} (n_cases : Z) (w : World)
    (i : nat) :
  (i < Z.to_nat n_cases)%nat ->
  exists df w' (ph ah lh bp ba bl cv he ha tc pm er : Q),
    generate_legal_data n_cases w = (Return df, w') /\
    loc_at df (Z.of_nat i) "partner_hours" = Return (CFloat (Fin ph)) /\
    loc_at df (Z.of_nat i) "associate_hours" = Return (CFloat (Fin ah)) /\
    loc_at df (Z.of_nat i) "paralegal_hours" = Return (CFloat (Fin lh)) /\
    loc_at df (Z.of_nat i) "billing_rate_partner" = Return (CFloat (Fin bp)) /\
    loc_at df (Z.of_nat i) "billing_rate_associate" = Return (CFloat (Fin ba)) /\
    loc_at df (Z.of_nat i) "billing_rate_paralegal" = Return (CFloat (Fin bl)) /\
    loc_at df (Z.of_nat i) "case_value" = Return (CFloat (Fin cv)) /\
    loc_at df (Z.of_nat i) "hours_estimated" = Return (CFloat (Fin he)) /\
    loc_at df (Z.of_nat i) "hours_actual" = Return (CFloat (Fin ha)) /\
    loc_at df (Z.of_nat i) "total_cost" = Return (CFloat (Fin tc)) /\
    loc_at df (Z.of_nat i) "profit_margin" = Return (CFloat (Fin pm)) /\
    loc_at df (Z.of_nat i) "efficiency_ratio" = Return (CFloat (Fin er)) /\
    (tc == ph * bp + ah * ba + lh * bl)%Q /\
    (0 < cv)%Q /\
    (pm == (cv - tc) / cv * 100)%Q /\
    (er == he / ha)%Q /\
    (0 < er)%Q.
Proof.
  intros Hi. assert (0 <= n_cases) as Hn by lia.
  destruct (wp_returns _ _ _ (generate_legal_data_frame n_cases w Hn))
    as (df & w' & Hrun & (x & -> & Hok) & Hself).
  split_samples Hok.
  destruct (lookup_length (drawn_partner_hours x) (Z.to_nat n_cases) i) as [ph Hph]; [assumption | exact Hi |].
  destruct (lookup_length (drawn_associate_hours x) (Z.to_nat n_cases) i) as [ah Hah]; [assumption | exact Hi |].
  destruct (lookup_length (drawn_paralegal_hours x) (Z.to_nat n_cases) i) as [lh Hlh]; [assumption | exact Hi |].
  destruct (lookup_length (drawn_billing_rate_partner x) (Z.to_nat n_cases) i) as [bp Hbp]; [assumption | exact Hi |].
  destruct (lookup_length (drawn_billing_rate_associate x) (Z.to_nat n_cases) i) as [ba Hba]; [assumption | exact Hi |].
  destruct (lookup_length (drawn_billing_rate_paralegal x) (Z.to_nat n_cases) i) as [bl Hbl]; [assumption | exact Hi |].
  destruct (lookup_length (drawn_case_value x) (Z.to_nat n_cases) i) as [cv Hcv]; [assumption | exact Hi |].
  destruct (lookup_length (drawn_hours_estimated x) (Z.to_nat n_cases) i) as [he Hhe]; [assumption | exact Hi |].
  destruct (lookup_length (drawn_hours_actual x) (Z.to_nat n_cases) i) as [ha Hha]; [assumption | exact Hi |].
  assert (0 < cv)%Q as Hcv_pos
    by (apply (Forall_lookup_Some (fun q => (0 < q)%Q) (drawn_case_value x) i cv); assumption).
  assert (0 < he)%Q as Hhe_pos
    by (apply (Forall_lookup_Some (fun q => (0 < q)%Q) (drawn_hours_estimated x) i he); assumption).
  assert (0 < ha)%Q as Hha_pos
    by (apply (Forall_lookup_Some (fun q => (0 < q)%Q) (drawn_hours_actual x) i ha); assumption).
  pose proof (lookup_map Fin _ i _ Hph) as Fph.
  pose proof (lookup_map Fin _ i _ Hah) as Fah.
  pose proof (lookup_map Fin _ i _ Hlh) as Flh.
  pose proof (lookup_map Fin _ i _ Hbp) as Fbp.
  pose proof (lookup_map Fin _ i _ Hba) as Fba.
  pose proof (lookup_map Fin _ i _ Hbl) as Fbl.
  pose proof (lookup_map Fin _ i _ Hcv) as Fcv.
  pose proof (lookup_map Fin _ i _ Hhe) as Fhe.
  pose proof (lookup_map Fin _ i _ Hha) as Fha.
  pose proof (lookup_zip_with_Some fadd _ _ i _ _
                (lookup_zip_with_Some fadd _ _ i _ _
                   (lookup_zip_with_Some fmul _ _ i _ _ Fph Fbp)
                   (lookup_zip_with_Some fmul _ _ i _ _ Fah Fba))
                (lookup_zip_with_Some fmul _ _ i _ _ Flh Fbl)) as Ftc.
  change (total_cost_of x !! i = Some (Fin (ph * bp + ah * ba + lh * bl))) in Ftc.
  pose proof (lookup_scale 100 _ i _
                (lookup_zip_with_Some fdiv _ _ i _ _
                   (lookup_zip_with_Some fsub _ _ i _ _ Fcv Ftc) Fcv)) as Fpm.
  pose proof (lookup_zip_with_Some fdiv _ _ i _ _ Fhe Fha) as Fer.
  cbn [fsub fneg fadd] in Fpm.
  rewrite fdiv_Fin in Fpm by lra. rewrite fdiv_Fin in Fer by lra.
  cbn [fmul] in Fpm.
  exists (legal_frame n_cases x), w', ph, ah, lh, bp, ba, bl, cv, he, ha,
    (ph * bp + ah * ba + lh * bl)%Q,
    ((cv + - (ph * bp + ah * ba + lh * bl)) / cv * 100)%Q, (he / ha)%Q.
  split; [exact Hrun |].
  repeat (split; [eapply loc_at_Float64; [reflexivity | eassumption] |]).
  split; [reflexivity |]. split; [exact Hcv_pos |].
  split; [unfold Qminus; reflexivity |]. split; [reflexivity |].
  apply Qlt_shift_div_l; lra.
Qed.

(** X3 at the second row of [generate_legal_data(3)]. *)
Lemma generate_legal_data_derived_witness :
  exists df w' (ph ah lh bp ba bl cv he ha tc pm er : Q),
    @generate_legal_data Toy.lcg Toy.all_ok 3 (@mkWorld Toy.lcg Toy.all_ok 0 init)
    = (Return df, w') /\
    loc_at df (Z.of_nat 1) "partner_hours" = Return (CFloat (Fin ph)) /\
    loc_at df (Z.of_nat 1) "associate_hours" = Return (CFloat (Fin ah)) /\
    loc_at df (Z.of_nat 1) "paralegal_hours" = Return (CFloat (Fin lh)) /\
    loc_at df (Z.of_nat 1) "billing_rate_partner" = Return (CFloat (Fin bp)) /\
    loc_at df (Z.of_nat 1) "billing_rate_associate" = Return (CFloat (Fin ba)) /\
    loc_at df (Z.of_nat 1) "billing_rate_paralegal" = Return (CFloat (Fin bl)) /\
    loc_at df (Z.of_nat 1) "case_value" = Return (CFloat (Fin cv)) /\
    loc_at df (Z.of_nat 1) "hours_estimated" = Return (CFloat (Fin he)) /\
    loc_at df (Z.of_nat 1) "hours_actual" = Return (CFloat (Fin ha)) /\
    loc_at df (Z.of_nat 1) "total_cost" = Return (CFloat (Fin tc)) /\
    loc_at df (Z.of_nat 1) "profit_margin" = Return (CFloat (Fin pm)) /\
    loc_at df (Z.of_nat 1) "efficiency_ratio" = Return (CFloat (Fin er)) /\
    (tc == ph * bp + ah * ba + lh * bl)%Q /\
    (0 < cv)%Q /\
    (pm == (cv - tc) / cv * 100)%Q /\
    (er == he / ha)%Q /\
    (0 < er)%Q.
Proof.
  apply (@generate_legal_data_derived Toy.lcg Toy.all_ok 3
           (@mkWorld Toy.lcg Toy.all_ok 0 init) 1).
  simpl. lia.
Defined.

(** X4. A negative [n_cases] makes [generate_legal_data] raise ValueError at
    the first sized draw, after the generator was reseeded: the state
    left is the seeded one, and the platform object is untouched. *)
Theorem generate_legal_data_negative `{NumpyRandom} `{Sklearn} (n_cases : Z) (w : World) :
  n_cases < 0 ->
  generate_legal_data n_cases w
  = (Raise (ValueError "negative dimensions are not allowed"),
     mkWorld (seeded 42) (self w)).
Proof.
  intros Hn.
  unfold generate_legal_data, case_table, bind, rnd, zoom, np_random_seed, put, choice,
    sized.
  cbn [np_random self]. destruct (Z.ltb_spec n_cases 0) as [_ | Hge]; [| lia].
  reflexivity.
Qed.

(** X4 at [generate_legal_data(-1)]. *)
Lemma generate_legal_data_negative_witness :
  @generate_legal_data Toy.lcg Toy.all_ok (-1) (@mkWorld Toy.lcg Toy.all_ok 7 init)
  = (Raise (ValueError "negative dimensions are not allowed"),
     @mkWorld Toy.lcg Toy.all_ok (@seeded Toy.lcg 42) init).
Proof.
  apply (@generate_legal_data_negative Toy.lcg Toy.all_ok (-1)
           (@mkWorld Toy.lcg Toy.all_ok 7 init)).
  lia.
Defined.

(** ** [engineer_legal_features]: when it returns, and what it writes *)

Lemma getnum_set_ne n k v cols c :
  k <> c -> getnum (mkDataFrame n (assoc_set k v cols)) c = getnum (mkDataFrame n cols) c.
Proof.
  intros Hne. unfold getnum, getitem. cbn [columns]. now rewrite assoc_set_ne.
Qed.

Lemma getnum_set_Float64 n k l cols :
  getnum (mkDataFrame n (assoc_set k (Float64 l) cols)) k = Return l.
Proof. unfold getnum, getitem. cbn [columns]. now rewrite assoc_set_eq. Qed.

Lemma getitem_set_ne n k v cols c :
  k <> c -> getitem (mkDataFrame n (assoc_set k v cols)) c = getitem (mkDataFrame n cols) c.
Proof. intros Hne. unfold getitem. cbn [columns]. now rewrite assoc_set_ne. Qed.

Lemma getitem_set_eq n k v cols :
  getitem (mkDataFrame n (assoc_set k v cols)) k = Return v.
Proof. unfold getitem. cbn [columns]. now rewrite assoc_set_eq. Qed.

Lemma assoc_set_same {A} k (v : A) l : assoc k l = Some v -> assoc_set k v l = l.
Proof.
  induction l as [| [k' v'] l IH]; simpl; [discriminate |].
  destruct (String.eqb k k') eqn:Ek.
  - apply String.eqb_eq in Ek. subst k'. now intros [= ->].
  - intros Hl. now rewrite IH.
Qed.

(** Running one statement of a function on a frame. *)
Lemma run_col {A} c (k : list float -> Py DataFrame A) d l :
  getnum d c = Return l -> bind (col c) k d = k l d.
Proof. intros Hc. unfold col, bind, get, lift. now rewrite Hc. Qed.

Lemma run_set_col {A} c v (k : unit -> Py DataFrame A) d :
  col_len v = nrows d ->
  bind (set_col c v) k d = k tt (mkDataFrame (nrows d) (assoc_set c v (columns d))).
Proof.
  intros Hlen. unfold set_col, bind, get, lift, put, setitem.
  apply Nat.eqb_eq in Hlen. now rewrite Hlen.
Qed.

Lemma run_elementwise {S A B} (op : float -> float -> B) a b (k : list B -> Py S A) s :
  length a = length b -> bind (lift (elementwise op a b)) k s = k (zip_with op a b) s.
Proof. intros Hlen. unfold bind, lift. now rewrite elementwise_fits. Qed.

(** ... and reading one statement off a run that returned. *)
Lemma col_returned {A} c (k : list float -> Py DataFrame A) d r s :
  bind (col c) k d = (Return r, s) ->
  exists l, getnum d c = Return l /\ k l d = (Return r, s).
Proof.
  unfold col, bind, get, lift. destruct (getnum d c) as [l | e]; [eauto | discriminate].
Qed.

Lemma set_col_returned {A} c v (k : unit -> Py DataFrame A) d r s :
  bind (set_col c v) k d = (Return r, s) ->
  col_len v = nrows d /\
  k tt (mkDataFrame (nrows d) (assoc_set c v (columns d))) = (Return r, s).
Proof.
  unfold set_col, bind, get, lift, put, setitem.
  destruct (Nat.eqb_spec (col_len v) (nrows d)); [auto | discriminate].
Qed.

Lemma elementwise_returned {S A B} (op : float -> float -> B) a b (k : list B -> Py S A)
    s r s' :
  bind (lift (elementwise op a b)) k s = (Return r, s') ->
  length a = length b /\ k (zip_with op a b) s = (Return r, s').
Proof.
  unfold bind, lift, elementwise.
  destruct (Nat.eqb_spec (length a) (length b)); [auto | discriminate].
Qed.

Lemma gt_int_flag x y : gt_int x y = 0 \/ gt_int x y = 1.
Proof. unfold gt_int. destruct (flt y x); auto. Qed.

Lemma Forall_flags (f : float -> Z) (l : list float) :
  (forall x, f x = 0 \/ f x = 1) -> Forall (fun z => z = 0 \/ z = 1) (map f l).
Proof. intros Hf. apply Forall_map_iff, Forall_forall. auto. Qed.

Lemma Forall_flags2 (a b : list float) :
  Forall (fun z => z = 0 \/ z = 1) (zip_with gt_int a b).
Proof.
  revert b. induction a as [| x a IH]; intros [| y b]; simpl; constructor; auto.
  apply gt_int_flag.
Qed.

(** The facts of a run of [engineer_legal_features] that returned: what was
    read, and that the arrays fit. *)
Ltac read_run Hrun :=
  repeat
    (first
       [ let l := fresh "l" in
         let Hl := fresh "Hread" in
         apply col_returned in Hrun as (l & Hl & Hrun);
         rewrite ?getnum_set_ne in Hl by discriminate;
         rewrite ?getnum_set_Float64 in Hl;
         try match goal with
             | Hprev : getnum ?d ?c = Return _ |- _ =>
                 lazymatch type of Hl with
                 | getnum d c = Return _ =>
                     tryif constr_eq Hprev Hl then fail else rewrite Hprev in Hl
                 end
             end;
         try (injection Hl as Hl; subst l)
       | let Hlen := fresh "Hfit" in
         apply set_col_returned in Hrun as (Hlen & Hrun);
         cbn [nrows columns col_len] in Hrun, Hlen
       | let Hlen := fresh "Hsame" in
         apply elementwise_returned in Hrun as (Hlen & Hrun) ]).

(** Replaying the function on a frame of which the columns are known. *)
Ltac replay_col :=
  erewrite run_col
    by (rewrite ?getnum_set_ne by discriminate;
        first [eassumption | apply getnum_set_Float64]).

Ltac replay_set_col :=
  rewrite run_set_col by (cbn [nrows col_len]; assumption);
  cbn [nrows columns].

Ltac replay_elementwise := rewrite run_elementwise by assumption.

Ltac settle :=
  match goal with
  | |- context [assoc_set ?c ?v (assoc_set ?c' ?v' ?rest)] =>
      rewrite (assoc_set_same c v (assoc_set c' v' rest))
        by (rewrite ?assoc_set_ne by discriminate; apply assoc_set_eq)
  end.

Ltac replay :=
  repeat first [replay_col | replay_elementwise | replay_set_col; try settle].

(** X6. [engineer_legal_features] is idempotent: on the frame a call
    returned, a second call returns the same frame and changes nothing. *)
Theorem engineer_legal_features_idempotent (df df1 s1 : DataFrame) :
  engineer_legal_features df = (Return df1, s1) ->
  s1 = df1 /\ engineer_legal_features df1 = (Return df1, df1).
Proof.
  destruct df as [n cols]. intros Hrun. unfold engineer_legal_features in Hrun.
  read_run Hrun.
  injection Hrun as <- <-. split; [reflexivity |].
  unfold engineer_legal_features.
  replay. reflexivity.
Qed.

Lemma keeps_bind {A B} (c : Py DataFrame A) (k : A -> Py DataFrame B) :
  keeps_frame c -> (forall a, keeps_frame (k a)) -> keeps_frame (bind c k).
Proof.
  intros Hc Hk df d Hd. apply wpe_bind.
  eapply wpe_mono; [apply (Hc df d Hd) | | auto].
  cbv beta. intros a d' Hd'. apply (Hk a df d' Hd').
Qed.

Lemma keeps_get : keeps_frame get.
Proof. intros df d Hd. apply wpe_get. exact Hd. Qed.

Lemma keeps_lift {A} (r : result A) : local_result r -> keeps_frame (lift r).
Proof. intros Hr df d Hd. apply wpe_lift; intros; subst; cbn in *; auto. Qed.

Lemma keeps_col c : keeps_frame (col c).
Proof.
  unfold col. apply keeps_bind; [apply keeps_get |]. intros d.
  apply keeps_lift, getnum_local.
Qed.

Lemma keeps_set_col c v : In c engineered_columns -> keeps_frame (set_col c v).
Proof.
  intros Hc df d [Hrows Hcols]. unfold set_col.
  apply wpe_bind, wpe_get, wpe_bind, wpe_lift.
  - intros d' Hset. apply wpe_put.
    pose proof (setitem_returns _ _ _ _ Hset) as (_ & Hrows' & _).
    split; [congruence |]. intros c' Hc'.
    rewrite (getitem_setitem_ne c c' v d d'); [now apply Hcols | | exact Hset].
    intros ->. contradiction.
  - intros e He. split; [now split |].
    pose proof (setitem_local c v d) as Hloc. now rewrite He in Hloc.
Qed.

Lemma keeps_engineer_legal_features : keeps_frame engineer_legal_features.
Proof.
  unfold engineer_legal_features.
  repeat first
    [ apply keeps_get
    | apply keeps_col
    | apply keeps_set_col; cbn; tauto
    | apply keeps_lift, elementwise_local
    | apply keeps_bind; [| intros ?] ].
Qed.

Lemma engineer_legal_features_state (df d s : DataFrame) :
  engineer_legal_features df = (Return d, s) -> s = d.
Proof.
  destruct df as [n cols]. intros Hrun. unfold engineer_legal_features in Hrun.
  read_run Hrun. now injection Hrun as <- <-.
Qed.

(** X7. Whether it returns or raises, [engineer_legal_features] leaves the
    caller's frame with the rows it had and with every column but the
    twelve engineered ones unchanged: it writes the engineered columns and
    nothing else.  What it returns is the caller's frame itself, changed in
    place. *)
Theorem engineer_legal_features_keeps (df : DataFrame) :
  nrows (snd (engineer_legal_features df)) = nrows df /\
  (forall c, ~ In c engineered_columns ->
             getitem (snd (engineer_legal_features df)) c = getitem df c) /\
  (forall d, fst (engineer_legal_features df) = Return d ->
             d = snd (engineer_legal_features df)).
Proof.
  pose proof (keeps_engineer_legal_features df df (conj eq_refl (fun _ _ => eq_refl)))
    as Hrun.
  unfold wpe in Hrun.
  destruct (engineer_legal_features df) as [[d | e] s] eqn:Erun; cbn [fst snd].
  - destruct Hrun as [Hrows Hcols].
    repeat split; try assumption.
    intros d' [= <-]. symmetry. now apply (engineer_legal_features_state df).
  - destruct Hrun as [[Hrows Hcols] He].
    repeat split; try assumption. discriminate.
Qed.

Lemma run_col_raise {A} c (k : list float -> Py DataFrame A) d e :
  getnum d c = Raise e -> bind (col c) k d = (Raise e, d).
Proof. intros Hc. unfold col, bind, get, lift. now rewrite Hc. Qed.

Lemma getnum_missing df c : getitem df c = Raise (KeyError c) -> getnum df c = Raise (KeyError c).
Proof. intros Hc. unfold getnum. now rewrite Hc. Qed.

(** Replaying the function on a frame whose numeric columns have [n]
    entries each. *)
Ltac lengths n :=
  cbn [col_len nrows]; unfold scale;
  repeat first [rewrite length_map | rewrite length_zip_with]; lia.

Ltac replay_with n :=
  repeat first
    [ replay_col
    | rewrite run_elementwise by lengths n
    | rewrite run_set_col by lengths n; cbn [nrows columns] ].

Ltac numeric_facts H :=
  unfold numeric_columns in H; cbn [nrows] in H;
  repeat match type of H with
         | Forall _ (_ :: _) =>
             let l := fresh "l" in
             let Hl := fresh "Hcol" in
             let Hn := fresh "Hlen" in
             apply Forall_cons in H as [(l & Hl & Hn) H]
         end;
  clear H.

Lemma engineer_legal_features_numeric (df : DataFrame) :
  numeric_columns engineer_inputs df ->
  exists df', engineer_legal_features df = (Return df', df').
Proof.
  destruct df as [n cols].
  intros Hnum. unfold engineer_inputs in Hnum. numeric_facts Hnum.
  unfold engineer_legal_features. replay_with n.
  eexists. reflexivity.
Qed.

Lemma float_columns_numeric (cols : list string) (df : DataFrame) :
  float_columns cols df -> numeric_columns cols df.
Proof.
  unfold float_columns, numeric_columns. apply List.Forall_impl.
  intros c (l & Hl & Hlen). exists l. unfold getnum. now rewrite Hl.
Qed.

(** X5. On float64 columns [engineer_legal_features] never raises: when the
    twelve input columns are float64 columns, one value per row, the call
    returns, whatever the values are (a division by zero gives an infinity
    or NaN, not an exception), and what it returns is the caller's frame. *)
Theorem engineer_legal_features_returns (df : DataFrame) :
  float_columns engineer_inputs df ->
  exists df', engineer_legal_features df = (Return df', df').
Proof.
  intros Hfloat. now apply engineer_legal_features_numeric, float_columns_numeric.
Qed.

Ltac read_engineered :=
  rewrite ?getitem_set_ne by discriminate; rewrite getitem_set_eq.

(** X8. In the frame [engineer_legal_features] returns for float64 inputs,
    the five ratio columns hold one float per row and the seven indicator
    columns one integer per row, each 0 or 1. *)
Theorem engineer_legal_features_columns (df df' s : DataFrame) :
  float_columns engineer_inputs df ->
  engineer_legal_features df = (Return df', s) ->
  nrows df' = nrows df /\
  Forall (fun c => exists l, getitem df' c = Return (Float64 l) /\ length l = nrows df)
    ["total_hours"; "partner_ratio"; "cost_per_hour"; "pages_per_hour"; "hour_variance"] /\
  Forall (fun c => exists l, getitem df' c = Return (Int64 l) /\ length l = nrows df /\
                             Forall (fun z => z = 0 \/ z = 1) l)
    ["high_efficiency"; "cost_overrun"; "high_value_case"; "document_intensive";
     "partner_intensive"; "high_satisfaction"; "profitable_case"].
Proof.
  destruct df as [n cols]. intros _ Hrun. unfold engineer_legal_features in Hrun.
  read_run Hrun. injection Hrun as <- _. cbn [nrows].
  split; [reflexivity |]. split.
  - repeat (apply List.Forall_cons;
            [eexists; split; [read_engineered; reflexivity | assumption] |]).
    apply List.Forall_nil.
  - repeat (apply List.Forall_cons;
            [eexists; split; [read_engineered; reflexivity |];
             split; [assumption |];
             first [apply Forall_flags2 | apply Forall_flags; intros ?; apply gt_int_flag] |]).
    apply List.Forall_nil.
Qed.

(** X9. The inputs are read in the order of [engineer_inputs]: when the
    columns before [c] in that order are float64 columns, one value per
    row, and the frame has no column [c], the call raises KeyError naming
    [c]. *)
Theorem engineer_legal_features_missing (df : DataFrame) (before after : list string)
    (c : string) :
  engineer_inputs = (before ++ c :: after)%list ->
  float_columns before df ->
  getitem df c = Raise (KeyError c) ->
  fst (engineer_legal_features df) = Raise (KeyError c).
Proof.
  destruct df as [n cols]. intros Hsplit Hnum Hmiss. apply getnum_missing in Hmiss.
  apply float_columns_numeric in Hnum.
  unfold engineer_inputs in Hsplit.
  repeat (destruct before as [| ? before];
          [ injection Hsplit as <- <-
          | injection Hsplit as <- Hsplit ]);
    try (destruct before; discriminate Hsplit).
  all: numeric_facts Hnum; unfold engineer_legal_features; replay_with n;
       erewrite run_col_raise
         by (rewrite ?getnum_set_ne by discriminate; exact Hmiss);
       reflexivity.
Qed.

Lemma two_cases_run :
  engineer_legal_features two_cases = (Return two_cases_engineered, two_cases_engineered).
Proof. vm_compute. reflexivity. Qed.

(** X6 on the frame of two cases. *)
Lemma engineer_legal_features_idempotent_witness :
  two_cases_engineered = two_cases_engineered /\
  engineer_legal_features two_cases_engineered
  = (Return two_cases_engineered, two_cases_engineered).
Proof.
  exact (engineer_legal_features_idempotent two_cases two_cases_engineered
           two_cases_engineered two_cases_run).
Defined.

Lemma two_cases_float : float_columns engineer_inputs two_cases.
Proof.
  unfold float_columns, engineer_inputs.
  repeat (apply List.Forall_cons; [eexists; split; reflexivity |]).
  apply List.Forall_nil.
Qed.

(** X5 on the frame of two cases, the second without hours. *)
Lemma engineer_legal_features_returns_witness :
  exists df', engineer_legal_features two_cases = (Return df', df').
Proof.
  apply (engineer_legal_features_returns two_cases).
  unfold float_columns, engineer_inputs.
  repeat (apply List.Forall_cons; [eexists; split; reflexivity |]).
  apply List.Forall_nil.
Defined.

(** X8 on the frame of two cases. *)
Lemma engineer_legal_features_columns_witness :
  nrows two_cases_engineered = nrows two_cases /\
  Forall (fun c => exists l, getitem two_cases_engineered c = Return (Float64 l) /\
                             length l = nrows two_cases)
    ["total_hours"; "partner_ratio"; "cost_per_hour"; "pages_per_hour"; "hour_variance"] /\
  Forall (fun c => exists l, getitem two_cases_engineered c = Return (Int64 l) /\
                             length l = nrows two_cases /\
                             Forall (fun z => z = 0 \/ z = 1) l)
    ["high_efficiency"; "cost_overrun"; "high_value_case"; "document_intensive";
     "partner_intensive"; "high_satisfaction"; "profitable_case"].
Proof.
  exact (engineer_legal_features_columns two_cases two_cases_engineered
           two_cases_engineered two_cases_float two_cases_run).
Defined.

(** X9 on a frame with the hours and no 'total_cost'. *)
Lemma engineer_legal_features_missing_witness :
  fst (engineer_legal_features hours_only) = Raise (KeyError "total_cost").
Proof.
  apply (engineer_legal_features_missing hours_only
           ["partner_hours"; "associate_hours"; "paralegal_hours"]
           ["document_pages"; "review_time_hours"; "hours_actual"; "hours_estimated";
            "efficiency_ratio"; "case_value"; "client_satisfaction"; "profit_margin"]
           "total_cost").
  - reflexivity.
  - repeat (apply List.Forall_cons; [eexists; split; reflexivity |]).
    apply List.Forall_nil.
  - reflexivity.
Defined.

(** ** [prepare_data_for_modeling] and the encoders of the platform *)

Section Encoders.
Context `{Sklearn}.

Lemma new_LabelEncoder P F C :
  new LabelEncoder [] (mkTrainState P F C)
  = (Return (mkEstimator LabelEncoder [] None),
     mkTrainState P F (C ++ [Construct LabelEncoder])).
Proof. reflexivity. Qed.

Lemma encode_column_missing c P F C :
  encoders P !! c = None ->
  getitem F c = Raise (KeyError c) ->
  encode_column c (mkTrainState P F C)
  = (Raise (KeyError c),
     mkTrainState (set_encoder c (mkEstimator LabelEncoder [] None) P) F
       (C ++ [Construct LabelEncoder])).
Proof.
  intros Hnone Hmiss. unfold encode_column.
  unfold bind at 1, get at 1. cbn [platform]. rewrite Hnone.
  unfold bind at 1. rewrite new_LabelEncoder.
  unfold bind at 1, on_self at 1, modify. cbn [platform frame calls].
  unfold bind at 1, on_frame at 1, zoom. cbn [platform frame calls].
  unfold bind at 1, get at 1, lift at 1. rewrite Hmiss. reflexivity.
Qed.

Lemma run_on_self {A} f (k : unit -> Py TrainState A) P F C :
  bind (on_self f) k (mkTrainState P F C) = k tt (mkTrainState (f P) F C).
Proof. reflexivity. Qed.

Lemma run_on_frame {A B} (c : Py DataFrame A) (k : A -> Py TrainState B) P F C :
  bind (on_frame c) k (mkTrainState P F C)
  = match c F with
    | (Return a, d) => k a (mkTrainState P d C)
    | (Raise e, d) => (Raise e, mkTrainState P d C)
    end.
Proof.
  unfold bind, on_frame, zoom. cbn [platform frame calls].
  now destruct (c F) as [[a | e] d].
Qed.

Lemma on_frame_run {A} (c : Py DataFrame A) P F C :
  on_frame c (mkTrainState P F C)
  = (fst (c F), mkTrainState P (snd (c F)) C).
Proof.
  unfold on_frame, zoom. cbn [platform frame calls]. now destruct (c F).
Qed.

Lemma run_call {A B} f (r : result A) (k : A -> Py TrainState B) P F C :
  bind (call f r) k (mkTrainState P F C)
  = match r with
    | Return a => k a (mkTrainState P F (C ++ [Call f None]))
    | Raise e => (Raise e, mkTrainState P F (C ++ [Call f (Some e)]))
    end.
Proof. now destruct r. Qed.

Lemma run_new_LabelEncoder {A} (k : estimator -> Py TrainState A) P F C :
  bind (new LabelEncoder []) k (mkTrainState P F C)
  = k (mkEstimator LabelEncoder [] None) (mkTrainState P F (C ++ [Construct LabelEncoder])).
Proof. reflexivity. Qed.

Lemma run_get_column {A} c (k : column -> Py TrainState A) P F C :
  bind (on_frame (bind get (fun df => lift (getitem df c)))) k (mkTrainState P F C)
  = match getitem F c with
    | Return v => k v (mkTrainState P F C)
    | Raise e => (Raise e, mkTrainState P F C)
    end.
Proof.
  rewrite run_on_frame. unfold bind, get, lift. now destruct (getitem F c).
Qed.

Lemma encode_column_run c P F C :
  encode_column c (mkTrainState P F C)
  = match encoders P !! c with
    | None =>
        let P1 := set_encoder c (mkEstimator LabelEncoder [] None) P in
        let C1 := (C ++ [Construct LabelEncoder])%list in
        match getitem F c with
        | Raise e => (Raise e, mkTrainState P1 F C1)
        | Return v =>
            match encoder_fit_transform v with
            | Raise e =>
                (Raise e, mkTrainState P1 F
                            (C1 ++ [Call (Method LabelEncoder "fit_transform") (Some e)]))
            | Return r =>
                on_frame (set_col (c ++ "_encoded") (snd r))
                  (mkTrainState
                     (set_encoder c (mkEstimator LabelEncoder [] (Some (fst r))) P1) F
                     (C1 ++ [Call (Method LabelEncoder "fit_transform") None]))
            end
        end
    | Some e =>
        match getitem F c with
        | Raise err => (Raise err, mkTrainState P F C)
        | Return v =>
            match transform e v with
            | Raise err =>
                (Raise err, mkTrainState P F
                              (C ++ [Call (Method LabelEncoder "transform") (Some err)]))
            | Return r =>
                on_frame (set_col (c ++ "_encoded") r)
                  (mkTrainState P F (C ++ [Call (Method LabelEncoder "transform") None]))
            end
        end
    end.
Proof.
  unfold encode_column. unfold bind at 1, get at 1. cbn [platform].
  destruct (encoders P !! c) as [e |].
  - rewrite run_get_column. destruct (getitem F c) as [v | err]; [| reflexivity].
    rewrite run_call. now destruct (transform e v).
  - rewrite run_new_LabelEncoder, run_on_self, run_get_column. cbv zeta.
    destruct (getitem F c) as [v | err]; [| reflexivity].
    rewrite run_call. destruct (encoder_fit_transform v) as [r | err]; [| reflexivity].
    now rewrite run_on_self.
Qed.

Lemma encode_column_returned c s u s' :
  encode_column c s = (Return u, s') ->
  fitted_encoder (platform s') c /\
  forall c', c' <> c -> encoders (platform s') !! c' = encoders (platform s) !! c'.
Proof.
  destruct s as [P F C]. rewrite encode_column_run. cbn [platform].
  destruct (encoders P !! c) as [e |] eqn:Ee; cbv zeta;
    (destruct (getitem F c) as [v | err]; [| discriminate]).
  - destruct (transform e v) as [r | err] eqn:Et; [| discriminate].
    rewrite on_frame_run. intros [= _ <-]. cbn [platform]. split; [| reflexivity].
    unfold transform in Et. destruct (state e) as [st |] eqn:Es; [| discriminate].
    now exists e, st.
  - destruct (encoder_fit_transform v) as [r | err]; [| discriminate].
    rewrite on_frame_run. intros [= _ <-]. cbn [platform set_encoder encoders]. split.
    + eexists _, _. split; [apply lookup_insert_eq | reflexivity].
    + intros c' Hne. now rewrite !lookup_insert_ne by congruence.
Qed.

Lemma for_each_cons {S A B} (x : A) (xs : list A) (body : A -> Py S B) s :
  for_each (x :: xs) body s
  = match body x s with
    | (Return y, s1) =>
        match for_each xs body s1 with
        | (Return ys, s2) => (Return (y :: ys), s2)
        | (Raise e, s2) => (Raise e, s2)
        end
    | (Raise e, s1) => (Raise e, s1)
    end.
Proof.
  cbn [for_each]. unfold bind. destruct (body x s) as [[y | e] s1]; [| reflexivity].
  now destruct (for_each xs body s1) as [[ys | e] s2].
Qed.

Lemma encode_columns_returned cols s us s' :
  List.NoDup cols ->
  for_each cols encode_column s = (Return us, s') ->
  Forall (fitted_encoder (platform s')) cols /\
  forall c', ~ In c' cols -> encoders (platform s') !! c' = encoders (platform s) !! c'.
Proof.
  intros Hnd. revert s us. induction Hnd as [| c cols Hc _ IH]; intros s us.
  - intros [= _ <-]. split; [constructor | reflexivity].
  - rewrite for_each_cons.
    destruct (encode_column c s) as [[u | e] s1] eqn:E1; [| discriminate].
    destruct (for_each cols encode_column s1) as [[us' | e] s2] eqn:E2; [| discriminate].
    intros [= _ <-].
    apply encode_column_returned in E1 as [Hfit Hrest].
    destruct (IH _ _ E2) as [Hfits Hrest'].
    split.
    + constructor; [| exact Hfits].
      destruct Hfit as (e & st & He & Hst). exists e, st. split; [| exact Hst].
      now rewrite Hrest'.
    + intros c' Hc'. cbn [In] in Hc'.
      rewrite Hrest' by tauto. apply Hrest. intros ->. tauto.
Qed.

Lemma encode_column_reuse c s e :
  encoders (platform s) !! c = Some e ->
  platform (snd (encode_column c s)) = platform s /\
  exists evs, calls (snd (encode_column c s)) = (calls s ++ evs)%list /\
              Forall transform_call evs.
Proof.
  destruct s as [P F C]. cbn [platform calls]. intros He.
  rewrite encode_column_run, He.
  destruct (getitem F c) as [v | err].
  - destruct (transform e v) as [r | err].
    + rewrite on_frame_run. cbn [snd platform calls]. split; [reflexivity |].
      eexists. split; [reflexivity |]. repeat constructor. now eexists.
    + cbn [snd platform calls]. split; [reflexivity |].
      eexists. split; [reflexivity |]. repeat constructor. now eexists.
  - cbn [snd platform calls]. split; [reflexivity |].
    exists []. now rewrite app_nil_r.
Qed.

Lemma encode_columns_reuse cols s :
  Forall (fun c => is_Some (encoders (platform s) !! c)) cols ->
  platform (snd (for_each cols encode_column s)) = platform s /\
  exists evs, calls (snd (for_each cols encode_column s)) = (calls s ++ evs)%list /\
              Forall transform_call evs.
Proof.
  revert s. induction cols as [| c cols IH]; intros s Hall.
  - cbn. split; [reflexivity |]. exists []. now rewrite app_nil_r.
  - apply Forall_cons in Hall as [[e He] Hall].
    destruct (encode_column_reuse c s e He) as (Hp & evs & Hc & Hevs).
    rewrite for_each_cons.
    destruct (encode_column c s) as [[u | err] s1]; cbn [snd] in *.
    + destruct (IH s1) as (Hp' & evs' & Hc' & Hevs'); [now rewrite Hp |].
      destruct (for_each cols encode_column s1) as [[us | err] s2]; cbn [snd] in *.
      * split; [congruence |]. exists (evs ++ evs')%list.
        split; [rewrite Hc', Hc; now rewrite app_assoc | now apply Forall_app].
      * split; [congruence |]. exists (evs ++ evs')%list.
        split; [rewrite Hc', Hc; now rewrite app_assoc | now apply Forall_app].
    + split; [exact Hp |]. now exists evs.
Qed.

Lemma prepare_data_for_modeling_run P F C :
  prepare_data_for_modeling (mkTrainState P F C)
  = match engineer_legal_features F with
    | (Raise e, d) => (Raise e, mkTrainState P d C)
    | (Return _, d) =>
        match for_each categorical_cols encode_column (mkTrainState P d C) with
        | (Raise e, s') => (Raise e, s')
        | (Return _, s') =>
            (Return
               ([ "case_value"; "hours_estimated"; "document_pages"; "review_time_hours";
                  "billing_rate_partner"; "billing_rate_associate";
                  "billing_rate_paralegal"; "document_complexity_score"; "total_hours";
                  "partner_ratio"; "cost_per_hour"; "pages_per_hour"; "hour_variance";
                  "high_efficiency"; "cost_overrun"; "high_value_case";
                  "document_intensive"; "partner_intensive"; "practice_area_encoded";
                  "document_type_encoded"; "complexity_encoded"; "client_type_encoded" ]),
             s')
        end
    end.
Proof.
  unfold prepare_data_for_modeling. rewrite run_on_frame.
  destruct (engineer_legal_features F) as [[d0 | e] d]; [| reflexivity].
  unfold bind.
  now destruct (for_each categorical_cols encode_column (mkTrainState P d C))
    as [[us | e] s'].
Qed.

End Encoders.

Lemma NoDup_categorical_cols : List.NoDup categorical_cols.
Proof.
  unfold categorical_cols.
  repeat (apply List.NoDup_cons; [cbn [In]; intuition discriminate |]).
  apply List.NoDup_nil.
Qed.

(** X10. The label encoders are fitted once and reused: when
    [prepare_data_for_modeling] has returned, the platform holds a fitted
    encoder for each of the four categorical columns, and a later call, on
    whatever frame, constructs nothing and fits nothing: all it asks of
    scikit-learn is [transform] on the stored encoders, and it leaves the
    platform as it is. *)
Theorem prepare_data_for_modeling_reuses_encoders `{Sklearn}
    (s s1 : TrainState) (feature_cols : list string) :
  prepare_data_for_modeling s = (Return feature_cols, s1) ->
  Forall (fitted_encoder (platform s1)) categorical_cols /\
  forall (F : DataFrame) (C : list event),
    platform (snd (prepare_data_for_modeling (mkTrainState (platform s1) F C)))
    = platform s1 /\
    exists evs,
      calls (snd (prepare_data_for_modeling (mkTrainState (platform s1) F C)))
      = (C ++ evs)%list /\
      Forall transform_call evs.
Proof.
  destruct s as [P0 F0 C0]. rewrite prepare_data_for_modeling_run.
  destruct (engineer_legal_features F0) as [[d0 | e] d]; [| discriminate].
  destruct (for_each categorical_cols encode_column (mkTrainState P0 d C0))
    as [[us | e] s'] eqn:Eloop; [| discriminate].
  intros [= _ <-].
  destruct (encode_columns_returned _ _ _ _ NoDup_categorical_cols Eloop) as [Hfit _].
  split; [exact Hfit |]. intros F C.
  rewrite prepare_data_for_modeling_run.
  destruct (engineer_legal_features F) as [[d1 | e] d'].
  - assert (Forall (fun c => is_Some (encoders (platform (mkTrainState (platform s') d' C))
                                        !! c)) categorical_cols) as Hsome.
    { eapply List.Forall_impl; [| exact Hfit].
      intros c (e & st & He & _). cbn [platform]. now exists e. }
    destruct (encode_columns_reuse _ _ Hsome) as (Hp & evs & Hc & Hevs).
    destruct (for_each categorical_cols encode_column (mkTrainState (platform s') d' C))
      as [[us' | e] s2]; cbn [snd platform calls] in *; eauto.
  - cbn [snd platform calls]. split; [reflexivity |]. exists []. now rewrite app_nil_r.
Qed.

Lemma engineer_legal_features_keeps_column (F d s : DataFrame) c :
  engineer_legal_features F = (Return d, s) ->
  ~ In c engineered_columns -> getitem s c = getitem F c.
Proof.
  intros Hrun Hc.
  pose proof (keeps_engineer_legal_features F F (conj eq_refl (fun _ _ => eq_refl)))
    as Hkeep.
  unfold wpe in Hkeep. rewrite Hrun in Hkeep. destruct Hkeep as [_ Hcols].
  now apply Hcols.
Qed.

(** X11. A failed first call spoils the platform.  The encoder of a column
    is stored before it is fitted: when the frame has the twelve inputs as
    float64 columns but no 'practice_area', [prepare_data_for_modeling]
    raises KeyError and
    leaves an unfitted LabelEncoder under 'practice_area'; on that
    platform every later call takes the stored encoder and, on a frame
    that has the column, raises NotFittedError at [transform]. *)
Theorem prepare_data_for_modeling_unfitted_encoder `{Sklearn}
    (P : LegalOperationsPlatform) (F : DataFrame) (C : list event) :
  float_columns engineer_inputs F ->
  encoders P !! "practice_area" = None ->
  getitem F "practice_area" = Raise (KeyError "practice_area") ->
  let P' := set_encoder "practice_area" (mkEstimator LabelEncoder [] None) P in
  exists F1,
    prepare_data_for_modeling (mkTrainState P F C)
    = (Raise (KeyError "practice_area"),
       mkTrainState P' F1 (C ++ [Construct LabelEncoder])) /\
    forall (F' : DataFrame) (C' : list event) (v : column),
      float_columns engineer_inputs F' ->
      getitem F' "practice_area" = Return v ->
      fst (prepare_data_for_modeling (mkTrainState P' F' C'))
      = Raise (LibraryError "sklearn" "NotFittedError").
Proof.
  intros Hnum Hnone Hmiss P'. apply float_columns_numeric in Hnum.
  destruct (engineer_legal_features_numeric F Hnum) as [F1 Hrun].
  exists F1. split.
  - rewrite prepare_data_for_modeling_run, Hrun.
    unfold categorical_cols. rewrite for_each_cons.
    rewrite (encode_column_missing "practice_area" P F1 C Hnone); [reflexivity |].
    rewrite (engineer_legal_features_keeps_column F F1 F1 "practice_area" Hrun);
      [exact Hmiss |].
    cbn [In engineered_columns]. intuition discriminate.
  - intros F' C' v Hnum' Hcol. apply float_columns_numeric in Hnum'.
    destruct (engineer_legal_features_numeric F' Hnum') as [F2 Hrun'].
    rewrite prepare_data_for_modeling_run, Hrun'.
    unfold categorical_cols. rewrite for_each_cons, encode_column_run.
    unfold P' at 1. cbn [set_encoder encoders]. rewrite lookup_insert_eq.
    rewrite (engineer_legal_features_keeps_column F' F2 F2 "practice_area" Hrun');
      [| cbn [In engineered_columns]; intuition discriminate].
    rewrite Hcol. reflexivity.
Qed.

Section StoredModels.
Context `{Sklearn}.

Lemma quiet_not_fit q c : forallb quiet q = true -> ~ In (fit_returned c) q.
Proof.
  intros Hq Hin. rewrite forallb_forall in Hq. apply Hq in Hin.
  destruct c; discriminate.
Qed.

Lemma stored_after_preprocessing s0 P1 F1 C1 P L key c ps :
  preprocessed s0 (mkTrainState P1 F1 C1) ->
  (In (fit_returned c) L -> stored P key c ps) ->
  (~ In (fit_returned c) L -> models P !! key = models P1 !! key) ->
  forall q, forallb quiet q = true ->
  stored_when_fitted (platform s0) P (q ++ L) key c ps.
Proof.
  intros (_ & Hm & _) Hin Hout q Hq. cbn [platform] in Hm. split.
  - intros [Hq' | HL]%in_app_or; [now apply quiet_not_fit in Hq' | auto].
  - intros Hn. rewrite <- Hm. apply Hout. intros HL. apply Hn, in_or_app. auto.
Qed.

Lemma models_exit s0 P1 F1 C1 P F L :
  preprocessed s0 (mkTrainState P1 F1 C1) ->
  (In (fit_returned RandomForestClassifier) L ->
   stored P "outcome_predictor" RandomForestClassifier
     [("n_estimators", 500); ("max_depth", 12); ("random_state", 42); ("n_jobs", -1)]%Q) ->
  (~ In (fit_returned RandomForestClassifier) L ->
   models P !! "outcome_predictor" = models P1 !! "outcome_predictor") ->
  (In (fit_returned GradientBoostingRegressor) L ->
   stored P "hours_predictor" GradientBoostingRegressor
     [("n_estimators", 500); ("learning_rate", 1 # 10); ("max_depth", 8);
      ("random_state", 42)]%Q) ->
  (~ In (fit_returned GradientBoostingRegressor) L ->
   models P !! "hours_predictor" = models P1 !! "hours_predictor") ->
  models_summary s0 (mkTrainState P F (C1 ++ L)).
Proof.
  intros Hpre H1 H2 H3 H4.
  pose proof Hpre as (_ & _ & q & Hc & Hq). cbn [calls] in Hc.
  exists (q ++ L)%list. cbn [calls platform]. split; [now rewrite Hc, app_assoc |].
  split; eapply stored_after_preprocessing; eauto.
Qed.

Lemma models_failed_preprocessing s e s' :
  preprocessing_failed s e s' -> models_summary s s'.
Proof.
  intros (_ & Hm & q & Hq & Hc).
  assert (exists evs, calls s' = (calls s ++ evs)%list /\
                      forall c, ~ In (fit_returned c) evs) as (evs & Hcalls & Hno).
  { destruct Hc as [[Hc _] | (f & Hf & Hc)].
    - exists q. split; [exact Hc |]. intros c. now apply quiet_not_fit.
    - exists (q ++ [Call f (Some e)])%list. split; [exact Hc |].
      intros c [Hin | [Hin | []]]%in_app_or; [now apply quiet_not_fit in Hin |].
      discriminate. }
  exists evs. split; [exact Hcalls |].
  split; (split; [intros Hin; now apply Hno in Hin | intros _; now rewrite Hm]).
Qed.

Ltac in_log :=
  first
    [ intros _; eexists; cbn [models set_model set_scaler set_encoder];
      rewrite ?lookup_insert_ne by done; apply lookup_insert_eq
    | intros Hin; exfalso; cbn [In app] in Hin; unfold fit_returned in Hin;
      intuition discriminate ].

Ltac not_in_log :=
  first
    [ intros _; cbn [models set_model set_scaler set_encoder];
      rewrite ?lookup_insert_ne by done; reflexivity
    | intros Hn; exfalso; apply Hn; cbn [In app]; unfold fit_returned; tauto ].

Ltac exits Hpre :=
  rewrite <- ?app_assoc;
  apply (models_exit _ _ _ _ _ _ _ Hpre); [in_log | not_in_log | in_log | not_in_log].

Ltac stride Hpre :=
  lazymatch goal with
  | |- wpe (match ?x with _ => _ end) _ _ _ => destruct x
  | |- wpe (bind (call _ _) _) _ _ _ =>
      apply wpe_bind, wpe_call; [intros ? _; cbn [app] | intros ? _; exits Hpre]
  | |- wpe (bind (new RandomForestRegressor _) _) _ _ _ =>
      apply wpe_new_unbound; [reflexivity | exits Hpre]
  | |- wpe (bind (new _ _) _) _ _ _ =>
      apply wpe_bind, wpe_new; [reflexivity | cbn [app]]
  | |- wpe (bind (on_self _) _) _ _ _ =>
      apply wpe_bind, wpe_on_self
  | |- wpe (bind _ _) _ _ _ =>
      apply wpe_pure;
      [ first [ apply pure_on_frame_get
              | apply pure_relative_accuracy
              | apply pure_global; reflexivity
              | apply pure_lift, select_local
              | apply pure_lift, getitem_local ]
      | intros ? | intros ? ?; exits Hpre ]
  end.

Lemma train_legal_models_models (s : TrainState) :
  wpe train_legal_models (fun _ _ => False) (fun _ s' => models_summary s s') s.
Proof.
  unfold train_legal_models.
  apply wpe_bind.
  eapply wpe_mono;
    [apply quiet_prepare_data_for_modeling | | intros e s'; apply models_failed_preprocessing].
  cbv beta. intros feature_cols [P1 F1 C1] Hpre.
  rewrite <- (app_nil_r C1).
  repeat stride Hpre.
Qed.

End StoredModels.

(** X12. A failed training still stores what it fitted: in the state
    [train_legal_models] leaves, 'outcome_predictor' holds the fitted
    RandomForestClassifier (500 trees, depth 12, random_state 42) exactly
    when its [fit] returned, and 'hours_predictor' the fitted
    GradientBoostingRegressor exactly when its [fit] returned; otherwise
    the entry is what it was before the call. *)
Theorem train_legal_models_stores_fitted `{Sklearn} (s : TrainState) :
  exists evs,
    calls (snd (train_legal_models s)) = (calls s ++ evs)%list /\
    (In (Call (Method RandomForestClassifier "fit") None) evs ->
     exists st,
       models (platform (snd (train_legal_models s))) !! "outcome_predictor"
       = Some (mkEstimator RandomForestClassifier
                 [("n_estimators", 500); ("max_depth", 12); ("random_state", 42);
                  ("n_jobs", -1)]%Q (Some st))) /\
    (~ In (Call (Method RandomForestClassifier "fit") None) evs ->
     models (platform (snd (train_legal_models s))) !! "outcome_predictor"
     = models (platform s) !! "outcome_predictor") /\
    (In (Call (Method GradientBoostingRegressor "fit") None) evs ->
     exists st,
       models (platform (snd (train_legal_models s))) !! "hours_predictor"
       = Some (mkEstimator GradientBoostingRegressor
                 [("n_estimators", 500); ("learning_rate", 1 # 10); ("max_depth", 8);
                  ("random_state", 42)]%Q (Some st))) /\
    (~ In (Call (Method GradientBoostingRegressor "fit") None) evs ->
     models (platform (snd (train_legal_models s))) !! "hours_predictor"
     = models (platform s) !! "hours_predictor").
Proof.
  pose proof (train_legal_models_models s) as Hrun. unfold wpe in Hrun.
  destruct (train_legal_models s) as [[a | e] s']; [contradiction |].
  destruct Hrun as (evs & Hcalls & [H1 H2] & [H3 H4]). cbn [snd].
  exists evs. auto.
Qed.

(** ** Training: the calls by class *)

Section Calls.
Context `{Sklearn}.










End Calls.



(** ** Automation ROI: where the investment breaks even *)



(** ** The script [main] *)

(** X14. The script stops at its eleventh statement: whatever the
    generator draws and whatever scikit-learn does, [main] raises
    KeyError('total_hours') when it prints the average of a column that
    [generate_legal_data] does not create ([engineer_legal_features] would).
    By then it has printed the banner, the shape (1000, 22) and the
    average case value; no model is trained and scikit-learn is never
    called. *)
Theorem main_raises_KeyError `{NumpyRandom} `{Sklearn} (p : Process) :
  exists (p' : Process) (average_case_value : float),
    main p = (Raise (KeyError "total_hours"), p') /\
    stdout p'
    = (stdout p ++
       [ [Lit (str_mul "=" 80)];
         [Lit "Enterprise Legal Operations Intelligence Platform"];
         [Lit "Advanced NLP and Automation for Legal Workflow Optimization"];
         [Lit "Author: Emilio Cardenas"];
         [Lit (str_mul "=" 80)];
         [Lit (String.append nl "Generating legal case and document data...")];
         [Lit "Dataset shape: "; Fmt (PShape 1000 22) ""];
         [Lit "Average case value: $";
          Fmt (PFloat (fdiv average_case_value (Fin 1000000))) ".2f"; Lit "M"] ])%list /\
    sklearn_calls p' = sklearn_calls p /\
    self (world p') = init.
Proof.
  destruct (wp_returns _ _ _
              (generate_legal_data_frame 1000 (mkWorld (np_random (world p)) init)
                 ltac:(lia)))
    as (df & w' & Hrun & (x & -> & Hok) & Hself).
  eexists _, (Series_mean (map Fin (drawn_case_value x))).
  unfold main.
  unfold bind at 1, print at 1, modify.
  unfold bind at 1, print at 1, modify.
  unfold bind at 1, print at 1, modify.
  unfold bind at 1, print at 1, modify.
  unfold bind at 1, print at 1, modify.
  unfold bind at 1, in_world at 1, zoom, modify.
  unfold bind at 1, print at 1, modify.
  unfold bind at 1, in_world at 1, zoom. cbn [world stdout sklearn_calls].
  rewrite Hrun.
  unfold bind at 1, print at 1, modify. cbn [world stdout sklearn_calls].
  unfold bind at 1, column_mean at 1, bind at 1, lift at 1.
  change (getnum (legal_frame 1000 x) "case_value")
    with (Return (A := list float) (map Fin (drawn_case_value x))).
  cbv iota beta. unfold ret at 1.
  unfold bind at 1, print at 1, modify. cbn [world stdout sklearn_calls].
  unfold bind at 1, column_mean at 1, bind at 1, lift at 1.
  change (getnum (legal_frame 1000 x) "total_hours")
    with (Raise (A := list float) (KeyError "total_hours")).
  cbv iota beta.
  split; [reflexivity |]. cbn [stdout sklearn_calls world].
  split; [| split; [reflexivity | exact Hself]].
  rewrite <- !app_assoc. reflexivity.
Qed.

(** ** The contract table, row by row *)

Section Contracts.
Context `{NumpyRandom}.

Ltac app_draw :=
  apply wp_bind; eapply wp_mono;
  [ first [ apply wp_app_choice; [assumption | discriminate]
          | eapply wp_app_choice_p; [assumption | discriminate | reflexivity]
          | apply wp_app_samples; assumption ]
  | let l := fresh "l" in
    let w := fresh "w" in
    let Hlen := fresh "Hlen" in
    let Hall := fresh "Hall" in
    let Hclock := fresh "Hclock" in
    intros l w [[Hlen Hall] Hclock] ].

Lemma generate_contracts_data_frame n (w : AppWorld) :
  1 <= n ->
  wp (generate_contracts_data n)
    (fun df w' =>
       (exists contract_type counterparty start_date contract_value duration_months
               risk performance compliance_issues auto_renewal,
          df = contracts_frame n (clock w) contract_type counterparty start_date
                 contract_value duration_months risk performance compliance_issues
                 auto_renewal /\
          length start_date = Z.to_nat n /\
          length duration_months = Z.to_nat n /\
          Forall (fun t => Timestamp 2019 1 1 <= t <= Timestamp 2024 6 30) start_date /\
          Forall (fun m => In m [12; 24; 36; 60]) duration_months) /\
       clock w' = clock w) w.
Proof.
  intros Hn. assert (0 <= n) as Hn0 by lia.
  unfold generate_contracts_data. cbv zeta.
  apply wp_bind. unfold rng at 1, np_random_seed. apply wpe_zoom, wpe_put.
  do 2 app_draw.
  destruct (date_range_returns (Timestamp 2019 1 1) (Timestamp 2024 6 30) n Hn0
              ltac:(vm_compute; discriminate)) as (start & Hstart & Hlen_start & Hall_start).
  apply wp_bind. apply (wp_lift _ _ _ start Hstart).
  do 2 app_draw.
  apply wp_bind. eapply wp_lift.
  { apply (DataFrame_of_dict_distinct _ (Z.to_nat n)); [discriminate | |].
    - cbn [map fst].
      repeat (apply List.NoDup_cons; [cbn [In]; intuition discriminate |]).
      apply List.NoDup_nil.
    - repeat constructor; cbn [snd col_len]; rewrite ?length_map; try assumption.
      rewrite length_range. f_equal. lia. }
  do 3 frame_step (Z.to_nat n).
  app_draw. frame_step (Z.to_nat n).
  app_draw. frame_step (Z.to_nat n).
  unfold Timestamp_now. apply wp_bind, wp_bind, wpe_get, wp_ret.
  do 8 frame_step (Z.to_nat n).
  apply wp_bind. destruct (Nat.eqb_spec (Z.to_nat n) 0) as [Hzero | _]; [lia |].
  apply wp_ret.
  do 4 frame_step (Z.to_nat n).
  app_draw. frame_step (Z.to_nat n).
  app_draw. frame_step (Z.to_nat n).
  apply wp_ret. cbn [clock] in *. split; [| congruence].
  exists l, l0, start, l1, l2, l3, l4, l5, l6.
  split; [| repeat split; assumption].
  unfold contracts_frame. cbv zeta.
  set (ends := zip_with (fun s m => s + m * 30 * day_ns) start l2).
  assert (zip_with (fun (e : Z) (s : pyobj) => if e <? clock w5 then PStr "Expired" else s)
            ends (repeat (PStr "Active") (Z.to_nat n))
          = map (contract_status (clock w)) ends) as ->.
  { replace (Z.to_nat n) with (length ends)
      by (now apply length_zip_with_lists).
    rewrite zip_with_repeat. replace (clock w5) with (clock w) by congruence.
    reflexivity. }
  rewrite !map_map. replace (clock w5) with (clock w) by congruence.
  match goal with
  | |- context [Object (map ?f ends)] =>
      lazymatch f with
      | contract_status _ => fail
      | _ =>
          replace (map f ends) with (map (contract_renewal (clock w)) ends)
            by (apply map_ext; intros e; unfold contract_renewal;
                now destruct (e - clock w <? 90 * day_ns))
      end
  end.
  reflexivity.
Qed.

End Contracts.

Lemma loc_at_col df c col (i : nat) v :
  getitem df c = Return col -> col_at col i = Some v ->
  loc_at df (Z.of_nat i) c = Return v.
Proof.
  intros Hc Hv. unfold loc_at. rewrite Hc.
  destruct (Z.ltb_spec (Z.of_nat i) 0) as [Hneg | _]; [lia |].
  now rewrite Nat2Z.id, Hv.
Qed.

Lemma col_at_Object (l : list pyobj) (i : nat) o :
  l !! i = Some o -> col_at (Object l) i = Some (CObj o).
Proof. intros Hl. cbn [col_at]. now rewrite Hl. Qed.

Lemma col_at_Datetime64 (l : list Z) (i : nat) t :
  l !! i = Some t -> col_at (Datetime64 l) i = Some (CDate t).
Proof. intros Hl. cbn [col_at]. now rewrite Hl. Qed.

Lemma col_at_Int64 (l : list Z) (i : nat) z :
  l !! i = Some z -> col_at (Int64 l) i = Some (CInt z).
Proof. intros Hl. cbn [col_at]. now rewrite Hl. Qed.

Lemma col_at_Float64 (l : list float) (i : nat) x :
  l !! i = Some x -> col_at (Float64 l) i = Some (CFloat x).
Proof. intros Hl. cbn [col_at]. now rewrite Hl. Qed.

(** X17. Row by row, in the frame [generate_contracts_data] returns: the
    contract ends [duration_months] times thirty days after it starts,
    with a duration of 12, 24, 36 or 60 months and a start between
    2019-01-01 and 2024-06-30; it is 'Expired' exactly when it ended before
    the time of the call and 'Active' otherwise; 'renewal_required' holds
    exactly when fewer than ninety days are left.  So every expired
    contract is flagged for renewal. *)
Theorem generate_contracts_data_rows `{NumpyRandom} (n_contracts : Z) (w : AppWorld)
    (i : nat) :
  (i < Z.to_nat n_contracts)%nat ->
  exists df w' (start months ending : Z) (status : string) (renewal : bool),
    generate_contracts_data n_contracts w = (Return df, w') /\
    nrows df = Z.to_nat n_contracts /\
    loc_at df (Z.of_nat i) "start_date" = Return (CDate start) /\
    loc_at df (Z.of_nat i) "duration_months" = Return (CInt months) /\
    loc_at df (Z.of_nat i) "end_date" = Return (CDate ending) /\
    loc_at df (Z.of_nat i) "status" = Return (CObj (PStr status)) /\
    loc_at df (Z.of_nat i) "renewal_required" = Return (CObj (PBool renewal)) /\
    In months [12; 24; 36; 60] /\
    Timestamp 2019 1 1 <= start <= Timestamp 2024 6 30 /\
    ending = start + months * 30 * day_ns /\
    (status = "Expired" <-> ending < clock w) /\
    (status = "Active" <-> clock w <= ending) /\
    (renewal = true <-> ending - clock w < 90 * day_ns) /\
    (status = "Expired" -> renewal = true).
Proof.
  intros Hi. assert (1 <= n_contracts) as Hn by lia.
  destruct (wp_returns _ _ _ (generate_contracts_data_frame n_contracts w Hn))
    as (df & w' & Hrun & (ct & cp & sd & cv & dm & rk & pf & ci & ar & -> & Hlen_sd
                          & Hlen_dm & Hall_sd & Hall_dm) & Hclock).
  destruct (lookup_length sd (Z.to_nat n_contracts) i Hlen_sd Hi) as [s Hs].
  destruct (lookup_length dm (Z.to_nat n_contracts) i Hlen_dm Hi) as [m Hm].
  pose proof (Forall_lookup_Some _ _ _ _ Hall_sd Hs) as Hs_range.
  pose proof (Forall_lookup_Some _ _ _ _ Hall_dm Hm) as Hm_in.
  pose proof (lookup_zip_with_Some (fun s m => s + m * 30 * day_ns) sd dm i s m Hs Hm)
    as Hend.
  exists (contracts_frame n_contracts (clock w) ct cp sd cv dm rk pf ci ar), w', s, m,
    (s + m * 30 * day_ns),
    (if s + m * 30 * day_ns <? clock w then "Expired" else "Active"),
    (s + m * 30 * day_ns - clock w <? 90 * day_ns).
  split; [exact Hrun |]. split; [reflexivity |].
  split; [eapply loc_at_col; [reflexivity | now apply col_at_Datetime64] |].
  split; [eapply loc_at_col; [reflexivity | now apply col_at_Int64] |].
  split; [eapply loc_at_col; [reflexivity | now apply col_at_Datetime64] |].
  split.
  { eapply loc_at_col; [reflexivity |]. apply col_at_Object.
    rewrite (lookup_map (contract_status (clock w)) _ i _ Hend).
    unfold contract_status. now destruct (s + m * 30 * day_ns <? clock w). }
  split.
  { eapply loc_at_col; [reflexivity |]. apply col_at_Object.
    now rewrite (lookup_map (contract_renewal (clock w)) _ i _ Hend). }
  split; [exact Hm_in |]. split; [exact Hs_range |]. split; [reflexivity |].
  assert (0 < day_ns) as Hday by reflexivity.
  destruct (Z.ltb_spec (s + m * 30 * day_ns) (clock w)) as [Hlt | Hge];
    destruct (Z.ltb_spec (s + m * 30 * day_ns - clock w) (90 * day_ns)) as [Hsoon | Hfar];
    repeat split; intros; try discriminate; try lia; try reflexivity.
Qed.

(** X17 at the third of five contracts, seen on 4 November 2026. *)
Lemma generate_contracts_data_rows_witness :
  exists df w' (start months ending : Z) (status : string) (renewal : bool),
    @generate_contracts_data Toy.lcg 5 (@mkAppWorld Toy.lcg 0 (Timestamp 2026 11 4))
    = (Return df, w') /\
    nrows df = Z.to_nat 5 /\
    loc_at df (Z.of_nat 2) "start_date" = Return (CDate start) /\
    loc_at df (Z.of_nat 2) "duration_months" = Return (CInt months) /\
    loc_at df (Z.of_nat 2) "end_date" = Return (CDate ending) /\
    loc_at df (Z.of_nat 2) "status" = Return (CObj (PStr status)) /\
    loc_at df (Z.of_nat 2) "renewal_required" = Return (CObj (PBool renewal)) /\
    In months [12; 24; 36; 60] /\
    Timestamp 2019 1 1 <= start <= Timestamp 2024 6 30 /\
    ending = start + months * 30 * day_ns /\
    (status = "Expired" <-> ending < clock (@mkAppWorld Toy.lcg 0 (Timestamp 2026 11 4))) /\
    (status = "Active" <-> clock (@mkAppWorld Toy.lcg 0 (Timestamp 2026 11 4)) <= ending) /\
    (renewal = true
     <-> ending - clock (@mkAppWorld Toy.lcg 0 (Timestamp 2026 11 4)) < 90 * day_ns) /\
    (status = "Expired" -> renewal = true).
Proof.
  apply (@generate_contracts_data_rows Toy.lcg 5
           (@mkAppWorld Toy.lcg 0 (Timestamp 2026 11 4)) 2).
  simpl. lia.
Defined.

(** X18. [generate_contracts_data] needs at least one contract: for
    [n_contracts >= 1] it returns a frame of that many rows; for 0 it
    raises ValueError, because the masked assignment that creates
    'renewal_required' is given a scalar for a frame without rows; for a
    negative number the first sized draw raises ValueError.  In both
    failures the generator is left reseeded. *)
Theorem generate_contracts_data_domain `{NumpyRandom} (n_contracts : Z) (w : AppWorld) :
  (1 <= n_contracts ->
   exists df w', generate_contracts_data n_contracts w = (Return df, w') /\
                 nrows df = Z.to_nat n_contracts) /\
  (n_contracts = 0 ->
   generate_contracts_data n_contracts w
   = (Raise (ValueError "cannot set a frame with no defined index and a scalar"),
      mkAppWorld (seeded 42) (clock w))) /\
  (n_contracts < 0 ->
   generate_contracts_data n_contracts w
   = (Raise (ValueError "negative dimensions are not allowed"),
      mkAppWorld (seeded 42) (clock w))).
Proof.
  split; [| split].
  - intros Hn.
    destruct (wp_returns _ _ _ (generate_contracts_data_frame n_contracts w Hn))
      as (df & w' & Hrun & (ct & cp & sd & cv & dm & rk & pf & ci & ar & -> & _) & _).
    eexists _, _. split; [exact Hrun | reflexivity].
  - intros ->. reflexivity.
  - intros Hn. unfold generate_contracts_data. cbv zeta.
    unfold bind, rng, zoom, np_random_seed, put, choice, sized.
    cbn [app_random clock]. destruct (Z.ltb_spec n_contracts 0) as [_ | Hge]; [| lia].
    reflexivity.
Qed.

(** ** The vendor table *)

Section Vendors.
Context `{NumpyRandom}.

Lemma wp_app_lognormal n mean sigma (w : AppWorld) :
  0 <= n ->
  wp (rng (sized n (draw (lognormal mean sigma))))
    (fun l w' => (length l = Z.to_nat n /\ Forall (fun q => 0 < q)%Q l) /\
                 clock w' = clock w) w.
Proof.
  intros Hn. apply wp_rng. intros r. apply wp_sized; [exact Hn |].
  intros s. apply wp_draw, lognormal_pos.
Qed.

Ltac app_draw :=
  apply wp_bind; eapply wp_mono;
  [ first [ apply wp_app_choice; [assumption | discriminate]
          | eapply wp_app_choice_p; [assumption | discriminate | reflexivity]
          | apply wp_app_lognormal; assumption
          | apply wp_app_samples; assumption ]
  | let l := fresh "l" in
    let w := fresh "w" in
    let Hlen := fresh "Hlen" in
    let Hall := fresh "Hall" in
    let Hclock := fresh "Hclock" in
    intros l w [[Hlen Hall] Hclock] ].

Lemma generate_vendor_data_frame n (w : AppWorld) :
  0 <= n ->
  wp (generate_vendor_data n)
    (fun df w' =>
       (exists vendor_type annual_spend performance diversity_status contract_start
               payment_terms_days invoice_accuracy response_time_hours,
          df = vendors_frame n vendor_type annual_spend performance diversity_status
                 contract_start payment_terms_days invoice_accuracy response_time_hours /\
          Forall (fun l : list string => length l = Z.to_nat n)
            [vendor_type; diversity_status] /\
          length annual_spend = Z.to_nat n /\
          Forall (fun l : list Z => length l = Z.to_nat n)
            [contract_start; payment_terms_days] /\
          Forall (fun s => In s vendor_types) vendor_type /\
          Forall (fun q => 0 < q)%Q annual_spend /\
          Forall (fun s => In s ["Diverse"; "Non-Diverse"]) diversity_status /\
          Forall (fun t => Timestamp 2019 1 1 <= t <= Timestamp 2023 12 31) contract_start /\
          Forall (fun d => In d [30; 45; 60]) payment_terms_days) /\
       clock w' = clock w) w.
Proof.
  intros Hn.
  unfold generate_vendor_data. cbv zeta.
  apply wp_bind. unfold rng at 1, np_random_seed. apply wpe_zoom, wpe_put.
  do 4 app_draw.
  destruct (date_range_returns (Timestamp 2019 1 1) (Timestamp 2023 12 31) n Hn
              ltac:(vm_compute; discriminate)) as (start & Hstart & Hlen_start & Hall_start).
  apply wp_bind. apply (wp_lift _ _ _ start Hstart).
  do 3 app_draw.
  apply wp_bind. eapply wp_lift.
  { apply (DataFrame_of_dict_distinct _ (Z.to_nat n)); [discriminate | |].
    - cbn [map fst].
      repeat (apply List.NoDup_cons; [cbn [In]; intuition discriminate |]).
      apply List.NoDup_nil.
    - repeat constructor; cbn [snd col_len]; rewrite ?length_map; try assumption;
        rewrite length_range; f_equal; lia. }
  apply wp_ret. cbn [clock] in *. split; [| congruence].
  exists l, l0, l1, l2, start, l3, l4, l5.
  split; [reflexivity |]. repeat split; repeat constructor; assumption.
Qed.

End Vendors.

(** X20. [generate_vendor_data(n_vendors)] returns for every [n_vendors >=
    0] a frame of that many rows.  Row [i] has the identifier 'VENDOR-'
    followed by [i] on three digits and the name 'Vendor_' followed by
    [i + 1]: the identifiers count from 0 and the names from 1.  Its type
    is one of the eight vendor types, its spend positive, its diversity
    status 'Diverse' or 'Non-Diverse', its contract start between
    2019-01-01 and 2023-12-31 and its payment terms 30, 45 or 60 days. *)
Theorem generate_vendor_data_rows `{NumpyRandom} (n_vendors : Z) (w : AppWorld) (i : nat) :
  (i < Z.to_nat n_vendors)%nat ->
  exists df w' (vendor_type diversity : string) (spend : Q) (contract_start terms : Z),
    generate_vendor_data n_vendors w = (Return df, w') /\
    nrows df = Z.to_nat n_vendors /\
    loc_at df (Z.of_nat i) "vendor_id"
    = Return (CObj (PStr (String.append "VENDOR-" (zfill 3 (Z.of_nat i))))) /\
    loc_at df (Z.of_nat i) "vendor_name"
    = Return (CObj (PStr (String.append "Vendor_" (str (Z.of_nat i + 1))))) /\
    loc_at df (Z.of_nat i) "vendor_type" = Return (CObj (PStr vendor_type)) /\
    loc_at df (Z.of_nat i) "annual_spend" = Return (CFloat (Fin spend)) /\
    loc_at df (Z.of_nat i) "diversity_status" = Return (CObj (PStr diversity)) /\
    loc_at df (Z.of_nat i) "contract_start" = Return (CDate contract_start) /\
    loc_at df (Z.of_nat i) "payment_terms_days" = Return (CInt terms) /\
    In vendor_type vendor_types /\
    (0 < spend)%Q /\
    In diversity ["Diverse"; "Non-Diverse"] /\
    Timestamp 2019 1 1 <= contract_start <= Timestamp 2023 12 31 /\
    In terms [30; 45; 60].
Proof.
  intros Hi. assert (0 <= n_vendors) as Hn by lia.
  destruct (wp_returns _ _ _ (generate_vendor_data_frame n_vendors w Hn))
    as (df & w' & Hrun & (vt & sp & pf & dv & cs & pt & ia & rt & -> & Hstr & Hlen_sp
                          & Hnum & Hall_vt & Hall_sp & Hall_dv & Hall_cs & Hall_pt) & _).
  repeat match goal with
         | Hf : Forall _ (_ :: _) |- _ => apply Forall_cons in Hf as [? Hf]
         end.
  destruct (lookup_length vt (Z.to_nat n_vendors) i) as [t Ht]; [assumption | exact Hi |].
  destruct (lookup_length sp (Z.to_nat n_vendors) i) as [s Hs]; [assumption | exact Hi |].
  destruct (lookup_length dv (Z.to_nat n_vendors) i) as [d Hd]; [assumption | exact Hi |].
  destruct (lookup_length cs (Z.to_nat n_vendors) i) as [c Hc]; [assumption | exact Hi |].
  destruct (lookup_length pt (Z.to_nat n_vendors) i) as [p Hp]; [assumption | exact Hi |].
  exists (vendors_frame n_vendors vt sp pf dv cs pt ia rt), w', t, d, s, c, p.
  split; [exact Hrun |]. split; [reflexivity |].
  split.
  { eapply loc_at_col; [reflexivity |]. apply col_at_Object.
    apply (lookup_map PStr), (lookup_map (fun i => String.append "VENDOR-" (zfill 3 i))).
    rewrite range_lookup by lia. f_equal. }
  split.
  { eapply loc_at_col; [reflexivity |]. apply col_at_Object.
    apply (lookup_map PStr).
    rewrite (lookup_map (fun i => String.append "Vendor_" (str i)) _ i (1 + Z.of_nat i));
      [do 3 f_equal; lia |].
    apply range_lookup. lia. }
  split; [eapply loc_at_col; [reflexivity | now apply col_at_Object, (lookup_map PStr)] |].
  split; [eapply loc_at_col; [reflexivity | now apply col_at_Float64, (lookup_map Fin)] |].
  split; [eapply loc_at_col; [reflexivity | now apply col_at_Object, (lookup_map PStr)] |].
  split; [eapply loc_at_col; [reflexivity | now apply col_at_Datetime64] |].
  split; [eapply loc_at_col; [reflexivity | now apply col_at_Int64] |].
  split; [exact (Forall_lookup_Some _ _ _ _ Hall_vt Ht) |].
  split; [exact (Forall_lookup_Some _ _ _ _ Hall_sp Hs) |].
  split; [exact (Forall_lookup_Some _ _ _ _ Hall_dv Hd) |].
  split; [exact (Forall_lookup_Some _ _ _ _ Hall_cs Hc) |].
  exact (Forall_lookup_Some _ _ _ _ Hall_pt Hp).
Qed.

(** ** The compliance table *)

Lemma Forall2_map_eq {A B C} (f : B -> C) (g : A -> C) (P : B -> Prop)
    (xs : list A) (ys : list B) :
  Forall2 (fun x y => f y = g x /\ P y) xs ys -> map f ys = map g xs /\ Forall P ys.
Proof.
  induction 1 as [| x y xs ys [Hf HP] _ [IHf IHP]]; [split; constructor |].
  split; [simpl; congruence | now constructor].
Qed.

Lemma Forall2_concat_eq {A B C} (f : B -> C) (h : A -> list C) (P : B -> Prop)
    (xs : list A) (yss : list (list B)) :
  Forall2 (fun x ys => map f ys = h x /\ Forall P ys) xs yss ->
  map f (concat yss) = flat_map h xs /\ Forall P (concat yss).
Proof.
  induction 1 as [| x ys xs yss [Hf HP] _ [IHf IHP]]; [split; constructor |].
  simpl. split; [rewrite map_app; congruence | now apply Forall_app].
Qed.

Lemma Forall2_concat_concat_eq {A B C} (f : B -> C) (h : A -> list C) (P : B -> Prop)
    (xs : list A) (ysss : list (list (list B))) :
  Forall2 (fun x yss => map f (concat yss) = h x /\ Forall P (concat yss)) xs ysss ->
  map f (concat (concat ysss)) = flat_map h xs /\ Forall P (concat (concat ysss)).
Proof.
  induction 1 as [| x yss xs ysss [Hf HP] _ [IHf IHP]]; [split; constructor |].
  simpl. rewrite concat_app.
  split; [rewrite map_app; congruence | now apply Forall_app].
Qed.

Section Compliance.
Context `{NumpyRandom}.

Lemma wp_rng_draw {A} (f : RandomState -> A * RandomState) (Q : A -> AppWorld -> Prop)
    (w : AppWorld) :
  (forall a w', Q a w') -> wp (rng (draw f)) Q w.
Proof.
  intros HQ. unfold rng. apply wpe_zoom. apply wp_draw. apply HQ.
Qed.

Lemma generate_compliance_data_frame (w : AppWorld) :
  wp generate_compliance_data
    (fun df _ =>
       exists data : list compliance_record,
         map assessment_of data = assessments /\
         Forall (fun r => In (risk_rating r) ["Low"; "Medium"; "High"]) data /\
         df = mkDataFrame (length data)
                [ ("business_unit", Object (map (fun r => PStr (business_unit r)) data));
                  ("compliance_area", Object (map (fun r => PStr (compliance_area r)) data));
                  ("assessment_date", Datetime64 (map assessment_date data));
                  ("compliance_score", Float64 (map compliance_score data));
                  ("risk_rating", Object (map (fun r => PStr (risk_rating r)) data));
                  ("violations_count", Int64 (map violations_count data));
                  ("training_completion", Float64 (map training_completion data));
                  ("audit_findings", Int64 (map audit_findings data)) ]) w.
Proof.
  unfold generate_compliance_data. cbv zeta.
  apply wp_bind. unfold rng at 1, np_random_seed. apply wpe_zoom, wpe_put.
  apply wp_bind. eapply wp_mono.
  { apply (wp_for_each
             (fun unit (recs : list (list compliance_record)) =>
                map assessment_of (concat recs)
                = flat_map (fun area => map (fun month => (unit, area, month))
                                          (month_ends 2023 2024)) compliance_areas /\
                Forall (fun r => In (risk_rating r) ["Low"; "Medium"; "High"])
                  (concat recs))
             (fun _ => True)); [exact I |].
    intros unit s _ _. eapply wp_mono.
    { apply (wp_for_each
               (fun area (recs : list compliance_record) =>
                  map assessment_of recs
                  = map (fun month => (unit, area, month)) (month_ends 2023 2024) /\
                  Forall (fun r => In (risk_rating r) ["Low"; "Medium"; "High"]) recs)
               (fun _ => True)); [exact I |].
      intros area s0 _ _. eapply wp_mono.
      { apply (wp_for_each
                 (fun month (r : compliance_record) =>
                    assessment_of r = (unit, area, month) /\
                    In (risk_rating r) ["Low"; "Medium"; "High"])
                 (fun _ => True)); [exact I |].
        intros month s1 _ _.
        apply wp_bind, wp_rng_draw. intros score w1.
        apply wp_bind. eapply wp_mono.
        { apply (wp_rng _ (fun x => In x ["Low"; "Medium"; "High"])). intros r.
          eapply wp_choice1_p; [discriminate | reflexivity]. }
        intros rating w2 [Hrating _].
        apply wp_bind, wp_rng_draw. intros violations w3.
        apply wp_bind, wp_rng_draw. intros training w4.
        apply wp_bind, wp_rng_draw. intros findings w5.
        apply wp_ret. repeat split. exact Hrating. }
      cbv beta. intros recs s1 [Hrecs _]. split; [| exact I].
      now apply Forall2_map_eq in Hrecs. }
    cbv beta. intros recss s0 [Hrecss _]. split; [| exact I].
    now apply Forall2_concat_eq in Hrecss. }
  cbv beta. intros data w1 [Hdata _].
  apply Forall2_concat_concat_eq in Hdata as [Hkeys Hratings].
  eapply wp_lift.
  - apply (DataFrame_of_dict_distinct _ (length (concat (concat data))));
      [discriminate | |].
    + cbn [map fst].
      repeat (apply List.NoDup_cons; [cbn [In]; intuition discriminate |]).
      apply List.NoDup_nil.
    + repeat constructor; cbn [snd col_len]; now rewrite length_map.
  - exists (concat (concat data)). split; [exact Hkeys |]. split; [exact Hratings |].
    reflexivity.
Qed.

End Compliance.

Lemma length_assessments : length assessments = 1536%nat.
Proof. vm_compute. reflexivity. Qed.

(** X19. Whatever the generator draws, [generate_compliance_data] returns a
    frame of 1536 rows, one per assessment: the eight business units, for
    each the eight compliance areas, for each the twenty-four month ends
    from 2023-01-31 to 2024-12-31 (29 February in 2024), in the order of
    the nested loops; every risk rating is 'Low', 'Medium' or 'High'. *)
Theorem generate_compliance_data_assessments `{NumpyRandom} (w : AppWorld) :
  exists df w' (ratings : list string),
    generate_compliance_data w = (Return df, w') /\
    nrows df = 1536%nat /\
    length assessments = 1536%nat /\
    getitem df "business_unit"
    = Return (Object (map (fun a => PStr (fst (fst a))) assessments)) /\
    getitem df "compliance_area"
    = Return (Object (map (fun a => PStr (snd (fst a))) assessments)) /\
    getitem df "assessment_date" = Return (Datetime64 (map snd assessments)) /\
    getitem df "risk_rating" = Return (Object (map PStr ratings)) /\
    length ratings = 1536%nat /\
    Forall (fun s => In s ["Low"; "Medium"; "High"]) ratings /\
    length (month_ends 2023 2024) = 24%nat /\
    month_ends 2023 2024 !! 0%nat = Some (Timestamp 2023 1 31) /\
    month_ends 2023 2024 !! 13%nat = Some (Timestamp 2024 2 29) /\
    month_ends 2023 2024 !! 23%nat = Some (Timestamp 2024 12 31).
Proof.
  destruct (wp_returns _ _ _ (generate_compliance_data_frame w))
    as (df & w' & Hrun & data & Hkeys & Hratings & ->).
  assert (length data = 1536%nat) as Hlen.
  { rewrite <- length_assessments, <- Hkeys. now rewrite length_map. }
  exists (mkDataFrame (length data)
            [ ("business_unit", Object (map (fun r => PStr (business_unit r)) data));
              ("compliance_area", Object (map (fun r => PStr (compliance_area r)) data));
              ("assessment_date", Datetime64 (map assessment_date data));
              ("compliance_score", Float64 (map compliance_score data));
              ("risk_rating", Object (map (fun r => PStr (risk_rating r)) data));
              ("violations_count", Int64 (map violations_count data));
              ("training_completion", Float64 (map training_completion data));
              ("audit_findings", Int64 (map audit_findings data)) ]),
    w', (map risk_rating data).
  split; [exact Hrun |]. split; [exact Hlen |]. split; [exact length_assessments |].
  rewrite <- Hkeys, !map_map. unfold assessment_of. cbn [fst snd].
  split; [reflexivity |]. split; [reflexivity |]. split; [reflexivity |].
  split; [reflexivity |]. split; [now rewrite length_map |].
  split; [now apply Forall_map_iff |].
  repeat split; vm_compute; reflexivity.
Qed.

(** ** The case table of the application *)

Lemma Forall2_eq_map {A B} (F : A -> B) (xs : list A) (ys : list B) :
  Forall2 (fun x y => y = F x) xs ys -> ys = map F xs.
Proof. induction 1; simpl; congruence. Qed.

Lemma length_loc_rows {A} (mask : list bool) (l : list A) :
  length mask = length l -> length (loc_rows mask l) = count mask.
Proof.
  revert l. induction mask as [| b mask IH]; intros [| x l] Hlen; try discriminate;
    [reflexivity |].
  injection Hlen as Hlen. destruct b; simpl; unfold count in *; simpl; auto.
Qed.

Lemma In_range lo hi i : In i (range lo hi) -> lo <= i < hi.
Proof.
  unfold range. intros (k & <- & Hk)%in_map_iff. apply in_seq in Hk. lia.
Qed.

Lemma nth_lookup_Some {A} (l : list A) (i : nat) d x : l !! i = Some x -> nth i l d = x.
Proof.
  revert i. induction l as [| y l IH]; intros [| i]; simpl; try discriminate.
  - now intros [= ->].
  - apply IH.
Qed.

Lemma map_seq_zip_with {A B C} (f : A -> B -> C) (a : list A) (b : list B) da db :
  length a = length b ->
  map (fun k => f (nth k a da) (nth k b db)) (seq 0 (length a)) = zip_with f a b.
Proof.
  revert b. induction a as [| x a IH]; intros [| y b] Hb; try discriminate; [reflexivity |].
  injection Hb as Hb. cbn [length seq map zip_with nth]. f_equal.
  rewrite <- seq_shift, map_map. now rewrite <- (IH b Hb).
Qed.

Lemma map_range_zip_with {A B C} (f : A -> B -> C) (a : list A) (b : list B) da db n :
  length a = Z.to_nat n -> length b = Z.to_nat n ->
  map (fun i => f (nth (Z.to_nat i) a da) (nth (Z.to_nat i) b db)) (range 0 n)
  = zip_with f a b.
Proof.
  intros Ha Hb. unfold range. rewrite map_map, Z.sub_0_r, <- Ha.
  rewrite <- (map_seq_zip_with f a b da db) by congruence.
  apply map_ext. intros k. now rewrite Z.add_0_l, !Nat2Z.id.
Qed.

Lemma exposure_step {S} (data : DataFrame) (base : list Q) (risk : list string) n i
    (w : S) :
  getitem data "risk_level" = Return (Object (map PStr risk)) ->
  length base = Z.to_nat n -> length risk = Z.to_nat n ->
  Forall (fun r => In r ["Low"; "Medium"; "High"; "Critical"]) risk ->
  In i (range 0 n) ->
  wp (bind (lift (list_get base i)) (fun b =>
      bind (lift (loc_at data i "risk_level")) (fun r =>
      bind (lift (dict_get [("Low", 5 # 10); ("Medium", 1); ("High", 2);
                            ("Critical", 5)]%Q r)) (fun m =>
      ret (fmul (Fin b) (Fin m))))))
    (fun x w' => x = exposure_of (nth (Z.to_nat i) base 0%Q) (nth (Z.to_nat i) risk "")
                 /\ w' = w) w.
Proof.
  intros Hcol Hbase Hrisk Hlevels Hin. apply In_range in Hin.
  destruct (lookup_length base (Z.to_nat n) (Z.to_nat i) Hbase) as [b Hb]; [lia |].
  destruct (lookup_length risk (Z.to_nat n) (Z.to_nat i) Hrisk) as [r Hr]; [lia |].
  pose proof (Forall_lookup_Some _ _ _ _ Hlevels Hr) as Hlevel.
  rewrite (nth_lookup_Some _ _ _ _ Hb), (nth_lookup_Some _ _ _ _ Hr).
  apply wp_bind. eapply wp_lift.
  { unfold list_get. destruct (Z.ltb_spec i 0); [lia |]. now rewrite Hb. }
  apply wp_bind. eapply wp_lift.
  { unfold loc_at. rewrite Hcol. destruct (Z.ltb_spec i 0); [lia |].
    cbn [col_at]. now rewrite (lookup_map PStr _ _ _ Hr). }
  unfold exposure_of.
  cbn [In] in Hlevel. destruct Hlevel as [<- | [<- | [<- | [<- | []]]]];
    (apply wp_bind; eapply wp_lift; [reflexivity |]; apply wp_ret; split; reflexivity).
Qed.

Section Cases.
Context `{NumpyRandom}.

Lemma wp_uniform lo hi (r : RandomState) :
  (lo <= hi)%Q ->
  wp (uniform lo hi) (fun q _ => lo <= q /\ (lo < hi -> q < hi))%Q r.
Proof.
  intros Hle. unfold uniform. apply wp_bind, wp_draw. apply wp_ret.
  destruct (random_sample_range r) as [H0 H1].
  split; [nra |]. intros Hlt. nra.
Qed.

Lemma wp_app_uniform n lo hi (w : AppWorld) :
  0 <= n -> (lo < hi)%Q ->
  wp (rng (sized n (uniform lo hi)))
    (fun l w' => (length l = Z.to_nat n /\ Forall (fun q => lo <= q /\ q < hi)%Q l) /\
                 clock w' = clock w) w.
Proof.
  intros Hn Hlt. apply wp_rng. intros r. apply wp_sized; [exact Hn |].
  intros s. eapply wp_mono; [apply wp_uniform; lra |].
  cbv beta. intros q _ [Hlo Hhi]. auto.
Qed.

Lemma wp_labelled_randints pre lo hi n (w : AppWorld) :
  lo < hi ->
  wp (labelled_randints pre lo hi n)
    (fun l w' =>
       (length l = Z.to_nat n /\
        Forall (fun s => exists k, s = String.append pre (str k) /\ lo <= k < hi) l) /\
       clock w' = clock w) w.
Proof.
  intros Hlt. unfold labelled_randints. eapply wp_mono.
  - apply (wp_for_each
             (fun (_ : Z) s => exists k, s = String.append pre (str k) /\ lo <= k < hi)
             (fun w' => clock w' = clock w)); [reflexivity |].
    intros i s _ Hs. apply wp_bind. unfold rng. apply wpe_zoom. apply wp_draw.
    apply wp_ret. split; [| exact Hs].
    eexists. split; [reflexivity |]. now apply randint_range.
  - cbv beta. intros l w' [Hall Hclock]. split; [| exact Hclock].
    apply Forall2_const_r in Hall as [Hlen Hall].
    split; [| exact Hall]. rewrite Hlen, length_range. f_equal. lia.
Qed.

Ltac app_draw :=
  apply wp_bind; eapply wp_mono;
  [ first [ apply wp_app_choice; [assumption | discriminate]
          | eapply wp_app_choice_p; [assumption | discriminate | reflexivity]
          | apply wp_app_lognormal; assumption
          | apply wp_app_uniform; [assumption | reflexivity]
          | apply wp_labelled_randints; reflexivity
          | apply wp_app_samples; assumption ]
  | let l := fresh "l" in
    let w := fresh "w" in
    let Hlen := fresh "Hlen" in
    let Hall := fresh "Hall" in
    let Hclock := fresh "Hclock" in
    intros l w [[Hlen Hall] Hclock] ].

Lemma generate_legal_cases_data_frame n (w : AppWorld) :
  0 <= n ->
  wp (generate_legal_cases_data n)
    (fun df w' => (exists x, df = legal_cases_frame n x /\ case_samples_ok n x) /\
                  clock w' = clock w) w.
Proof.
  intros Hn.
  unfold generate_legal_cases_data. cbv zeta.
  apply wp_bind. unfold rng at 1, np_random_seed. apply wpe_zoom, wpe_put.
  do 4 app_draw.
  destruct (date_range_returns (Timestamp 2020 1 1) (Timestamp 2024 12 31) n Hn
              ltac:(vm_compute; discriminate)) as (filed & Hfiled & Hlen_filed & Hall_filed).
  apply wp_bind. apply (wp_lift _ _ _ filed Hfiled).
  do 3 app_draw.
  apply wp_bind. eapply wp_lift.
  { apply (DataFrame_of_dict_distinct _ (Z.to_nat n)); [discriminate | |].
    - cbn [map fst].
      repeat (apply List.NoDup_cons; [cbn [In]; intuition discriminate |]).
      apply List.NoDup_nil.
    - repeat constructor; cbn [snd col_len]; rewrite ?length_map; try assumption;
        rewrite length_range; f_equal; lia. }
  app_draw.
  apply wp_bind. eapply wp_mono.
  { apply (wp_for_each
             (fun i x => x = exposure_of (nth (Z.to_nat i) l6 0%Q) (nth (Z.to_nat i) l2 ""))
             (fun w' => w' = w7)); [reflexivity |].
    intros i s Hin ->.
    eapply wp_mono; [eapply (exposure_step _ l6 l2 n i w7); try eassumption; reflexivity |].
    cbv beta. tauto. }
  cbv beta. intros exposure w8 [Hexp ->].
  apply Forall2_eq_map in Hexp.
  rewrite (map_range_zip_with exposure_of l6 l2 0%Q "" n Hlen6 Hlen2) in Hexp. subst exposure.
  do 2 frame_step (Z.to_nat n).
  app_draw. do 3 frame_step (Z.to_nat n).
  app_draw. do 4 frame_step (Z.to_nat n).
  set (closed := map (eq_str "Closed") (map PStr l1)).
  apply wp_bind. eapply wp_mono;
    [eapply wp_app_choice_p; [lia | discriminate | reflexivity] |].
  intros outcomes w10 [[Hlen_out Hall_out] Hclock_out]. rewrite Nat2Z.id in Hlen_out.
  apply wp_bind. eapply wp_lift.
  { unfold loc_new. rewrite length_map, Hlen_out, Nat.eqb_refl. reflexivity. }
  assert (length closed = Z.to_nat n) as Hlen_closed
    by (unfold closed; now rewrite !length_map).
  apply wp_bind. eapply wp_lift.
  { apply setitem_fits. cbn [col_len nrows]. now rewrite length_scatter. }
  cbn [nrows columns assoc_set String.eqb Ascii.eqb Bool.eqb].
  do 3 frame_step (Z.to_nat n).
  set (outcome := scatter PNaN closed (map PStr outcomes)).
  set (settled := map (eq_str "Settled") outcome).
  assert (length settled = Z.to_nat n) as Hlen_settled
    by (unfold settled, outcome; now rewrite length_map, length_scatter).
  apply wp_bind. eapply wp_mono;
    [apply wp_app_uniform; [lia | reflexivity] |].
  intros shares w11 [[Hlen_sh Hall_sh] Hclock_sh]. rewrite Nat2Z.id in Hlen_sh.
  apply wp_bind. eapply wp_lift.
  { apply elementwise_fits. rewrite length_loc_rows, length_map; [congruence |].
    rewrite Hlen_settled. symmetry. len (Z.to_nat n). }
  apply wp_bind. eapply wp_lift.
  { unfold loc_new. rewrite length_zip_with_same, length_loc_rows, Nat.eqb_refl;
      [reflexivity | | rewrite length_loc_rows, length_map; [congruence |]];
      rewrite Hlen_settled; symmetry; len (Z.to_nat n). }
  apply wp_bind. eapply wp_lift.
  { apply setitem_fits. cbn [col_len nrows]. now rewrite length_scatter. }
  cbn [nrows columns assoc_set String.eqb Ascii.eqb Bool.eqb].
  apply wp_ret. cbn [clock] in *. split; [| congruence].
  exists (mkCaseSamples l l0 l1 l2 filed l3 l4 l5 l6 l7 l8 outcomes shares).
  split; [reflexivity |].
  unfold case_samples_ok.
  cbn [case_practice_area case_case_type case_status case_risk_level case_filing_date
       case_assigned_attorney case_client case_opposing_counsel case_base_value
       case_fee_share case_cost_factor case_outcome_drawn case_settlement_share].
  repeat split; repeat constructor; assumption.
Qed.

End Cases.

Lemma zip_with_nil_r {A B C} (f : A -> B -> C) (a : list A) : zip_with f a [] = [].
Proof. now destruct a. Qed.

Lemma loc_rows_nil {A} (mask : list bool) : loc_rows mask (@nil A) = [].
Proof. now destruct mask as [| [] mask]. Qed.

(** An entry of a column assigned under a mask is the fill value or comes
    from the row it stands in. *)
Lemma scatter_shares (mask : list bool) (l : list float) (us : list Q) (i : nat) x :
  scatter NaN mask (zip_with fmul (loc_rows mask l) (map Fin us)) !! i = Some x ->
  x = NaN \/ exists y u, l !! i = Some y /\ In u us /\ x = fmul y (Fin u).
Proof.
  revert l us i. induction mask as [| b mask IH]; intros l us i; [discriminate |].
  destruct l as [| y l].
  - rewrite loc_rows_nil. cbn [zip_with]. intros Hx.
    assert (forall (m : list bool) (j : nat), scatter NaN m [] !! j = Some x -> x = NaN)
      as Hfill.
    { clear. induction m as [| [] m IHm]; intros [| j]; cbn; try discriminate;
        try (intros [= <-]; reflexivity); apply IHm. }
    left. now apply (Hfill (b :: mask) i).
  - destruct b.
    + cbn [loc_rows]. destruct us as [| u us].
      * cbn [map]. rewrite zip_with_nil_r. cbn [scatter].
        destruct i as [| i]; [intros [= <-]; auto |].
        cbn [lookup list_lookup]. intros Hx.
        destruct (IH l [] i) as [-> | (y' & u' & _ & [] & _)]; auto.
        cbn [map]. now rewrite zip_with_nil_r.
      * cbn [map zip_with scatter].
        destruct i as [| i]; [intros [= <-]; right; exists y, u; cbn; auto |].
        cbn [lookup list_lookup]. intros Hx.
        destruct (IH l us i Hx) as [-> | (y' & u' & Hy & Hu & ->)];
          [auto | right; exists y', u'; cbn; auto].
    + cbn [loc_rows scatter]. destruct i as [| i]; [intros [= <-]; auto |].
      cbn [lookup list_lookup]. intros Hx.
      destruct (IH l us i Hx) as [-> | (y' & u' & Hy & Hu & ->)];
        [auto | right; exists y', u'; auto].
Qed.

Lemma risk_multiplier_pos level : (0 < risk_multiplier level)%Q.
Proof.
  unfold risk_multiplier.
  destruct (String.eqb level "Low"); [reflexivity |].
  destruct (String.eqb level "Medium"); [reflexivity |].
  destruct (String.eqb level "High"); reflexivity.
Qed.

Ltac split_cases Hok :=
  destruct Hok as (Hstr & Hlen_filed & Hnum & Hall_risk & Hall_filed & Hall_att & Hall_cli
                   & Hall_opp & Hall_base & Hall_fee & Hall_cost & Hall_share);
  repeat match goal with
         | Hf : Forall _ (_ :: _) |- _ => apply Forall_cons in Hf as [? Hf]
         end;
  clear Hstr Hnum.

(** X15. Every case [generate_legal_cases_data] generates is identified and
    staffed: for [n_cases >= 0] the call returns [n_cases] rows, and row
    [i] has the identifier 'CASE-' followed by [i] on four digits, the
    name 'Legal Matter' [i + 1], a filing date between 2020-01-01 and
    2024-12-31, an attorney Attorney_1 to Attorney_24, a client Client_1 to
    Client_49 and an opposing firm Opposing_Firm_1 to Opposing_Firm_29: the
    upper bounds of [randint] are never drawn. *)
Theorem generate_legal_cases_data_identity `{NumpyRandom} (n_cases : Z) (w : AppWorld)
    (i : nat) :
  (i < Z.to_nat n_cases)%nat ->
  exists df w' (filed attorney client firm : Z),
    generate_legal_cases_data n_cases w = (Return df, w') /\
    nrows df = Z.to_nat n_cases /\
    loc_at df (Z.of_nat i) "case_id"
    = Return (CObj (PStr (String.append "CASE-" (zfill 4 (Z.of_nat i))))) /\
    loc_at df (Z.of_nat i) "case_name"
    = Return (CObj (PStr (String.append "Legal Matter " (str (Z.of_nat i + 1))))) /\
    loc_at df (Z.of_nat i) "filing_date" = Return (CDate filed) /\
    Timestamp 2020 1 1 <= filed <= Timestamp 2024 12 31 /\
    loc_at df (Z.of_nat i) "assigned_attorney"
    = Return (CObj (PStr (String.append "Attorney_" (str attorney)))) /\
    1 <= attorney <= 24 /\
    loc_at df (Z.of_nat i) "client"
    = Return (CObj (PStr (String.append "Client_" (str client)))) /\
    1 <= client <= 49 /\
    loc_at df (Z.of_nat i) "opposing_counsel"
    = Return (CObj (PStr (String.append "Opposing_Firm_" (str firm)))) /\
    1 <= firm <= 29.
Proof.
  intros Hi. assert (0 <= n_cases) as Hn by lia.
  destruct (wp_returns _ _ _ (generate_legal_cases_data_frame n_cases w Hn))
    as (df & w' & Hrun & (x & -> & Hok) & _).
  split_cases Hok.
  destruct (lookup_length (case_filing_date x) _ i Hlen_filed Hi) as [t Ht].
  destruct (lookup_length (case_assigned_attorney x) (Z.to_nat n_cases) i)
    as [a Ha]; [assumption | exact Hi |].
  destruct (lookup_length (case_client x) (Z.to_nat n_cases) i)
    as [c Hc]; [assumption | exact Hi |].
  destruct (lookup_length (case_opposing_counsel x) (Z.to_nat n_cases) i)
    as [o Ho]; [assumption | exact Hi |].
  destruct (Forall_lookup_Some _ _ _ _ Hall_att Ha) as (ka & -> & Hka).
  destruct (Forall_lookup_Some _ _ _ _ Hall_cli Hc) as (kc & -> & Hkc).
  destruct (Forall_lookup_Some _ _ _ _ Hall_opp Ho) as (ko & -> & Hko).
  exists (legal_cases_frame n_cases x), w', t, ka, kc, ko.
  split; [exact Hrun |]. split; [reflexivity |].
  split.
  { eapply loc_at_col; [reflexivity |]. apply col_at_Object.
    apply (lookup_map PStr), (lookup_map (fun i => String.append "CASE-" (zfill 4 i))).
    rewrite range_lookup by lia. f_equal. }
  split.
  { eapply loc_at_col; [reflexivity |]. apply col_at_Object.
    apply (lookup_map PStr).
    rewrite (lookup_map (fun i => String.append "Legal Matter " (str (i + 1))) _ i
               (0 + Z.of_nat i)); [reflexivity |].
    apply range_lookup. lia. }
  split; [eapply loc_at_col; [reflexivity | now apply col_at_Datetime64] |].
  split; [exact (Forall_lookup_Some _ _ _ _ Hall_filed Ht) |].
  split; [eapply loc_at_col; [reflexivity | now apply col_at_Object, (lookup_map PStr)] |].
  split; [lia |].
  split; [eapply loc_at_col; [reflexivity | now apply col_at_Object, (lookup_map PStr)] |].
  split; [lia |].
  split; [eapply loc_at_col; [reflexivity | now apply col_at_Object, (lookup_map PStr)] |].
  lia.
Qed.

(** X16. The money columns of a generated case are consistent: its
    potential exposure is positive (the log-normal sample times 0.5, 1, 2
    or 5 by risk level); the legal fees spent are at least 5 percent and
    less than 25 percent of the exposure; the estimated total cost is at
    least 1.2 times and less than 3 times the fees; and a settlement
    amount, where there is one, is at least 10 percent and less than 80
    percent of the exposure. *)
Theorem generate_legal_cases_data_money `{NumpyRandom} (n_cases : Z) (w : AppWorld)
    (i : nat) :
  (i < Z.to_nat n_cases)%nat ->
  exists df w' (level : string) (settlement : float) (exposure fees cost : Q),
    generate_legal_cases_data n_cases w = (Return df, w') /\
    loc_at df (Z.of_nat i) "risk_level" = Return (CObj (PStr level)) /\
    In level ["Low"; "Medium"; "High"; "Critical"] /\
    loc_at df (Z.of_nat i) "potential_exposure" = Return (CFloat (Fin exposure)) /\
    loc_at df (Z.of_nat i) "legal_fees_spent" = Return (CFloat (Fin fees)) /\
    loc_at df (Z.of_nat i) "estimated_total_cost" = Return (CFloat (Fin cost)) /\
    loc_at df (Z.of_nat i) "settlement_amount" = Return (CFloat settlement) /\
    (0 < exposure)%Q /\
    ((5 # 100) * exposure <= fees)%Q /\ (fees < (25 # 100) * exposure)%Q /\
    ((12 # 10) * fees <= cost)%Q /\ (cost < 3 * fees)%Q /\
    (settlement = NaN \/
     exists amount, settlement = Fin amount /\
                    ((1 # 10) * exposure <= amount)%Q /\ (amount < (8 # 10) * exposure)%Q).
Proof.
  intros Hi. assert (0 <= n_cases) as Hn by lia.
  destruct (wp_returns _ _ _ (generate_legal_cases_data_frame n_cases w Hn))
    as (df & w' & Hrun & (x & -> & Hok) & _).
  split_cases Hok.
  destruct (lookup_length (case_risk_level x) (Z.to_nat n_cases) i)
    as [r Hr]; [assumption | exact Hi |].
  destruct (lookup_length (case_base_value x) (Z.to_nat n_cases) i)
    as [b Hb]; [assumption | exact Hi |].
  destruct (lookup_length (case_fee_share x) (Z.to_nat n_cases) i)
    as [f Hf]; [assumption | exact Hi |].
  destruct (lookup_length (case_cost_factor x) (Z.to_nat n_cases) i)
    as [c Hc]; [assumption | exact Hi |].
  pose proof (Forall_lookup_Some _ _ _ _ Hall_risk Hr) as Hlevel.
  pose proof (Forall_lookup_Some _ _ _ _ Hall_base Hb) as Hb_pos.
  pose proof (Forall_lookup_Some _ _ _ _ Hall_fee Hf) as [Hf_lo Hf_hi].
  pose proof (Forall_lookup_Some _ _ _ _ Hall_cost Hc) as [Hc_lo Hc_hi].
  pose proof (risk_multiplier_pos r) as Hm_pos. cbv beta in *.
  set (e := (b * risk_multiplier r)%Q).
  assert (0 < e)%Q as He by (unfold e; nra).
  pose proof (lookup_zip_with_Some exposure_of _ _ i _ _ Hb Hr) as Fexp.
  change (exposure_of b r) with (Fin e) in Fexp.
  pose proof (lookup_zip_with_Some fmul _ _ i _ _ Fexp (lookup_map Fin _ i _ Hf)) as Ffee.
  pose proof (lookup_zip_with_Some fmul _ _ i _ _ Ffee (lookup_map Fin _ i _ Hc)) as Fcost.
  cbn [fmul] in Ffee, Fcost.
  set (settled := map (eq_str "Settled")
                    (scatter PNaN (map (eq_str "Closed") (map PStr (case_status x)))
                       (map PStr (case_outcome_drawn x)))).
  assert (length settled = Z.to_nat n_cases) as Hlen_settled.
  { unfold settled. rewrite length_map, length_scatter, !length_map. assumption. }
  destruct (lookup_length
              (scatter NaN settled
                 (zip_with fmul
                    (loc_rows settled
                       (zip_with exposure_of (case_base_value x) (case_risk_level x)))
                    (map Fin (case_settlement_share x))))
              (Z.to_nat n_cases) i) as [s Hs];
    [now rewrite length_scatter | exact Hi |].
  exists (legal_cases_frame n_cases x), w', r, s, e, (e * f)%Q, (e * f * c)%Q.
  split; [exact Hrun |].
  split; [eapply loc_at_col; [reflexivity | now apply col_at_Object, (lookup_map PStr)] |].
  split; [exact Hlevel |].
  split; [eapply loc_at_col; [reflexivity | now apply col_at_Float64] |].
  split; [eapply loc_at_col; [reflexivity | now apply col_at_Float64] |].
  split; [eapply loc_at_col; [reflexivity | now apply col_at_Float64] |].
  split; [eapply loc_at_col; [reflexivity | now apply col_at_Float64] |].
  split; [exact He |].
  assert (0 < e * f)%Q as Hfee_pos by nra.
  split; [nra |]. split; [nra |]. split; [nra |]. split; [nra |].
  destruct (scatter_shares _ _ _ _ _ Hs) as [-> | (y & u & Hy & Hu & ->)]; [now left |].
  right. rewrite Fexp in Hy. injection Hy as <-.
  rewrite Forall_forall in Hall_share.
  destruct (Hall_share u) as [Hu_lo Hu_hi]; [now apply list_elem_of_In |].
  cbv beta in *.
  exists (e * u)%Q. split; [reflexivity |]. split; nra.
Qed.

(** ** The Streamlit application: training *)

Section StreamlitSpec.
Context `{NumpyRandom} `{SklearnFrames}.

Lemma wpe_show a b c Q E (s : Session) :
  Q tt (mkSession (app_world s) (session_state s)
          (page s ++ [mkElement a b [Lit c] [] []]) (library s)) ->
  wpe (show a b c) Q E s.
Proof. intros HQ. unfold show. apply wpe_modify. exact HQ. Qed.

Lemma wpe_widget a b c o d Q E (s : Session) :
  Q tt (mkSession (app_world s) (session_state s)
          (page s ++ [mkElement a b [Lit c] o d]) (library s)) ->
  wpe (widget a b c o d) Q E s.
Proof. intros HQ. unfold widget. apply wpe_modify. exact HQ. Qed.

Lemma wpe_session_set k v Q E (s : Session) :
  Q tt (mkSession (app_world s) (<[k := v]> (session_state s)) (page s) (library s)) ->
  wpe (session_set k v) Q E s.
Proof. intros HQ. unfold session_set. apply wpe_modify. exact HQ. Qed.

Lemma wpe_session_get k Q E (s : Session) :
  (forall v, session_state s !! k = Some v -> Q v s) ->
  (session_state s !! k = None -> E (LibraryError "AttributeError" k) s) ->
  wpe (session_get k) Q E s.
Proof.
  intros HQ HE. unfold session_get. apply wpe_bind, wpe_get.
  destruct (session_state s !! k) as [v |] eqn:Hk.
  - apply wpe_ret. auto.
  - apply wpe_raise. auto.
Qed.

Lemma wpe_session_lacks k Q E (s : Session) :
  Q (match session_state s !! k with Some _ => false | None => true end) s ->
  wpe (session_lacks k) Q E s.
Proof. intros HQ. unfold session_lacks. apply wpe_bind, wpe_get, wpe_ret. exact HQ. Qed.

Lemma wpe_ask {A} f (r : result A) Q E (s : Session) :
  (forall a, r = Return a ->
     Q a (mkSession (app_world s) (session_state s) (page s)
            (library s ++ [Call f None]))) ->
  (forall e, r = Raise e ->
     E e (mkSession (app_world s) (session_state s) (page s)
            (library s ++ [Call f (Some e)]))) ->
  wpe (ask f r) Q E s.
Proof.
  intros HQ HE. unfold ask. apply wpe_bind, wpe_modify.
  destruct r as [a | e]; [apply wpe_ret | apply wpe_raise]; auto.
Qed.

Lemma wpe_construct c ps Q E (s : Session) :
  Q (mkEstimator c ps None)
    (mkSession (app_world s) (session_state s) (page s) (library s ++ [Construct c])) ->
  wpe (construct c ps) Q E s.
Proof. intros HQ. unfold construct. apply wpe_bind, wpe_modify, wpe_ret. exact HQ. Qed.

Lemma wpe_encode_into df c new Q E (s : Session) :
  (forall df' evs,
     nrows df' = nrows df ->
     Q df' (mkSession (app_world s) (session_state s) (page s) (library s ++ evs))) ->
  (forall e evs,
     E e (mkSession (app_world s) (session_state s) (page s) (library s ++ evs))) ->
  wpe (encode_into df c new) Q E s.
Proof.
  intros HQ HE. unfold encode_into.
  apply wpe_bind, wpe_lift.
  2:{ intros e _. specialize (HE e []). rewrite app_nil_r in HE. destruct s; exact HE. }
  intros v _. apply wpe_bind, wpe_ask.
  2:{ intros e _. apply HE. }
  intros r _. apply wpe_lift; [| intros; apply HE].
  intros df' Hset. apply HQ.
  unfold setitem in Hset. destruct (Nat.eqb _ _); [| discriminate].
  injection Hset as <-. reflexivity.
Qed.

Ltac session_step :=
  first
    [ apply wpe_bind
    | apply wpe_show
    | apply wpe_widget
    | apply wpe_session_set
    | apply wpe_construct
    | apply wpe_ret ].

(** X23. [train_models] changes the session all or nothing.  Whenever it
    returns, the sidebar reports success, and the session either is what
    it was, with nothing asked of scikit-learn, or holds the fitted forest
    (100 trees, random_state 42), its accuracy and 'models_trained', after
    a run that ended with the split, the construction of the forest,
    [fit], [predict] and [accuracy_score] all returning.  Whenever it
    raises, the session state is what it was and no success is shown.  The
    inner guard [len(X) > 20] never fails: it is reached with more than 50
    rows. *)
Theorem train_models_all_or_nothing (s : Session) :
  wpe train_models
    (fun _ s' =>
       app_world s' = app_world s /\
       page s' = (page s ++ [spinner "Training advanced legal analytics models...";
                             sidebar_success "✅ Models trained successfully!"])%list /\
       (session_state s' = session_state s /\ library s' = library s \/
        exists st accuracy evs,
          session_state s' = trained_state st accuracy (session_state s) /\
          library s' = (library s ++ evs ++ training_calls)%list))
    (fun _ s' =>
       app_world s' = app_world s /\
       page s' = (page s ++ [spinner "Training advanced legal analytics models..."])%list /\
       session_state s' = session_state s /\
       exists evs, library s' = (library s ++ evs)%list)
    s.
Proof.
  assert (Hnil : library s = (library s ++ [])%list) by (rewrite app_nil_r; reflexivity).
  unfold train_models.
  apply wpe_bind, wpe_show.
  apply wpe_bind, wpe_session_get; [| intros _; simpl; eauto 6].
  intros loaded _.
  apply wpe_bind, wpe_lift; [| intros; simpl; eauto 6].
  intros [|] _.
  2:{ apply wpe_bind, wpe_ret, wpe_show. simpl. rewrite <- app_assoc. auto. }
  apply wpe_bind.
  apply wpe_bind, wpe_session_get; [| intros _; simpl; eauto 6].
  intros cases_v _.
  apply wpe_bind, wpe_lift; [| intros; simpl; eauto 6].
  intros cases_df _.
  apply wpe_bind, wpe_lift; [| intros; simpl; eauto 6].
  intros outcome _.
  apply wpe_bind, wpe_lift; [| intros; simpl; eauto 6].
  intros closed_cases _.
  destruct (50 <? nrows closed_cases)%nat eqn:Hclosed.
  2:{ apply wpe_ret, wpe_show. simpl. rewrite <- app_assoc. auto. }
  apply Nat.ltb_lt in Hclosed.
  do 3 (apply wpe_bind, wpe_construct).
  apply wpe_bind, wpe_encode_into; cbn [app_world session_state page library];
    [| intros; rewrite <- !app_assoc; eauto 6].
  intros c1 evs1 Hc1.
  apply wpe_bind, wpe_encode_into; cbn [app_world session_state page library];
    [| intros; rewrite <- !app_assoc; eauto 6].
  intros c2 evs2 Hc2.
  apply wpe_bind, wpe_encode_into; cbn [app_world session_state page library];
    [| intros; rewrite <- !app_assoc; eauto 6].
  intros c3 evs3 Hc3.
  cbv zeta.
  apply wpe_bind, wpe_lift; [| intros; simpl; rewrite <- !app_assoc; eauto 6].
  intros X _.
  apply wpe_bind, wpe_lift; [| intros; simpl; rewrite <- !app_assoc; eauto 6].
  intros oc _.
  cbn [nrows].
  replace (20 <? nrows c3)%nat with true
    by (symmetry; apply Nat.ltb_lt; lia).
  apply wpe_bind, wpe_ask; cbn [app_world session_state page library];
    [| intros; rewrite <- !app_assoc; eauto 6].
  intros [[X_train X_test] [y_train y_test]] _.
  apply wpe_bind, wpe_construct. cbn [app_world session_state page library cls params].
  apply wpe_bind, wpe_ask; cbn [app_world session_state page library];
    [| intros; rewrite <- !app_assoc; eauto 6].
  intros st _.
  apply wpe_bind, wpe_ask; cbn [app_world session_state page library cls params];
    [| intros; rewrite <- !app_assoc; eauto 6].
  intros y_pred _.
  apply wpe_bind, wpe_ask; cbn [app_world session_state page library];
    [| intros; rewrite <- !app_assoc; eauto 6].
  intros accuracy _.
  do 2 (apply wpe_bind, wpe_session_set). apply wpe_session_set.
  apply wpe_show. cbn [app_world session_state page library].
  split; [reflexivity |]. split; [rewrite <- app_assoc; reflexivity |].
  right. exists st, accuracy.
  exists ([Construct LabelEncoder; Construct LabelEncoder; Construct LabelEncoder]
            ++ evs1 ++ evs2 ++ evs3)%list.
  split; [reflexivity |].
  unfold training_calls. rewrite <- !app_assoc. reflexivity.
Qed.

Lemma wp_run {S A} (c : Py S A) (x : A) (s t : S) :
  wp c (fun a s' => a = x /\ s' = t) s -> c s = (Return x, t).
Proof.
  intros Hc. apply wp_returns in Hc as (a & s' & Hrun & -> & ->). exact Hrun.
Qed.

Lemma wp_session_get k v (Q : session_value -> Session -> Prop) (s : Session) :
  session_state s !! k = Some v -> Q v s -> wp (session_get k) Q s.
Proof.
  intros Hk HQ. apply wpe_session_get.
  - intros v' Hv'. rewrite Hk in Hv'. injection Hv' as <-. exact HQ.
  - intros Hnone. rewrite Hk in Hnone. discriminate.
Qed.

(** X24. The success message does not mean that a model was trained: when
    no data is loaded, or at most 50 cases of the loaded table have an
    outcome, [train_models] returns having shown 'Models trained
    successfully!', although it asked nothing of scikit-learn and left the
    session, 'models_trained' included, as it was. *)
Theorem train_models_reports_success_untrained (s : Session) :
  too_few_closed s ->
  train_models s
  = (Return tt,
     mkSession (app_world s) (session_state s)
       (page s ++ [spinner "Training advanced legal analytics models...";
                   sidebar_success "✅ Models trained successfully!"])
       (library s)).
Proof.
  intros (v & Hv & Hcase).
  apply wp_run. unfold train_models.
  apply wp_bind, wpe_show.
  apply wp_bind, wp_session_get with (v := v); [exact Hv |].
  destruct Hcase as [Ht | (Ht & df & outcome & Hdf & Hout & Hlen & Hfew)].
  - eapply wp_bind, wp_lift; [exact Ht |].
    apply wp_bind, wp_ret, wpe_show.
    cbn [session_state app_world page library].
    rewrite <- app_assoc. auto.
  - eapply wp_bind, wp_lift; [exact Ht |].
    apply wp_bind.
    apply wp_bind, wp_session_get with (v := SFrame df); [exact Hdf |].
    eapply wp_bind, wp_lift; [reflexivity |].
    eapply wp_bind, wp_lift; [exact Hout |].
    eapply wp_bind, wp_lift.
    { unfold filter_rows.
      replace (length (notna outcome) =? nrows df)%nat with true; [reflexivity |].
      symmetry. apply Nat.eqb_eq. rewrite <- Hlen.
      destruct outcome; simpl; apply length_map. }
    cbn [nrows].
    replace (50 <? count (notna outcome))%nat with false
      by (symmetry; apply Nat.ltb_ge; exact Hfew).
    apply wp_ret, wpe_show.
    cbn [session_state app_world page library].
    rewrite <- app_assoc. auto.
Qed.

End StreamlitSpec.

(** ** The Streamlit application: the session, loading and the sidebar *)

Section StreamlitRuns.
Context `{NumpyRandom} `{SklearnFrames}.

Lemma lookup_ensure k v (m : gmap string session_value) k' :
  ensure k v m !! k'
  = match m !! k' with
    | Some x => Some x
    | None => if String.eqb k' k then Some v else None
    end.
Proof.
  unfold ensure. destruct (String.eqb_spec k' k) as [-> | Hne].
  - destruct (m !! k) eqn:Hk; [rewrite Hk; reflexivity |].
    rewrite lookup_insert_eq. reflexivity.
  - destruct (m !! k) eqn:Hk.
    + destruct (m !! k'); reflexivity.
    + rewrite lookup_insert_ne by congruence. destruct (m !! k'); reflexivity.
Qed.

Lemma ensure_present k v (m : gmap string session_value) x :
  m !! k = Some x -> ensure k v m = m.
Proof. unfold ensure. intros ->. reflexivity. Qed.

Lemma wp_ensure k v (Q : unit -> Session -> Prop) (s : Session) :
  Q tt (mkSession (app_world s) (ensure k v (session_state s)) (page s) (library s)) ->
  wp (if match session_state s !! k with Some _ => false | None => true end
      then session_set k v else ret tt) Q s.
Proof.
  intros HQ. unfold ensure in HQ. destruct (session_state s !! k).
  - apply wp_ret. destruct s; exact HQ.
  - apply wpe_session_set. exact HQ.
Qed.

Lemma App_init_run (s : Session) :
  App_init s
  = (Return tt,
     mkSession (app_world s)
       (ensure "compliance_data" SNone
          (ensure "contracts" SNone
             (ensure "legal_cases" SNone
                (ensure "models_trained" (SBool false)
                   (ensure "data_loaded" (SBool false) (session_state s))))))
       (page s) (library s)).
Proof.
  apply wp_run. unfold App_init.
  do 4 (apply wp_bind, wpe_session_lacks; apply wp_bind, wp_ensure;
        cbn [session_state app_world page library]).
  apply wp_bind, wpe_session_lacks. apply wp_ensure.
  cbn [session_state app_world page library]. split; reflexivity.
Qed.

(** X21. Creating the application never resets the session: [__init__]
    gives each of the five keys its default only where the session has no
    value for it and keeps every value the session has; it touches neither
    the page nor the generator nor scikit-learn, and run again it changes
    nothing.  So a rerun of the script keeps the loaded data. *)
Theorem App_init_keeps_session (s : Session) :
  exists s',
    App_init s = (Return tt, s') /\
    app_world s' = app_world s /\ page s' = page s /\ library s' = library s /\
    (forall k,
       session_state s' !! k
       = match session_state s !! k with
         | Some v => Some v
         | None => assoc k session_defaults
         end) /\
    App_init s' = (Return tt, s').
Proof.
  eexists. split; [apply App_init_run |].
  cbn [session_state app_world page library].
  assert (Hlook : forall k,
            ensure "compliance_data" SNone
              (ensure "contracts" SNone
                 (ensure "legal_cases" SNone
                    (ensure "models_trained" (SBool false)
                       (ensure "data_loaded" (SBool false) (session_state s))))) !! k
            = match session_state s !! k with
              | Some v => Some v
              | None => assoc k session_defaults
              end).
  { intros k. rewrite !lookup_ensure. cbn [assoc session_defaults].
    destruct (session_state s !! k); [reflexivity |].
    repeat match goal with
           | |- context [String.eqb k ?c] => destruct (String.eqb k c); [reflexivity |]
           end.
    reflexivity. }
  repeat split; [exact Hlook |].
  rewrite App_init_run. cbn [session_state app_world page library].
  set (m := ensure "compliance_data" _ _) in *.
  assert (Hin : forall k, In k (map fst session_defaults) -> is_Some (m !! k)).
  { intros k Hk. rewrite Hlook. destruct (session_state s !! k); [eauto |].
    cbn in Hk. destruct Hk as [<- | [<- | [<- | [<- | [<- | []]]]]]; vm_compute; eauto. }
  assert (Hens : forall k v, In k (map fst session_defaults) -> ensure k v m = m).
  { intros k v Hk. destruct (Hin k Hk) as [x Hx]. eapply ensure_present; exact Hx. }
  rewrite !Hens by (cbn; auto 10). reflexivity.
Qed.

Lemma wp_in_app {A} (c : Py AppWorld A) (P : A -> Prop) (Q : A -> Session -> Prop)
    (s : Session) :
  wp c (fun a _ => P a) (app_world s) ->
  (forall a w, P a -> Q a (mkSession w (session_state s) (page s) (library s))) ->
  wp (in_app c) Q s.
Proof.
  intros Hc HQ. unfold in_app. apply wpe_zoom.
  eapply wpe_mono; [exact Hc | | auto].
  intros a w Ha. apply HQ. exact Ha.
Qed.

(** X22. [load_legal_data] always returns.  It stores the table of 300
    cases, and tables of 200 contracts, 1536 compliance assessments and 50
    vendors, under their four keys and sets 'data_loaded'; the other keys
    of the session are left as they were, nothing is asked of
    scikit-learn, and the page gets the spinner and then the success
    message of the sidebar. *)
Theorem load_legal_data_stores_tables (s : Session) :
  wp load_legal_data
    (fun _ s' =>
       exists x contracts compliance vendors,
         session_state s'
         = <["data_loaded" := SBool true]>
             (<["vendor_data" := SFrame vendors]>
                (<["compliance_data" := SFrame compliance]>
                   (<["contracts" := SFrame contracts]>
                      (<["legal_cases" := SFrame (legal_cases_frame 300 x)]>
                         (session_state s))))) /\
         case_samples_ok 300 x /\
         nrows contracts = 200%nat /\
         nrows compliance = 1536%nat /\
         nrows vendors = 50%nat /\
         page s' = (page s ++ [spinner "Loading legal operations data...";
                               sidebar_success "✅ Legal data loaded successfully!"])%list /\
         library s' = library s) s.
Proof.
  unfold load_legal_data.
  apply wp_bind, wpe_show. cbn [session_state app_world page library].
  apply wp_bind.
  apply wp_in_app with
    (P := fun df => exists x, df = legal_cases_frame 300 x /\ case_samples_ok 300 x).
  { eapply wp_mono; [apply generate_legal_cases_data_frame; lia |].
    intros df w [Hdf _]. exact Hdf. }
  intros cases w1 (x & -> & Hx). cbn [session_state app_world page library].
  apply wp_bind.
  apply wp_in_app with (P := fun df => nrows df = 200%nat).
  { eapply wp_mono; [apply generate_contracts_data_frame; lia |].
    intros df w [(a1 & a2 & a3 & a4 & a5 & a6 & a7 & a8 & a9 & -> & _) _].
    unfold contracts_frame. cbn [nrows]. lia. }
  intros contracts w2 Hcontracts. cbn [session_state app_world page library].
  apply wp_bind.
  apply wp_in_app with (P := fun df => nrows df = 1536%nat).
  { eapply wp_mono; [apply generate_compliance_data_frame |].
    intros df w (data & Hdata & _ & ->). cbn [nrows].
    rewrite <- (length_map assessment_of), Hdata. apply length_assessments. }
  intros compliance w3 Hcompliance. cbn [session_state app_world page library].
  apply wp_bind.
  apply wp_in_app with (P := fun df => nrows df = 50%nat).
  { eapply wp_mono; [apply generate_vendor_data_frame; lia |].
    intros df w [(a1 & a2 & a3 & a4 & a5 & a6 & a7 & a8 & -> & _) _].
    unfold vendors_frame. cbn [nrows]. lia. }
  intros vendors w4 Hvendors. cbn [session_state app_world page library].
  unfold wp.
  do 5 (apply wpe_bind, wpe_session_set; cbn [session_state app_world page library]).
  apply wpe_show.
  cbn [session_state app_world page library].
  exists x, contracts, compliance, vendors.
  rewrite <- app_assoc.
  split; [reflexivity |]. split; [exact Hx |]. split; [exact Hcontracts |].
  split; [exact Hcompliance |]. split; [exact Hvendors |]. split; reflexivity.
Qed.

(** X25. The sidebar trains only on loaded data: in a run where the load
    button is not clicked and the session has 'data_loaded' false,
    [render_sidebar] returns the section and the two selections of the
    user, leaves the session, the generator and scikit-learn untouched,
    reports the data as not loaded, shows the error 'Please load data
    first!' exactly when the train button was clicked, and never the
    success message of training. *)
Theorem render_sidebar_guards_training (u : Widgets) (s : Session) (trained : bool) :
  load_clicked u = false ->
  session_state s !! "data_loaded" = Some (SBool false) ->
  session_state s !! "models_trained" = Some (SBool trained) ->
  wp (render_sidebar u)
    (fun r s' =>
       r = (chosen_section u, chosen_areas u, chosen_levels u) /\
       app_world s' = app_world s /\
       session_state s' = session_state s /\
       library s' = library s /\
       exists new,
         page s' = (page s ++ new)%list /\
         (In (mkElement "st.sidebar" "error" [Lit "Please load data first!"] [] []) new
          <-> train_clicked u = true) /\
         In (mkElement "st.sidebar" "write" [Lit "Data Status: ❌ Not Loaded"] [] []) new /\
         ~ In (sidebar_success "✅ Models trained successfully!") new) s.
Proof.
  intros Hload Hdata Htrained.
  unfold render_sidebar. rewrite Hload. cbv zeta.
  apply wp_bind, wpe_show. cbn [session_state app_world page library].
  apply wp_bind, wpe_widget. cbn [session_state app_world page library].
  do 3 (apply wp_bind, wpe_show; cbn [session_state app_world page library]).
  apply wp_bind, wp_ret.
  apply wp_bind, wpe_show. cbn [session_state app_world page library].
  apply wp_bind.
  apply wp_mono with
    (Q := fun _ s' =>
            app_world s' = app_world s /\ session_state s' = session_state s /\
            library s' = library s /\
            exists new,
              page s' = (page s ++ new)%list /\
              (In (mkElement "st.sidebar" "error" [Lit "Please load data first!"] [] []) new
               <-> train_clicked u = true) /\
              ~ In (mkElement "st.sidebar" "write" [Lit "Data Status: ❌ Not Loaded"] [] []) new /\
              ~ In (sidebar_success "✅ Models trained successfully!") new).
  { destruct (train_clicked u).
    - apply wp_bind, wp_session_get with (v := SBool false); [exact Hdata |].
      eapply wp_bind, wp_lift; [reflexivity |].
      apply wpe_show. cbn [session_state app_world page library].
      repeat (split; [reflexivity |]).
      rewrite <- !app_assoc. eexists. split; [reflexivity |].
      split; [| split].
      + split; [reflexivity |]. intros _. cbn. auto 10.
      + intros Hin. repeat (destruct Hin as [Hin | Hin]; [discriminate Hin |]). exact Hin.
      + intros Hin. repeat (destruct Hin as [Hin | Hin]; [discriminate Hin |]). exact Hin.
    - apply wp_ret. cbn [session_state app_world page library].
      repeat (split; [reflexivity |]).
      rewrite <- !app_assoc. eexists. split; [reflexivity |].
      split; [| split].
      + split; [| discriminate].
        intros Hin. repeat (destruct Hin as [Hin | Hin]; [discriminate Hin |]). destruct Hin.
      + intros Hin. repeat (destruct Hin as [Hin | Hin]; [discriminate Hin |]). exact Hin.
      + intros Hin. repeat (destruct Hin as [Hin | Hin]; [discriminate Hin |]). exact Hin. }
  intros [] s1 (Hw & Hm & Hl & new & Hpage & Herr & Hnot & Hnos).
  apply wp_bind, wpe_show. cbn [session_state app_world page library].
  do 2 (apply wp_bind, wpe_widget; cbn [session_state app_world page library]).
  apply wp_bind, wpe_show. cbn [session_state app_world page library].
  apply wp_bind, wp_session_get with (v := SBool false);
    [cbn [session_state]; rewrite Hm; exact Hdata |].
  eapply wp_bind, wp_lift; [reflexivity |].
  apply wp_bind, wp_session_get with (v := SBool trained);
    [cbn [session_state]; rewrite Hm; exact Htrained |].
  eapply wp_bind, wp_lift; [reflexivity |].
  do 2 (apply wp_bind, wpe_show; cbn [session_state app_world page library]).
  apply wp_ret. cbn [session_state app_world page library].
  split; [reflexivity |]. do 3 (split; [assumption |]).
  rewrite Hpage, <- !app_assoc. eexists. split; [reflexivity |].
  split; [| split].
  - rewrite <- Herr. rewrite in_app_iff. split; [| auto].
    intros [Hin | Hin]; [exact Hin |].
    repeat (destruct Hin as [Hin | Hin]; [destruct trained; discriminate Hin |]).
    destruct Hin.
  - apply in_or_app. right. cbn. auto 10.
  - rewrite in_app_iff. intros [Hin | Hin]; [exact (Hnos Hin) |].
    repeat (destruct Hin as [Hin | Hin]; [destruct trained; discriminate Hin |]).
    destruct Hin.
Qed.

End StreamlitRuns.

(** ** The properties on the executable instances *)

(** X20 at the second of four vendors. *)
Lemma generate_vendor_data_rows_witness :
  exists df w' (vendor_type diversity : string) (spend : Q) (contract_start terms : Z),
    @generate_vendor_data Toy.lcg 4 (@mkAppWorld Toy.lcg 0 0) = (Return df, w') /\
    nrows df = Z.to_nat 4 /\
    loc_at df (Z.of_nat 1) "vendor_id"
    = Return (CObj (PStr (String.append "VENDOR-" (zfill 3 (Z.of_nat 1))))) /\
    loc_at df (Z.of_nat 1) "vendor_name"
    = Return (CObj (PStr (String.append "Vendor_" (str (Z.of_nat 1 + 1))))) /\
    loc_at df (Z.of_nat 1) "vendor_type" = Return (CObj (PStr vendor_type)) /\
    loc_at df (Z.of_nat 1) "annual_spend" = Return (CFloat (Fin spend)) /\
    loc_at df (Z.of_nat 1) "diversity_status" = Return (CObj (PStr diversity)) /\
    loc_at df (Z.of_nat 1) "contract_start" = Return (CDate contract_start) /\
    loc_at df (Z.of_nat 1) "payment_terms_days" = Return (CInt terms) /\
    In vendor_type vendor_types /\
    (0 < spend)%Q /\
    In diversity ["Diverse"; "Non-Diverse"] /\
    Timestamp 2019 1 1 <= contract_start <= Timestamp 2023 12 31 /\
    In terms [30; 45; 60].
Proof.
  apply (@generate_vendor_data_rows Toy.lcg 4 (@mkAppWorld Toy.lcg 0 0) 1).
  simpl. lia.
Defined.

(** X15 at the fifth of six cases. *)
Lemma generate_legal_cases_data_identity_witness :
  exists df w' (filed attorney client firm : Z),
    @generate_legal_cases_data Toy.lcg 6 (@mkAppWorld Toy.lcg 0 0) = (Return df, w') /\
    nrows df = Z.to_nat 6 /\
    loc_at df (Z.of_nat 4) "case_id"
    = Return (CObj (PStr (String.append "CASE-" (zfill 4 (Z.of_nat 4))))) /\
    loc_at df (Z.of_nat 4) "case_name"
    = Return (CObj (PStr (String.append "Legal Matter " (str (Z.of_nat 4 + 1))))) /\
    loc_at df (Z.of_nat 4) "filing_date" = Return (CDate filed) /\
    Timestamp 2020 1 1 <= filed <= Timestamp 2024 12 31 /\
    loc_at df (Z.of_nat 4) "assigned_attorney"
    = Return (CObj (PStr (String.append "Attorney_" (str attorney)))) /\
    1 <= attorney <= 24 /\
    loc_at df (Z.of_nat 4) "client"
    = Return (CObj (PStr (String.append "Client_" (str client)))) /\
    1 <= client <= 49 /\
    loc_at df (Z.of_nat 4) "opposing_counsel"
    = Return (CObj (PStr (String.append "Opposing_Firm_" (str firm)))) /\
    1 <= firm <= 29.
Proof.
  apply (@generate_legal_cases_data_identity Toy.lcg 6 (@mkAppWorld Toy.lcg 0 0) 4).
  simpl. lia.
Defined.

(** X16 at the eighth of twenty-five cases. *)
Lemma generate_legal_cases_data_money_witness :
  exists df w' (level : string) (settlement : float) (exposure fees cost : Q),
    @generate_legal_cases_data Toy.lcg 25 (@mkAppWorld Toy.lcg 0 0) = (Return df, w') /\
    loc_at df (Z.of_nat 7) "risk_level" = Return (CObj (PStr level)) /\
    In level ["Low"; "Medium"; "High"; "Critical"] /\
    loc_at df (Z.of_nat 7) "potential_exposure" = Return (CFloat (Fin exposure)) /\
    loc_at df (Z.of_nat 7) "legal_fees_spent" = Return (CFloat (Fin fees)) /\
    loc_at df (Z.of_nat 7) "estimated_total_cost" = Return (CFloat (Fin cost)) /\
    loc_at df (Z.of_nat 7) "settlement_amount" = Return (CFloat settlement) /\
    (0 < exposure)%Q /\
    ((5 # 100) * exposure <= fees)%Q /\ (fees < (25 # 100) * exposure)%Q /\
    ((12 # 10) * fees <= cost)%Q /\ (cost < 3 * fees)%Q /\
    (settlement = NaN \/
     exists amount, settlement = Fin amount /\
                    ((1 # 10) * exposure <= amount)%Q /\ (amount < (8 # 10) * exposure)%Q).
Proof.
  apply (@generate_legal_cases_data_money Toy.lcg 25 (@mkAppWorld Toy.lcg 0 0) 7).
  simpl. lia.
Defined.

Lemma labelled_run_returns :
  @prepare_data_for_modeling Toy.all_ok (@mkTrainState Toy.all_ok init two_cases_labelled [])
  = (Return labelled_features, snd labelled_run).
Proof. vm_compute. reflexivity. Qed.

(** X10 at the platform left by a first call on two labelled cases. *)
Lemma prepare_data_for_modeling_reuses_encoders_witness :
  Forall (@fitted_encoder Toy.all_ok (platform (snd labelled_run))) categorical_cols /\
  forall (F : DataFrame) (C : list event),
    platform (snd (@prepare_data_for_modeling Toy.all_ok
                     (mkTrainState (platform (snd labelled_run)) F C)))
    = platform (snd labelled_run) /\
    exists evs,
      calls (snd (@prepare_data_for_modeling Toy.all_ok
                    (mkTrainState (platform (snd labelled_run)) F C)))
      = (C ++ evs)%list /\
      Forall transform_call evs.
Proof.
  exact (@prepare_data_for_modeling_reuses_encoders Toy.all_ok
           (@mkTrainState Toy.all_ok init two_cases_labelled [])
           (snd labelled_run) labelled_features labelled_run_returns).
Defined.

(** X11 at a new platform and the two cases without labels. *)
Lemma prepare_data_for_modeling_unfitted_encoder_witness :
  let P' := @set_encoder Toy.all_ok "practice_area" (mkEstimator LabelEncoder [] None) init in
  exists F1,
    @prepare_data_for_modeling Toy.all_ok (mkTrainState init two_cases [])
    = (Raise (KeyError "practice_area"),
       mkTrainState P' F1 ([] ++ [Construct LabelEncoder])) /\
    forall (F' : DataFrame) (C' : list event) (v : column),
      float_columns engineer_inputs F' ->
      getitem F' "practice_area" = Return v ->
      fst (@prepare_data_for_modeling Toy.all_ok (mkTrainState P' F' C'))
      = Raise (LibraryError "sklearn" "NotFittedError").
Proof.
  apply (@prepare_data_for_modeling_unfitted_encoder Toy.all_ok init two_cases []).
  - unfold float_columns, engineer_inputs.
    repeat (apply List.Forall_cons; [eexists; split; reflexivity |]).
    apply List.Forall_nil.
  - reflexivity.
  - reflexivity.
Defined.

(** X24 at a session before any data is loaded. *)
Lemma train_models_reports_success_untrained_witness :
  @train_models Toy.lcg Toy.all_ok ToyApp.frames_ok fresh_session
  = (Return tt,
     mkSession (app_world fresh_session) (session_state fresh_session)
       (page fresh_session
        ++ [spinner "Training advanced legal analytics models...";
            sidebar_success "✅ Models trained successfully!"])
       (library fresh_session)).
Proof.
  apply (@train_models_reports_success_untrained Toy.lcg Toy.all_ok ToyApp.frames_ok
           fresh_session).
  exists (SBool false). split; [reflexivity |]. left. reflexivity.
Defined.

(** X25 at a click on the train button before any data is loaded. *)
Lemma render_sidebar_guards_training_witness :
  wp (@render_sidebar Toy.lcg Toy.all_ok ToyApp.frames_ok train_click)
    (fun r s' =>
       r = (chosen_section train_click, chosen_areas train_click,
            chosen_levels train_click) /\
       app_world s' = app_world fresh_session /\
       session_state s' = session_state fresh_session /\
       library s' = library fresh_session /\
       exists new,
         page s' = (page fresh_session ++ new)%list /\
         (In (mkElement "st.sidebar" "error" [Lit "Please load data first!"] [] []) new
          <-> train_clicked train_click = true) /\
         In (mkElement "st.sidebar" "write" [Lit "Data Status: ❌ Not Loaded"] [] []) new /\
         ~ In (sidebar_success "✅ Models trained successfully!") new) fresh_session.
Proof.
  apply (@render_sidebar_guards_training Toy.lcg Toy.all_ok ToyApp.frames_ok
           train_click fresh_session false); reflexivity.
Defined.

(** ** The outcome prediction *)

Lemma flt_Fin (x y : Q) : flt (Fin x) (Fin y) = true <-> (x < y)%Q.
Proof.
  unfold flt. rewrite negb_true_iff. split.
  - intros Hle. apply Qnot_le_lt. intros Hyx. apply Qle_bool_iff in Hyx. congruence.
  - intros Hlt. destruct (Qle_bool y x) eqn:Hle; [| reflexivity].
    apply Qle_bool_iff in Hle. lra.
Qed.

Lemma flt_Fin_false (x y : Q) : flt (Fin x) (Fin y) = false <-> (y <= x)%Q.
Proof.
  unfold flt. rewrite negb_false_iff. apply Qle_bool_iff.
Qed.

Lemma exposure_adj_value (exposure : Q) :
  (0 <= exposure)%Q ->
  exists e,
    py_min (Fin (2 # 10)) (fmul (fdiv (Fin exposure) (Fin 10000000)) (Fin (1 # 10))) = Fin e /\
    (0 <= e)%Q /\ (e <= 2 # 10)%Q /\ (e < 4 # 100 <-> exposure < 4000000)%Q.
Proof.
  intros Hpos.
  change (fdiv (Fin exposure) (Fin 10000000)) with (Fin (exposure * (1 # 10000000))).
  cbn [fmul]. unfold py_min.
  destruct (flt (Fin (exposure * (1 # 10000000) * (1 # 10))) (Fin (2 # 10))) eqn:Hlt.
  - apply flt_Fin in Hlt. eexists. split; [reflexivity |].
    repeat split; try lra.
  - apply flt_Fin_false in Hlt. eexists. split; [reflexivity |].
    repeat split; try lra.
Qed.

Lemma win_probability_value (adj e risk : Q) :
  exists p,
    py_max (Fin (1 # 10))
      (py_min (Fin (9 # 10))
         (fsub (fsub (fadd (Fin (6 # 10)) (Fin adj)) (Fin e))
            (fmul (Fin risk) (Fin (3 # 10))))) = Fin p /\
    (1 # 10 <= p)%Q /\ (p <= 9 # 10)%Q /\
    ((1 # 10 <= (6 # 10) + adj - e - risk * (3 # 10) <= 9 # 10)%Q ->
     (p == (6 # 10) + adj - e - risk * (3 # 10))%Q) /\
    (((6 # 10) + adj - e - risk * (3 # 10) <= 1 # 10)%Q -> (p == 1 # 10)%Q).
Proof.
  cbn [fsub fadd fneg fmul]. unfold py_min, py_max.
  destruct (flt (Fin ((6 # 10) + adj + - e + - (risk * (3 # 10)))) (Fin (9 # 10))) eqn:Hhi.
  - apply flt_Fin in Hhi.
    destruct (flt (Fin (1 # 10)) (Fin ((6 # 10) + adj + - e + - (risk * (3 # 10)))))
      eqn:Hlo.
    + apply flt_Fin in Hlo. eexists. split; [reflexivity |]. repeat split; try lra.
    + apply flt_Fin_false in Hlo. eexists. split; [reflexivity |]. repeat split; try lra.
  - apply flt_Fin_false in Hhi. eexists. split; [reflexivity |].
    repeat split; try lra; intros; try lra.
Qed.

Section Prediction.
Context `{NumpyRandom} `{SklearnFrames}.

Lemma wpe_show_pieces a b c Q E (s : Session) :
  Q tt (mkSession (app_world s) (session_state s)
          (page s ++ [mkElement a b c [] []]) (library s)) ->
  wpe (show_pieces a b c) Q E s.
Proof. intros HQ. unfold show_pieces. apply wpe_modify. exact HQ. Qed.

(** X26. The outcome prediction of [render_litigation_management], in exact
    arithmetic: for the selected case, with a risk level among the four, a
    non-negative exposure and numeric fees, the block returns and shows
    the three cards; the win probability lies between 10 and 64 percent,
    so the upper clamp at 90 percent is never reached; the estimated cost
    is the fees times a factor of at least 1.5 and less than 3; and the
    recommendation is 'Proceed' exactly for a Corporate case of Low risk
    with an exposure under 4,000,000, 'Consider Settlement' otherwise.
    Neither the session nor scikit-learn is touched: the trained model is
    not used. *)
Theorem predict_outcome_recommendation (active_cases : DataFrame) (selected_case : string)
    (row : list (string * cell)) (level area : string) (exposure fees : Q) (s : Session) :
  selected_row active_cases selected_case row ->
  row_get row "risk_level" = Return (CObj (PStr level)) ->
  In level ["Low"; "Medium"; "High"; "Critical"] ->
  row_get row "practice_area" = Return (CObj (PStr area)) ->
  row_get row "potential_exposure" = Return (CFloat (Fin exposure)) ->
  (0 <= exposure)%Q ->
  row_get row "legal_fees_spent" = Return (CFloat (Fin fees)) ->
  wp (predict_outcome active_cases selected_case)
    (fun _ s' =>
       exists (p u : Q) (action : string),
         page s'
         = (page s ++
            [ mkElement "st" "columns" [Fmt (PInt 3) ""] [] [];
              mkElement "col1" "markdown, unsafe_allow_html=True"
                (card "Win Probability" [Fmt (PFloat (Fin p)) ".1%"]) [] [];
              mkElement "col2" "markdown, unsafe_allow_html=True"
                (card "Estimated Total Cost"
                   [Lit "$"; Fmt (PFloat (Fin (fees * u / 1000000))) ".1f"; Lit "M"]) [] [];
              mkElement "col3" "markdown, unsafe_allow_html=True"
                (card "Recommendation" [Lit action]) [] [] ])%list /\
         session_state s' = session_state s /\
         library s' = library s /\
         (1 # 10 <= p)%Q /\ (p <= 64 # 100)%Q /\
         (15 # 10 <= u)%Q /\ (u < 3)%Q /\
         (action = "Proceed" /\
            area = "Corporate" /\ level = "Low" /\ (exposure < 4000000)%Q
          \/ action = "Consider Settlement" /\
             ~ (area = "Corporate" /\ level = "Low" /\ (exposure < 4000000)%Q))) s.
Proof.
  intros (ids & chosen & Hids & Hchosen & Hrow) Hlevel Hin Harea Hexposure Hpos Hfees.
  assert (exists risk,
            dict_get [("Low", 2 # 10); ("Medium", 4 # 10); ("High", 7 # 10);
                      ("Critical", 9 # 10)]%Q (CObj (PStr level)) = Return risk /\
            (level = "Low" /\ risk = (2 # 10)%Q \/ level <> "Low" /\ (4 # 10 <= risk)%Q))
    as (risk & Hrisk & Hrisk_case).
  { cbn [In] in Hin. destruct Hin as [<- | [<- | [<- | [<- | []]]]];
      (eexists; split; [reflexivity |]); [left; auto | right | right | right];
      (split; [discriminate | lra]). }
  assert (exists adj,
            dict_get_default
              [("Corporate", 1 # 10); ("Employment", - (1 # 10)); ("IP", 5 # 100);
               ("Litigation", - (5 # 100)); ("Regulatory", - (15 # 100))]%Q
              (CObj (PStr area)) 0%Q = adj /\
            (area = "Corporate" /\ adj = (1 # 10)%Q
             \/ area <> "Corporate" /\ (adj <= 5 # 100)%Q))
    as (adj & Hadj & Hadj_case).
  { eexists. split; [reflexivity |].
    cbn [dict_get_default assoc].
    destruct (String.eqb_spec area "Corporate") as [-> | Hne]; [left; auto |].
    right. split; [exact Hne |].
    repeat match goal with
           | |- context [String.eqb area ?c] => destruct (String.eqb area c)
           end; lra. }
  destruct (exposure_adj_value exposure Hpos) as (e & He & He0 & He2 & He4).
  destruct (win_probability_value adj e risk) as (p & Hp & Hp1 & Hp9 & Hmid & Hlow).
  unfold predict_outcome.
  eapply wp_bind, wp_lift; [exact Hids |].
  eapply wp_bind, wp_lift; [exact Hchosen |].
  eapply wp_bind, wp_lift; [exact Hrow |].
  eapply wp_bind, wp_lift; [exact Hlevel |].
  eapply wp_bind, wp_lift; [exact Hrisk |].
  cbv zeta.
  eapply wp_bind, wp_lift; [exact Harea |].
  rewrite Hadj.
  eapply wp_bind, wp_lift; [exact Hexposure |].
  eapply wp_bind, wp_lift; [reflexivity |].
  rewrite He, Hp.
  apply wp_bind, wpe_show_pieces. cbn [session_state app_world page library].
  apply wp_bind, wpe_show_pieces. cbn [session_state app_world page library].
  eapply wp_bind, wp_lift; [exact Hfees |].
  apply wp_bind.
  apply wp_in_app with (P := fun u => (15 # 10 <= u)%Q /\ (u < 3)%Q).
  { cbn [app_world].
    eapply wp_mono;
      [apply (wp_rng (uniform (15 # 10) 3) (fun u => (15 # 10 <= u)%Q /\ (u < 3)%Q)) |].
    - intros r. eapply wp_mono; [apply wp_uniform; lra |].
      cbv beta. intros u _ [Hlo Hhi]. split; [exact Hlo | apply Hhi; lra].
    - cbv beta. intros u _ [Hu _]. exact Hu. }
  intros u w [Hu_lo Hu_hi]. cbn [session_state app_world page library].
  eapply wp_bind, wp_lift; [reflexivity |].
  apply wp_bind, wpe_show_pieces. cbn [session_state app_world page library].
  apply wpe_show_pieces. cbn [session_state app_world page library].
  exists p, u.
  destruct (flt (Fin (6 # 10)) (Fin p)) eqn:Hgo.
  - apply flt_Fin in Hgo. exists "Proceed".
    rewrite <- !app_assoc.
    split; [reflexivity |]. do 2 (split; [reflexivity |]).
    destruct Hadj_case as [[-> ->] | [Hne Hle]], Hrisk_case as [[-> ->] | [Hnl Hge]];
      try (exfalso; destruct (Qlt_le_dec ((6 # 10) + adj - e - risk * (3 # 10)) (1 # 10));
           [specialize (Hlow ltac:(lra)) | specialize (Hmid ltac:(lra))]; lra).
    + specialize (Hmid ltac:(lra)).
      repeat split; try lra. left. repeat split. apply He4. lra.
    + exfalso.
      destruct (Qlt_le_dec ((6 # 10) + (1 # 10) - e - risk * (3 # 10)) (1 # 10));
        [specialize (Hlow ltac:(lra)) | specialize (Hmid ltac:(lra))]; lra.
    + exfalso.
      destruct (Qlt_le_dec ((6 # 10) + adj - e - (2 # 10) * (3 # 10)) (1 # 10));
        [specialize (Hlow ltac:(lra)) | specialize (Hmid ltac:(lra))]; lra.
  - apply flt_Fin_false in Hgo. exists "Consider Settlement".
    rewrite <- !app_assoc.
    split; [reflexivity |]. do 2 (split; [reflexivity |]).
    repeat split; try lra. right. split; [reflexivity |].
    intros (-> & -> & Hsmall).
    destruct Hadj_case as [[_ ->] | [Hne _]]; [| congruence].
    destruct Hrisk_case as [[_ ->] | [Hnl _]]; [| congruence].
    apply He4 in Hsmall. specialize (Hmid ltac:(lra)). lra.
Qed.

End Prediction.

(** X26 at a Corporate case of Low risk with an exposure of 1,500,000. *)
Lemma predict_outcome_recommendation_witness :
  wp (@predict_outcome Toy.lcg Toy.all_ok two_active_cases "CASE-0001")
    (fun _ s' =>
       exists (p u : Q) (action : string),
         page s'
         = (page fresh_session ++
            [ mkElement "st" "columns" [Fmt (PInt 3) ""] [] [];
              mkElement "col1" "markdown, unsafe_allow_html=True"
                (card "Win Probability" [Fmt (PFloat (Fin p)) ".1%"]) [] [];
              mkElement "col2" "markdown, unsafe_allow_html=True"
                (card "Estimated Total Cost"
                   [Lit "$"; Fmt (PFloat (Fin (120000 * u / 1000000))) ".1f"; Lit "M"])
                [] [];
              mkElement "col3" "markdown, unsafe_allow_html=True"
                (card "Recommendation" [Lit action]) [] [] ])%list /\
         session_state s' = session_state fresh_session /\
         library s' = library fresh_session /\
         (1 # 10 <= p)%Q /\ (p <= 64 # 100)%Q /\
         (15 # 10 <= u)%Q /\ (u < 3)%Q /\
         (action = "Proceed" /\
            "Corporate" = "Corporate" /\ "Low" = "Low" /\ (1500000 < 4000000)%Q
          \/ action = "Consider Settlement" /\
             ~ ("Corporate" = "Corporate" /\ "Low" = "Low" /\ (1500000 < 4000000)%Q)))
    fresh_session.
Proof.
  apply (@predict_outcome_recommendation Toy.lcg Toy.all_ok
           two_active_cases "CASE-0001"
           [("case_id", CObj (PStr "CASE-0001")); ("practice_area", CObj (PStr "Corporate"));
            ("risk_level", CObj (PStr "Low")); ("potential_exposure", CFloat (Fin 1500000));
            ("legal_fees_spent", CFloat (Fin 120000))]
           "Low" "Corporate" 1500000 120000 fresh_session).
  - eexists _, _. repeat split; reflexivity.
  - reflexivity.
  - simpl. auto.
  - reflexivity.
  - reflexivity.
  - unfold Qle. simpl. lia.
  - reflexivity.
Defined.

(** ** The generated table, engineered *)

Lemma engineer_legal_features_total_hours (df df' s : DataFrame) :
  engineer_legal_features df = (Return df', s) ->
  exists l, getitem df' "total_hours" = Return (Float64 l) /\ length l = nrows df.
Proof.
  destruct df as [n cols]. intros Hrun. unfold engineer_legal_features in Hrun.
  read_run Hrun. injection Hrun as <- _. cbn [nrows].
  eexists. split; [read_engineered; reflexivity | assumption].
Qed.

Lemma legal_frame_numeric (n : Z) (x : legal_samples) :
  legal_samples_ok n x -> numeric_columns engineer_inputs (legal_frame n x).
Proof.
  intros Hok. split_samples Hok.
  unfold numeric_columns, engineer_inputs, legal_frame, total_cost_of.
  repeat (apply List.Forall_cons;
          [eexists; split; [reflexivity | cbn [nrows]; len (Z.to_nat n)] |]).
  apply List.Forall_nil.
Qed.

(** X27. The generated table can be engineered: for every [n_cases >= 0]
    the frame [generate_legal_data] returns has the twelve numeric inputs,
    so [engineer_legal_features] returns on it, with the same rows, the
    twenty-two generated columns unchanged and the column 'total_hours'
    that [main] reads. *)
Theorem engineer_legal_features_on_generated `{NumpyRandom} `{Sklearn}
    (n_cases : Z) (w : World) :
  0 <= n_cases ->
  exists df w' df',
    generate_legal_data n_cases w = (Return df, w') /\
    engineer_legal_features df = (Return df', df') /\
    nrows df' = Z.to_nat n_cases /\
    (forall c, In c (map fst (columns df)) -> getitem df' c = getitem df c) /\
    exists l, getitem df' "total_hours" = Return (Float64 l) /\
              length l = Z.to_nat n_cases.
Proof.
  intros Hn.
  destruct (wp_returns _ _ _ (generate_legal_data_frame n_cases w Hn))
    as (df & w' & Hrun & (x & -> & Hok) & Hself).
  destruct (engineer_legal_features_numeric _ (legal_frame_numeric n_cases x Hok))
    as [df' Heng].
  exists (legal_frame n_cases x), w', df'.
  split; [exact Hrun |]. split; [exact Heng |].
  pose proof (keeps_engineer_legal_features (legal_frame n_cases x) (legal_frame n_cases x)
                (conj eq_refl (fun _ _ => eq_refl))) as Hkeep.
  unfold wpe in Hkeep. rewrite Heng in Hkeep. destruct Hkeep as [Hrows Hcols].
  split; [exact Hrows |]. split.
  - intros c Hc. apply Hcols. intros Heg.
    cbn [legal_frame columns map fst In] in Hc. cbn [engineered_columns In] in Heg.
    repeat (destruct Hc as [<- | Hc];
            [repeat (destruct Heg as [Heg | Heg]; [discriminate Heg |]); exact Heg |]).
    exact Hc.
  - destruct (engineer_legal_features_total_hours _ _ _ Heng) as (l & Hl & Hlen).
    exists l. split; [exact Hl | exact Hlen].
Qed.

(** X27 at [generate_legal_data(3)]. *)
Lemma engineer_legal_features_on_generated_witness :
  exists df w' df',
    @generate_legal_data Toy.lcg Toy.all_ok 3 table_world = (Return df, w') /\
    engineer_legal_features df = (Return df', df') /\
    nrows df' = Z.to_nat 3 /\
    (forall c, In c (map fst (columns df)) -> getitem df' c = getitem df c) /\
    exists l, getitem df' "total_hours" = Return (Float64 l) /\ length l = Z.to_nat 3.
Proof.
  apply (@engineer_legal_features_on_generated Toy.lcg Toy.all_ok 3 table_world).
  lia.
Defined.

